(** * Oread: the encrypted profile store and the session manager

    A shallow embedding of the profile storage service (class
    [ProfileStorage]) and of [backend/src/core/sessionManager.js] (class
    [SessionManager]), and the properties their specification states
    about them.

    Files are a finite map from file names (inside [profilesDir]) to
    their contents, JavaScript exceptions are an explicit result, and
    every [async] method is a function in a state-and-exception monad:
    an exception keeps the writes made before it was raised. *)

From stdpp Require Import gmap strings list fin_maps.
From Stdlib Require Import ZArith Ascii String.

Local Open Scope string_scope.
Local Open Scope Z_scope.
#[local] Set Warnings "-register-all".

(** ** JavaScript values *)

Module Js.

(** The values [JSON.parse] returns.  Numbers are the integers (the
    doubles that hold an integer exactly); an object keeps its
    properties in insertion order. *)
Inductive Json : Type :=
| JNull
| JBool (b : bool)
| JNum (n : Z)
| JStr (s : string)
| JArr (items : list Json)
| JObj (fields : list (string * Json)).

(** A JavaScript value is a [Json] value or [undefined] ([None]). *)
Abbreviation value := (option Json).

(** What can be thrown. *)
Inductive exn : Type :=
| Error (message : string)   (* [new Error(message)] *)
| TypeError                  (* a property of [null] or [undefined]; a
                                property set on a primitive (modules are
                                strict code) *)
| SyntaxError                (* [JSON.parse] *)
| ENOENT.                    (* [fs]: no such file *)

Inductive Result (A : Type) : Type :=
| Ok (a : A)
| Throw (e : exn).
Arguments Ok {A} a.
Arguments Throw {A} e.

(** [ToBoolean]. *)
Definition truthy (v : value) : bool :=
  match v with
  | None | Some JNull => false
  | Some (JBool b) => b
  | Some (JNum n) => negb (bool_decide (n = 0))
  | Some (JStr s) => negb (bool_decide (s = ""))
  | Some (JArr _) | Some (JObj _) => true
  end.

(** [a || b] when [b] is never [undefined]. *)
Definition or_else (a : value) (b : Json) : Json :=
  if truthy a then default b a else b.

(** [a || b] in general. *)
Definition or_value (a b : value) : value :=
  if truthy a then a else b.

Fixpoint assoc (k : string) (fields : list (string * Json)) : value :=
  match fields with
  | [] => None
  | (k', v) :: rest => if bool_decide (k' = k) then Some v else assoc k rest
  end.

(** [o.k] for [o] other than [null]: an own property of an object,
    [undefined] otherwise (none of the names the store reads is a
    property of a string, number, boolean or array prototype). *)
Definition prop (o : Json) (k : string) : value :=
  match o with
  | JObj fields => assoc k fields
  | _ => None
  end.

(** [o.k] : a [TypeError] on [null] and [undefined]. *)
Definition member (o : value) (k : string) : Result value :=
  match o with
  | None | Some JNull => Throw TypeError
  | Some o => Ok (prop o k)
  end.

(** [o?.k]. *)
Definition opt_member (o : value) (k : string) : value :=
  match o with
  | None | Some JNull => None
  | Some o => prop o k
  end.

(** [o[k] = v] on the property list, for a key that is not an array
    index (as every key the store assigns by name): an existing
    property keeps its place, a new one goes last. *)
Fixpoint assign (k : string) (v : Json) (fields : list (string * Json))
  : list (string * Json) :=
  match fields with
  | [] => [(k, v)]
  | (k', v') :: rest =>
      if bool_decide (k' = k) then (k, v) :: rest
      else (k', v') :: assign k v rest
  end.

(** [o.k = v] in strict code: a [TypeError] unless [o] is an object.
    (On an array JavaScript would attach a named property, which
    [JSON.stringify] then leaves out; the documents of the store are
    objects and the embedding raises [TypeError] for an array as well.) *)
Definition set_prop (o : value) (k : string) (v : Json) : Result Json :=
  match o with
  | Some (JObj fields) => Ok (JObj (assign k v fields))
  | _ => Throw TypeError
  end.

(** [o.k1.k2 = v]: the object under [k1] is updated in place, which
    [o] sees. *)
Definition set_prop2 (o : value) (k1 k2 : string) (v : Json) : Result Json :=
  match member o k1 with
  | Throw e => Throw e
  | Ok inner =>
      match set_prop inner k2 v with
      | Throw e => Throw e
      | Ok inner' => set_prop o k1 inner'
      end
  end.

(** [v === s] for a string [s]. *)
Definition is_string (v : value) (s : string) : bool :=
  match v with
  | Some (JStr s') => bool_decide (s' = s)
  | _ => false
  end.

(** [!!s] for a string or [null]: [null] and the empty string are
    falsy. *)
Definition truthy_str (s : option string) : bool :=
  match s with
  | Some s => negb (bool_decide (s = ""))
  | None => false
  end.

(** [v === false] *)
Definition is_false (v : value) : bool :=
  match v with
  | Some (JBool false) => true
  | _ => false
  end.

(** *** Strings and white space

    A string is the sequence of the bytes of its UTF-8 encoding
    ([fs.readFile(path, 'utf-8')] decodes such bytes, [JSON] strings
    are encoded the same way).  Every pattern the store searches for
    is ASCII, so that positions and comparisons agree with those on
    code units. *)

(** A white-space character or a line terminator of JavaScript at the
    head of the string is dropped, again and again: TAB, LF, VT, FF,
    CR, SP, U+00A0, U+1680, U+2000 to U+200A, U+2028, U+2029, U+202F,
    U+205F, U+3000 and U+FEFF. *)
Fixpoint skip_spaces (s : string) : string :=
  match s with
  | String "009" rest | String "010" rest | String "011" rest
  | String "012" rest | String "013" rest | String " " rest =>
      skip_spaces rest
  | String "194" (String "160" rest) => skip_spaces rest
  | String "225" (String "154" (String "128" rest)) => skip_spaces rest
  | String "226" (String "128" (String c rest)) =>
      let n := nat_of_ascii c in
      if (bool_decide (128 ≤ n)%nat && bool_decide (n ≤ 138)%nat)
         || bool_decide (n = 168%nat) || bool_decide (n = 169%nat)
         || bool_decide (n = 175%nat)
      then skip_spaces rest else s
  | String "226" (String "129" (String "159" rest)) => skip_spaces rest
  | String "227" (String "128" (String "128" rest)) => skip_spaces rest
  | String "239" (String "187" (String "191" rest)) => skip_spaces rest
  | _ => s
  end.

(** The same from the end, on the reversed string. *)
Fixpoint skip_spaces_reversed (s : string) : string :=
  match s with
  | String "009" rest | String "010" rest | String "011" rest
  | String "012" rest | String "013" rest | String " " rest =>
      skip_spaces_reversed rest
  | String "160" (String "194" rest) => skip_spaces_reversed rest
  | String "128" (String "154" (String "225" rest)) => skip_spaces_reversed rest
  | String "159" (String "129" (String "226" rest)) => skip_spaces_reversed rest
  | String "128" (String "128" (String "227" rest)) => skip_spaces_reversed rest
  | String "191" (String "187" (String "239" rest)) => skip_spaces_reversed rest
  | String c (String "128" (String "226" rest)) =>
      let n := nat_of_ascii c in
      if (bool_decide (128 ≤ n)%nat && bool_decide (n ≤ 138)%nat)
         || bool_decide (n = 168%nat) || bool_decide (n = 169%nat)
         || bool_decide (n = 175%nat)
      then skip_spaces_reversed rest else s
  | _ => s
  end.

(** *** [parseInt] *)

(** What [parseInt] returns: [NaN], an integer ([-0] is [Int 0]; both
    are falsy and print as [0]) or an infinity. *)
Inductive number : Type :=
| NaN
| Int (n : Z)
| Infinity
| NegInfinity.

(** The double nearest to a natural number, ties to the even
    significand; [2 ^ 1024] and more stand for an overflow. *)
Definition round_even (m : Z) : Z :=
  if bool_decide (m < 2 ^ 53) then m
  else
    let e := Z.log2 m - 52 in
    let q := Z.shiftr m e in
    let r := m - Z.shiftl q e in
    let half := 2 ^ (e - 1) in
    let q' := if bool_decide (half < r) || (bool_decide (r = half) && Z.odd q)
              then q + 1 else q in
    Z.shiftl q' e.

(** The Number value of [sign * m]. *)
Definition to_number (negative : bool) (m : Z) : number :=
  let d := round_even m in
  if bool_decide (2 ^ 1024 ≤ d)
  then if negative then NegInfinity else Infinity
  else Int (if negative then - d else d).

Definition digit (radix : Z) (c : ascii) : option Z :=
  let n := Z.of_nat (nat_of_ascii c) in
  let d := if bool_decide (48 ≤ n ≤ 57) then Some (n - 48)
           else if bool_decide (97 ≤ n ≤ 102) then Some (n - 87)
           else if bool_decide (65 ≤ n ≤ 70) then Some (n - 55)
           else None in
  d ≫= λ d, if bool_decide (d < radix) then Some d else None.

(** The longest prefix of digits, as the integer it denotes; [None]
    when it is empty. *)
Fixpoint digits (radix : Z) (acc : option Z) (s : string) : option Z :=
  match s with
  | String c rest =>
      match digit radix c with
      | Some d => digits radix (Some (radix * default 0 acc + d)) rest
      | None => acc
      end
  | EmptyString => acc
  end.

(** [parseInt(s)] for a string: leading white space, a sign, [0x] for
    radix 16, then the digits; the integer they denote is rounded to a
    double.  (For more than 20 decimal digits ECMAScript lets an
    implementation replace the digits after the 20th by zeros before
    rounding; V8, on which the store runs, rounds the exact value.) *)
Definition parseInt_string (s : string) : number :=
  let s := skip_spaces s in
  let '(negative, s) :=
    match s with
    | String "-" rest => (true, rest)
    | String "+" rest => (false, rest)
    | _ => (false, s)
    end in
  let '(radix, s) :=
    match s with
    | String "0" (String "x" rest) | String "0" (String "X" rest) => (16, rest)
    | _ => (10, s)
    end in
  match digits radix None s with
  | Some mathInt => to_number negative mathInt
  | None => NaN
  end.

(** The least power of ten above [n], counting up from [p]. *)
Fixpoint power_of_ten_above (fuel : nat) (p n : Z) : Z :=
  match fuel with
  | O => p
  | S fuel => if bool_decide (n < p) then p
              else power_of_ten_above fuel (10 * p) n
  end.

(** [Number::toString] prints a double [n >= 1e21] as [d.ddd...e+XX]
    with the fewest digits [s] that still round to [n] (the closest
    such when there are two, the even one on a tie).  [shortest] is
    that decimal [s * 10 ^ (XX - k + 1)]: with [k] digits, the two
    multiples of [unit] around [n] are tried, for [k] from 1 to
    [fuel]. *)
Fixpoint shortest (fuel : nat) (unit n : Z) : Z :=
  match fuel with
  | O => n
  | S fuel =>
      let lo := n / unit * unit in
      let hi := lo + unit in
      let lo_ok := bool_decide (round_even lo = n) in
      let hi_ok := bool_decide (round_even hi = n) in
      if lo_ok && hi_ok then
        if bool_decide (n - lo < hi - n) then lo
        else if bool_decide (hi - n < n - lo) then hi
        else if Z.even (lo / unit) then lo else hi
      else if lo_ok then lo
      else if hi_ok then hi
      else shortest fuel (unit / 10) n
  end.

(** The digit before the point in what [Number::toString] prints for a
    double [n >= 1e21]. *)
Definition leading_digit (n : Z) : Z :=
  let above := power_of_ten_above (S (Z.to_nat (Z.log2 n))) 1 n in
  let top := above / 10 in
  let d := shortest 17 top n / top in
  if bool_decide (d = 10) then 1 else d.

(** [parseInt(n)] for a number (an integer that is a double): the
    number is printed first.  Below [1e21] all its digits are printed,
    and they denote a number that rounds back to [n]; from [1e21] on
    it is printed with an exponent, and [parseInt] stops after the
    first digit. *)
Definition parseInt_number (n : Z) : number :=
  if bool_decide (Z.abs n < 10 ^ 21) then Int n
  else Int (Z.sgn n * leading_digit (Z.abs n)).

(** [parseInt(v)].  The argument is first turned into a string: an
    array prints its items separated by commas, so only its first item
    counts; [null], booleans and objects print as text without a
    leading digit. *)
Fixpoint parseInt_json (v : Json) : number :=
  match v with
  | JNum n => parseInt_number n
  | JStr s => parseInt_string s
  | JArr (first :: _) => parseInt_json first
  | _ => NaN
  end.

Definition parseInt (v : value) : number :=
  match v with
  | Some v => parseInt_json v
  | None => NaN
  end.

(** *** The order of properties *)

Fixpoint decimal (acc : Z) (s : string) : option Z :=
  match s with
  | EmptyString => Some acc
  | String c rest =>
      let n := Z.of_nat (nat_of_ascii c) in
      if bool_decide (48 ≤ n ≤ 57) then decimal (10 * acc + (n - 48)) rest
      else None
  end.

(** An array index: the decimal numeral, with no leading zero, of an
    integer from 0 to [2 ^ 32 - 2]. *)
Definition array_index (k : string) : option Z :=
  match k with
  | EmptyString => None
  | String "0" EmptyString => Some 0
  | String "0" _ => None
  | _ =>
      n ← decimal 0 k;
      if bool_decide (n ≤ 4294967294) then Some n else None
  end.

(** An object lists its array indices first, in ascending order, and
    then its other keys in the order of their creation. *)
Fixpoint insert_index (i : Z) (k : string) (v : Json)
    (fields : list (string * Json)) : list (string * Json) :=
  match fields with
  | [] => [(k, v)]
  | (k', v') :: rest =>
      match array_index k' with
      | Some i' =>
          if bool_decide (i' = i) then (k, v) :: rest
          else if bool_decide (i < i') then (k, v) :: fields
          else (k', v') :: insert_index i k v rest
      | None => (k, v) :: fields
      end
  end.

(** [o[k] = v] for a key [k] computed at run time and a string or
    boolean [v], on an object that inherits from [Object.prototype]:
    the key [__proto__] reaches the inherited setter, which ignores a
    value that is neither an object nor [null]; an array index takes
    its place among the indices. *)
Definition define_own (k : string) (v : Json) (fields : list (string * Json))
  : list (string * Json) :=
  if bool_decide (k = "__proto__") then fields
  else match array_index k with
       | Some i => insert_index i k v fields
       | None => assign k v fields
       end.

(** *** String methods *)

Fixpoint startsWith (s pre : string) : bool :=
  match pre, s with
  | EmptyString, _ => true
  | String a pre', String b s' => bool_decide (a = b) && startsWith s' pre'
  | String _ _, EmptyString => false
  end.

Fixpoint string_drop (n : nat) (s : string) : string :=
  match n, s with
  | O, _ => s
  | S n', String _ rest => string_drop n' rest
  | S _, EmptyString => EmptyString
  end.

(** [s.endsWith(suf)] *)
Definition endsWith (s suf : string) : bool :=
  bool_decide (String.length suf ≤ String.length s)%nat &&
  bool_decide (string_drop (String.length s - String.length suf) s = suf).

(** [s.replace(pat, rep)] for a string pattern: the first occurrence
    only. *)
Fixpoint replace (s pat rep : string) : string :=
  if startsWith s pat then rep +:+ string_drop (String.length pat) s
  else match s with
       | String c rest => String c (replace rest pat rep)
       | EmptyString => EmptyString
       end.

(** [s.replace(/\\n/g, '\n')]: every backslash followed by [n] becomes
    a line feed. *)
Fixpoint unescape_newlines (s : string) : string :=
  match s with
  | String "\" (String "n" rest) => String "010" (unescape_newlines rest)
  | String c rest => String c (unescape_newlines rest)
  | EmptyString => EmptyString
  end.

(** [s.split('\n')] *)
Fixpoint split_lines (s : string) : list string :=
  match s with
  | EmptyString => [""]
  | String c rest =>
      if bool_decide (c = "010"%char) then "" :: split_lines rest
      else match split_lines rest with
           | line :: more => String c line :: more
           | [] => [String c ""]
           end
  end.

(** [s.indexOf('=')], and the two halves around it. *)
Fixpoint cut_at_equals (s : string) : option (string * string) :=
  match s with
  | EmptyString => None
  | String c rest =>
      if bool_decide (c = "="%char) then Some ("", rest)
      else '(before, after) ← cut_at_equals rest; Some (String c before, after)
  end.

(** [s.trim()] *)
Definition trim (s : string) : string :=
  String.rev (skip_spaces_reversed (String.rev (skip_spaces s))).

End Js.
Export Js.

(** ** Methods as state transformers that may throw *)

Module Effects.

Definition Eff (S A : Type) : Type := S → Result A * S.

#[export] Instance Eff_ret {S} : MRet (Eff S) := λ A a s, (Ok a, s).

#[export] Instance Eff_bind {S} : MBind (Eff S) := λ A B f m s,
  match m s with
  | (Ok a, s') => f a s'
  | (Throw e, s') => (Throw e, s')
  end.

Definition throw {S A} (e : exn) : Eff S A := λ s, (Throw e, s).

(** [try { body } catch (err) { handler }] *)
Definition try_catch {S A} (body : Eff S A) (handler : exn → Eff S A)
  : Eff S A := λ s,
  match body s with
  | (Ok a, s') => (Ok a, s')
  | (Throw e, s') => handler e s'
  end.

Definition lift {S A} (r : Result A) : Eff S A := λ s, (r, s).

(** [for (const x of items) body] *)
Fixpoint for_of {S A} (items : list A) (body : A → Eff S unit) : Eff S unit :=
  match items with
  | [] => mret ()
  | x :: rest => body x;; for_of rest body
  end.

End Effects.
Export Effects.

(** ** The runtime the store runs on

    [JSON] is a built-in and [EncryptionService] ([utils/encryption.js])
    is a collaborator of the store: both are taken as parameters.
    [text] is the type of file contents, the strings these functions
    produce and consume; [utf8] gives the characters of one. *)

Class Runtime : Type := {
  text : Type;
  utf8 : text → string;
  (* [JSON.stringify(v, null, 2)] and [JSON.parse], [None] for a
     [SyntaxError] *)
  JSON_stringify : Json → text;
  JSON_parse : text → option Json;
  (* [EncryptionService.encrypt], [.decrypt] ([None] when it throws) and
     [.isEncrypted] *)
  encrypt : text → string → text;
  decrypt : text → string → option text;
  isEncrypted : text → bool;
}.

(** What the specification asks of the cipher adapter and what
    [JSON.parse] does on the output of [JSON.stringify].  Only the
    theorems that name this class depend on it. *)
Class RuntimeLaws (R : Runtime) : Prop := {
  parse_stringify : ∀ v, JSON_parse (JSON_stringify v) = Some v;
  decrypt_encrypt : ∀ t k, decrypt (encrypt t k) k = Some t;
  decrypt_wrong_key : ∀ t k k', k ≠ k' → decrypt (encrypt t k) k' = None;
  isEncrypted_encrypt : ∀ t k, isEncrypted (encrypt t k) = true;
}.

(** Modelled from the spec: the cipher adapter ([utils/encryption.js]
    is not among the sources) as an ideal cipher, next to an ideal
    [JSON]: a text is known by the way it was made.  [decrypt] opens an
    envelope with the key that sealed it and fails otherwise,
    [isEncrypted] recognises envelopes and nothing else.  The theorems
    are run on this instance. *)
Module Ideal.

Inductive itext : Type :=
| Raw (s : string)                  (* text that is neither JSON nor an envelope *)
| Doc (v : Json)                    (* [JSON.stringify v] *)
| Sealed (key : string) (t : itext) (* [encrypt t key] *)
| Damaged.                          (* an envelope no key opens *)

Definition iutf8 (t : itext) : string :=
  match t with Raw s => s | _ => "" end.

Definition iparse (t : itext) : option Json :=
  match t with Doc v => Some v | _ => None end.

Definition idecrypt (t : itext) (k : string) : option itext :=
  match t with
  | Sealed key body => if bool_decide (key = k) then Some body else None
  | _ => None
  end.

Definition iisEncrypted (t : itext) : bool :=
  match t with Sealed _ _ | Damaged => true | _ => false end.

#[export] Instance runtime : Runtime := {|
  text := itext;
  utf8 := iutf8;
  JSON_stringify := Doc;
  JSON_parse := iparse;
  encrypt := λ t k, Sealed k t;
  decrypt := idecrypt;
  isEncrypted := iisEncrypted;
|}.

End Ideal.

(** ** The profile store ([ProfileStorage]) *)

Module ProfileStorage.

(** The module-level constant.  It is an object, and the store hands it
    out without copying it: its current contents are part of the state
    ([defaultUserData] below) and start as this literal. *)
Definition DEFAULT_USER_DATA : Json :=
  JObj [
    ("version", JStr "2.0");
    ("type", JStr "user");
    ("user", JObj [
       ("name", JStr "User");
       ("gender", JStr "non-binary");
       ("species", JStr "human");
       ("timezone", JStr "UTC");
       ("backstory", JStr "");
       ("preferences", JObj [("music", JArr []); ("books", JArr []);
                             ("movies", JArr []); ("hobbies", JArr []);
                             ("other", JStr "")]);
       ("majorLifeEvents", JArr []);
       ("communicationBoundaries", JStr "")]);
    ("settings", JObj []);
    ("sharedMemory", JObj [("roleplayEvents", JArr [])])
  ].

Definition PUBLIC_PROFILES : list string := ["Echo"; "Kairos"].

Definition shouldEncryptProfile (profileName : string) : bool :=
  negb (bool_decide (profileName ∈ PUBLIC_PROFILES)).

(** [!!encryptionKey]: [null] and the empty string are no key. *)
Definition has_key (encryptionKey : option string) : bool :=
  match encryptionKey with
  | Some k => negb (bool_decide (k = ""))
  | None => false
  end.

Section Store.
Context {R : Runtime}.

(** The state the store works on: the files of [profilesDir], the
    current contents of the [DEFAULT_USER_DATA] object, and (for the
    statements only) the names passed to [fs.writeFile], latest first. *)
Record Store : Type := mkStore {
  files : gmap string text;
  defaultUserData : Json;
  written : list string;
}.

Abbreviation M := (Eff Store).

(** *** [fs] and [JSON] *)

Definition fs_readFile (path : string) : M text := λ s,
  match files s !! path with
  | Some content => (Ok content, s)
  | None => (Throw ENOENT, s)
  end.

Definition fs_access (path : string) : M unit := λ s,
  match files s !! path with
  | Some _ => (Ok (), s)
  | None => (Throw ENOENT, s)
  end.

(** The state after [fs.writeFile(path, content)]. *)
Definition put_file (path : string) (content : text) (s : Store) : Store :=
  {| files := <[path := content]> (files s);
     defaultUserData := defaultUserData s;
     written := path :: written s |}.

Definition fs_writeFile (path : string) (content : text) : M unit := λ s,
  (Ok (), put_file path content s).

(** [fs.readdir(profilesDir)]: the directory is taken to exist and to
    be readable. *)
Definition fs_readdir : M (list string) := λ s,
  (Ok (map_to_list (files s)).*1, s).

Definition parse (content : text) : M Json :=
  match JSON_parse content with
  | Some v => mret v
  | None => throw SyntaxError
  end.

(** *** [readFileContent], [writeFileContent] *)

Definition readFileContent (filePath : string) (encryptionKey : option string)
  : M text :=
  content ← fs_readFile filePath;
  if has_key encryptionKey && isEncrypted content then
    match decrypt content (default "" encryptionKey) with
    | Some plain => mret plain
    | None =>
        throw (Error "Failed to decrypt file - incorrect password or corrupted data")
    end
  else mret content.

Definition writeFileContent (filePath : string) (content : text)
    (encryptionKey : option string) (shouldEncrypt : bool) : M unit :=
  let outputContent :=
    if has_key encryptionKey && shouldEncrypt
    then encrypt content (default "" encryptionKey)
    else content in
  fs_writeFile filePath outputContent.

(** *** [listProfiles] *)

(** [Set.prototype.add] on the insertion-ordered elements. *)
Definition Set_add (x : string) (elems : list string) : list string :=
  if bool_decide (x ∈ elems) then elems else elems ++ [x].

Definition profile_name_of (f : string) : option string :=
  if endsWith f ".json" && negb (bool_decide (f = "user-profile.json"))
  then Some (replace f ".json" "")
  else if endsWith f ".txt"
          && negb (bool_decide (f = "active-character.txt"))
          && negb (bool_decide (f = "user-settings.txt"))
          && negb (endsWith f "_avatar.txt")
  then Some (replace f ".txt" "")
  else None.

Definition collect_names (entries : list string) : list string :=
  foldl (λ profileNames f,
           match profile_name_of f with
           | Some name => Set_add name profileNames
           | None => profileNames
           end) [] entries.

Definition listProfiles : M (list string) :=
  entries ← fs_readdir;
  mret (collect_names entries).

(** *** [getProfile] *)

(** The legacy [key=value] text, line by line. *)
Definition legacy_profile (content : string) : Json :=
  JObj (foldl (λ profile line,
                 match cut_at_equals line with
                 | Some (before, after) =>
                     let key := trim before in
                     let value := unescape_newlines after in
                     define_own key
                       (if bool_decide (key = "notifications")
                        then JBool (bool_decide (value = "true"))
                        else JStr value)
                       profile
                 | None => profile
                 end) [] (split_lines content)).

Definition getProfile (profileName : string) (encryptionKey : option string)
  : M Json :=
  let jsonPath := profileName +:+ ".json" in
  let txtPath := profileName +:+ ".txt" in
  let needsDecryption := shouldEncryptProfile profileName in
  (* try the JSON format first; [Some data] is the [return] inside [try] *)
  found ← try_catch
    (content ← readFileContent jsonPath
                 (if needsDecryption then encryptionKey else None);
     data ← parse content;
     version ← lift (member (Some data) "version");
     if is_string version "2.0" && is_string (prop data "type") "character"
     then mret (Some data)
     else mret None)
    (λ err, mret None);
  match found with
  | Some data => mret data
  | None =>
      try_catch (fs_access txtPath)
        (λ accessErr, throw (Error "Profile not found or cannot be decrypted"));;
      content ← fs_readFile txtPath;
      mret (legacy_profile (utf8 content))
  end.

(** *** [saveProfile] *)

(** [parseInt(age) || 25], as [JSON.stringify] writes it: the only use
    of the document [saveProfile] builds is to be printed, and an
    infinity is printed as [null]. *)
Definition age_of (age : value) : Json :=
  match parseInt age with
  | Int n => if bool_decide (n = 0) then JNum 25 else JNum n
  | NaN => JNum 25
  | Infinity | NegInfinity => JNull
  end.

(** The [character] object [saveProfile] builds from a flat update. *)
Definition build_character (profileName : string) (profileData : Json)
    (existingData : value) : Json :=
  JObj [
    ("name", or_else (prop profileData "name") (JStr profileName));
    ("gender", or_else (prop profileData "gender") (JStr "female"));
    ("species", or_else (prop profileData "species") (JStr "human"));
    ("age", age_of (prop profileData "age"));
    ("role", or_else (prop profileData "role") (JStr ""));
    ("companionType", or_else (prop profileData "companionType") (JStr "friend"));
    ("appearance", or_else (prop profileData "appearance") (JStr ""));
    ("traits", or_else (prop profileData "traits") (JStr ""));
    ("interests", or_else (prop profileData "interests") (JStr ""));
    ("backstory", or_else (prop profileData "backstory") (JStr ""));
    ("boundaries", or_else (prop profileData "boundaries") (JStr ""));
    ("avoidWords", or_else (prop profileData "avoidWords") (JStr ""));
    ("notifications",
       JBool (negb (is_false (prop profileData "notifications"))));
    ("tagSelections", or_else (prop profileData "tagSelections") (JObj []));
    ("favorites",
       or_else (or_value (prop profileData "favorites")
                         (opt_member (opt_member existingData "character") "favorites"))
               (JArr []))
  ].

Definition saveProfile (profileName : string) (profileData : Json)
    (encryptionKey : option string) : M unit :=
  let jsonPath := profileName +:+ ".json" in
  version ← lift (member (Some profileData) "version");
  data ←
    (if is_string version "2.0" && is_string (prop profileData "type") "character"
     then
       (* already in full format *)
       mret profileData
     else
       let needsDecryption := shouldEncryptProfile profileName in
       (* [existingData] stays [null] ([None]) when the read fails *)
       existingData ← try_catch
         (content ← readFileContent jsonPath
                      (if needsDecryption then encryptionKey else None);
          existing ← parse content;
          mret (Some existing))
         (λ err, mret None);
       mret (JObj [
         ("version", JStr "2.0");
         ("type", JStr "character");
         ("character", build_character profileName profileData existingData)
       ]));
  let jsonContent := JSON_stringify data in
  let shouldEncrypt := shouldEncryptProfile profileName in
  writeFileContent jsonPath jsonContent encryptionKey shouldEncrypt.

(** *** The user document: [setActiveProfile], [saveUserSettings],
    [saveConsent] *)

(** What a variable such as [existingData] refers to: the
    [DEFAULT_USER_DATA] object itself, or an object of its own that
    [JSON.parse] returned. *)
Inductive docref : Type :=
| TheDefaults
| Parsed (v : Json).

(** The present contents of the object. *)
Definition current (d : docref) : M Json := λ s,
  match d with
  | TheDefaults => (Ok (defaultUserData s), s)
  | Parsed v => (Ok v, s)
  end.

(** An assignment to (a property of) the object: on [TheDefaults] it
    changes the module-level object. *)
Definition update (d : docref) (f : Json → Result Json) : M docref := λ s,
  match d with
  | TheDefaults =>
      match f (defaultUserData s) with
      | Ok v' => (Ok TheDefaults,
                  {| files := files s; defaultUserData := v';
                     written := written s |})
      | Throw e => (Throw e, s)
      end
  | Parsed v =>
      match f v with
      | Ok v' => (Ok (Parsed v'), s)
      | Throw e => (Throw e, s)
      end
  end.

Definition setActiveProfile (profileName : string)
    (encryptionKey : option string) : M unit :=
  let userProfilePath := "user-profile.json" in
  try_catch
    (content ← readFileContent userProfilePath encryptionKey;
     data ← parse content;
     settings ← lift (member (Some data) "settings");
     data ← (if negb (truthy settings)
             then lift (set_prop (Some data) "settings" (JObj []))
             else mret data);
     data ← lift (set_prop2 (Some data) "settings" "defaultActiveCharacter"
                    (JStr profileName));
     writeFileContent userProfilePath (JSON_stringify data) encryptionKey true)
    (λ err,
       (* [newData = { ...DEFAULT_USER_DATA }] copies the properties, not
          the objects they hold: [newData.settings] is
          [DEFAULT_USER_DATA.settings], the assignment lands there, and
          [newData] prints as the defaults now are *)
       update TheDefaults
         (λ d, set_prop2 (Some d) "settings" "defaultActiveCharacter"
                 (JStr profileName));;
       newData ← current TheDefaults;
       writeFileContent userProfilePath (JSON_stringify newData) encryptionKey true).

Definition default_preferences : Json :=
  JObj [("music", JArr []); ("books", JArr []); ("movies", JArr []);
        ("hobbies", JArr []); ("other", JStr "")].

Definition saveUserSettings (settings : Json) (encryptionKey : option string)
  : M unit :=
  let jsonFile := "user-profile.json" in
  (* [let existingData = DEFAULT_USER_DATA], replaced when the read works *)
  existingData ← try_catch
    (content ← readFileContent jsonFile encryptionKey;
     v ← parse content;
     mret (Parsed v))
    (λ err,
       try_catch
         (fs_access jsonFile;;
          throw (Error "Cannot save user settings - unable to read existing profile (encryption key mismatch?)"))
         (λ accessErr, mret ());;
       mret TheDefaults);
  userName ← lift (member (Some settings) "userName");
  existingData ← update existingData (λ d, set_prop (Some d) "user" (JObj [
    ("name", or_else userName (JStr "User"));
    ("gender", or_else (prop settings "userGender") (JStr "non-binary"));
    ("species", or_else (prop settings "userSpecies") (JStr "human"));
    ("timezone", or_else (prop settings "timezone") (JStr "UTC"));
    ("backstory", or_else (prop settings "userBackstory") (JStr ""));
    ("preferences", or_else (prop settings "userPreferences") default_preferences);
    ("majorLifeEvents", or_else (prop settings "majorLifeEvents") (JArr []));
    ("communicationBoundaries",
       or_else (prop settings "communicationBoundaries") (JStr ""))]));
  existingData ← update existingData (λ d, set_prop (Some d) "sharedMemory" (JObj [
    ("roleplayEvents", or_else (prop settings "sharedRoleplayEvents") (JArr []))]));
  d ← current existingData;
  existingData ← (if negb (truthy (prop d "settings"))
                  then update existingData (λ d, set_prop (Some d) "settings" (JObj []))
                  else mret existingData);
  existingData ← update existingData (λ d,
    set_prop2 (Some d) "settings" "enableMemory"
      (default (JBool false) (prop settings "enableMemory")));
  existingData ← update existingData (λ d,
    set_prop2 (Some d) "settings" "enableWebSearch"
      (default (JBool false) (prop settings "enableWebSearch")));
  existingData ← update existingData (λ d,
    set_prop2 (Some d) "settings" "webSearchApiKey"
      (or_else (prop settings "webSearchApiKey") (JStr "")));
  existingData ←
    match prop settings "defaultActiveCharacter" with
    | Some name =>
        update existingData (λ d,
          set_prop2 (Some d) "settings" "defaultActiveCharacter" name)
    | None => mret existingData
    end;
  d ← current existingData;
  writeFileContent jsonFile (JSON_stringify d) encryptionKey true.

Definition saveConsent (consentData : Json) (encryptionKey : option string)
  : M unit :=
  let jsonFile := "user-profile.json" in
  existingData ← try_catch
    (content ← readFileContent jsonFile encryptionKey;
     v ← parse content;
     mret (Parsed v))
    (λ err, mret TheDefaults);
  existingData ← update existingData (λ d, set_prop (Some d) "consent" consentData);
  d ← current existingData;
  writeFileContent jsonFile (JSON_stringify d) encryptionKey (has_key encryptionKey).

(** *** [removeFavorite] *)

(** [favorites.filter(fav => fav.id !== favoriteId)] *)
Fixpoint filter_favorites (favoriteId : string) (favorites : list Json)
  : Result (list Json) :=
  match favorites with
  | [] => Ok []
  | fav :: rest =>
      match member (Some fav) "id" with
      | Throw e => Throw e
      | Ok id =>
          match filter_favorites favoriteId rest with
          | Throw e => Throw e
          | Ok kept => Ok (if is_string id favoriteId then kept else fav :: kept)
          end
      end
  end.

Definition removeFavorite (profileName favoriteId : string)
    (encryptionKey : option string) : M bool :=
  let jsonPath := profileName +:+ ".json" in
  let needsEncryption := shouldEncryptProfile profileName in
  (* [Some true] is the [return true] inside [try] *)
  returned ← try_catch
    (content ← readFileContent jsonPath
                 (if needsEncryption then encryptionKey else None);
     data ← parse content;
     version ← lift (member (Some data) "version");
     if is_string version "2.0" && is_string (prop data "type") "character"
     then
       favorites ← lift (member (prop data "character") "favorites");
       data ← (if negb (truthy favorites)
               then lift (set_prop2 (Some data) "character" "favorites" (JArr []))
               else mret data);
       match opt_member (prop data "character") "favorites" with
       | Some (JArr favorites) =>
           let initialLength := List.length favorites in
           kept ← lift (filter_favorites favoriteId favorites);
           data ← lift (set_prop2 (Some data) "character" "favorites" (JArr kept));
           if bool_decide (List.length kept = initialLength)
           then throw (Error ("Favorite " +:+ favoriteId +:+ " not found"))
           else
             let jsonContent := JSON_stringify data in
             writeFileContent jsonPath jsonContent encryptionKey needsEncryption;;
             mret (Some true)
       | _ =>
           (* [.filter] of something that is not an array *)
           throw TypeError
       end
     else mret None)
    (λ err, throw err);
  match returned with
  | Some result => mret result
  | None =>
      throw (Error ("Profile " +:+ profileName +:+ " not found or invalid format"))
  end.

(** *** [reEncryptAllData] *)

(** The two attempts to read one file: the content, and whether it took
    the new password. *)
Definition read_old_or_new (path oldPassword newPassword message : string)
  : M (text * bool) :=
  try_catch
    (content ← readFileContent path (Some oldPassword);
     mret (content, false))
    (λ oldPasswordErr,
       (* maybe it is already re-encrypted with the new password *)
       try_catch
         (content ← readFileContent path (Some newPassword);
          mret (content, true))
         (λ newPasswordErr, throw (Error message))).

Definition reEncryptProfile (oldPassword newPassword profileName : string)
  : M unit :=
  if negb (shouldEncryptProfile profileName) then mret ()   (* [continue] *)
  else
    try_catch
      (let jsonPath := profileName +:+ ".json" in
       '(profileContent, alreadyReEncrypted) ←
          read_old_or_new jsonPath oldPassword newPassword
            "Cannot decrypt profile - may be corrupted";
       if negb alreadyReEncrypted
       then
         profileData ← parse profileContent;
         saveProfile profileName profileData (Some newPassword)
       else mret ())
      (λ err, throw (Error "Failed to re-encrypt profile")).

Definition reEncryptUserProfile (oldPassword newPassword : string) : M unit :=
  try_catch
    (let jsonFile := "user-profile.json" in
     '(userProfileContent, alreadyReEncrypted) ←
        read_old_or_new jsonFile oldPassword newPassword
          "Cannot decrypt user profile - may be corrupted";
     if negb alreadyReEncrypted
     then
       userProfileData ← parse userProfileContent;
       let jsonContent := JSON_stringify userProfileData in
       writeFileContent jsonFile jsonContent (Some newPassword) true
     else mret ())
    (λ err, throw (Error "Failed to re-encrypt user profile")).

Definition reEncryptAllData (oldPassword newPassword : string) : M unit :=
  profiles ← listProfiles;
  for_of profiles (reEncryptProfile oldPassword newPassword);;
  reEncryptUserProfile oldPassword newPassword.

(** *** For the statements *)

(** What [writeFileContent] hands to [fs.writeFile]. *)
Definition outputContent (content : text) (encryptionKey : option string)
    (shouldEncrypt : bool) : text :=
  if has_key encryptionKey && shouldEncrypt
  then encrypt content (default "" encryptionKey)
  else content.

(** [profileData] is already a full version-2.0 character document. *)
Definition full_format (profileData : Json) : bool :=
  is_string (prop profileData "version") "2.0"
  && is_string (prop profileData "type") "character".

(** What the best-effort read of [saveProfile] leaves in [existingData]. *)
Definition existing_document (path : string) (key : option string) (s : Store)
  : value :=
  match (readFileContent path key s).1 with
  | Ok content => JSON_parse content
  | Throw _ => None
  end.

(** The document [saveProfile] writes, given [existingData]. *)
Definition saved_document (profileName : string) (profileData : Json)
    (existingData : value) : Json :=
  if full_format profileData then profileData
  else JObj [
    ("version", JStr "2.0");
    ("type", JStr "character");
    ("character", build_character profileName profileData existingData)
  ].

(** The key [getProfile] and [saveProfile] read a profile with. *)
Definition read_key (profileName : string) (encryptionKey : option string)
  : option string :=
  if shouldEncryptProfile profileName then encryptionKey else None.

(** [fav.id === favoriteId] *)
Definition has_id (favoriteId : string) (fav : Json) : bool :=
  is_string (prop fav "id") favoriteId.

(** [data] is a version-2.0 character document whose favorites are
    [favorites] (the empty list when the property is missing or falsy),
    none of them [null]. *)
Definition character_document (data : Json) (favorites : list Json) : Prop :=
  full_format data = true ∧
  (∃ fields,
     prop data "character" = Some (JObj fields) ∧
     (assoc "favorites" fields = Some (JArr favorites) ∨
      (truthy (assoc "favorites" fields) = false ∧ favorites = []))) ∧
  Forall (λ fav, fav ≠ JNull) favorites.

(** No document can be had from the file: it is missing, or the key
    does not open it, or what is read is not JSON. *)
Definition no_readable_document (path : string) (key : option string)
    (s : Store) : Prop :=
  ∀ content,
    (readFileContent path key s).1 = Ok content → JSON_parse content = None.

(** [d.settings.defaultActiveCharacter] *)
Definition defaultActiveCharacter_of (d : Json) : value :=
  opt_member (prop d "settings") "defaultActiveCharacter".

(** The file holds a document sealed under the password. *)
Definition sealed_under (path password : string) (s : Store) : Prop :=
  ∃ d, files s !! path = Some (encrypt (JSON_stringify d) password).

(** In the middle of a rotation from [old] to [new], the file holds a
    document sealed under one of the two; [rotating_profile] also
    asks a document still under [old] not to be [null]. *)
Definition rotating (old new path : string) (s : Store) : Prop :=
  sealed_under path old s ∨ sealed_under path new s.

Definition rotating_profile (old new path : string) (s : Store) : Prop :=
  (∃ d, d ≠ JNull ∧ files s !! path = Some (encrypt (JSON_stringify d) old))
  ∨ sealed_under path new s.

(** The names [listProfiles] returns. *)
Definition profile_names (s : Store) : list string :=
  collect_names (map_to_list (files s)).*1.

(** [readFileContent] throws on this file with this password. *)
Definition unreadable (path password : string) (s : Store) : Prop :=
  ∃ e, (readFileContent path (Some password) s).1 = Throw e.

(** *** The other methods of the store *)

(** [getActiveProfile]: the name kept in the user document, else the
    content of the legacy marker file, else [null]. *)
Definition getActiveProfile (encryptionKey : option string) : M Json :=
  let jsonFile := "user-profile.json" in
  let txtFile := "active-character.txt" in
  found ← try_catch
    (content ← readFileContent jsonFile encryptionKey;
     data ← parse content;
     version ← lift (member (Some data) "version");
     let active := opt_member (prop data "settings") "defaultActiveCharacter" in
     if is_string version "2.0" && truthy active
     then mret active
     else mret None)
    (λ err, mret None);
  match found with
  | Some active => mret active
  | None =>
      try_catch
        (activeName ← fs_readFile txtFile;
         mret (JStr (trim (utf8 activeName))))
        (λ err, mret JNull)
  end.

Definition profileExists (profileName : string) : M bool :=
  let jsonPath := profileName +:+ ".json" in
  let txtPath := profileName +:+ ".txt" in
  try_catch (fs_access jsonPath;; mret true)
    (λ _, try_catch (fs_access txtPath;; mret true) (λ _, mret false)).

(** [getUserSettings] *)

Definition legacy_settings_defaults : list (string * Json) :=
  [("userName", JStr "User");
   ("userGender", JStr "non-binary");
   ("userSpecies", JStr "human");
   ("timezone", JStr "UTC");
   ("userBackstory", JStr "");
   ("userPreferences", default_preferences);
   ("majorLifeEvents", JArr []);
   ("sharedRoleplayEvents", JArr [])].

(** The property names every object inherits from [Object.prototype]:
    [key in settings] holds for them as well. *)
Definition Object_prototype_names : list string :=
  ["constructor"; "__defineGetter__"; "__defineSetter__"; "hasOwnProperty";
   "__lookupGetter__"; "__lookupSetter__"; "isPrototypeOf";
   "propertyIsEnumerable"; "toString"; "valueOf"; "__proto__";
   "toLocaleString"].

(** [key in settings] *)
Definition key_in (key : string) (settings : list (string * Json)) : bool :=
  match assoc key settings with
  | Some _ => true
  | None => bool_decide (key ∈ Object_prototype_names)
  end.

(** The legacy [user-settings.txt], line by line: a line sets a
    property the settings already have.  (An assignment to [__proto__]
    with a string goes to the inherited setter, which ignores it.) *)
Definition legacy_settings (content : string) : Json :=
  JObj (foldl (λ settings line,
                 match cut_at_equals line with
                 | Some (before, after) =>
                     let key := trim before in
                     let value := after in
                     if key_in key settings
                     then if bool_decide (key = "__proto__") then settings
                          else assign key (JStr value) settings
                     else settings
                 | None => settings
                 end) legacy_settings_defaults (split_lines content)).

Definition getUserSettings (encryptionKey : option string) : M Json :=
  let jsonFile := "user-profile.json" in
  let txtFile := "user-settings.txt" in
  found ← try_catch
    (content ← readFileContent jsonFile encryptionKey;
     data ← parse content;
     version ← lift (member (Some data) "version");
     if is_string version "2.0" && is_string (prop data "type") "user"
     then mret (Some data)
     else mret None)
    (λ err,
       (* the two branches on [err.message] only differ in what they log *)
       mret None);
  match found with
  | Some data => mret data
  | None =>
      try_catch
        (content ← fs_readFile txtFile;
         mret (legacy_settings (utf8 content)))
        (λ err, mret (JObj legacy_settings_defaults))
  end.

(** [getConsent] *)

Definition default_consent : Json :=
  JObj [("accepted", JBool false);
        ("timestamp", JNull);
        ("version", JStr "1.0");
        ("checkboxes", JObj [
           ("ageConfirmation", JBool false);
           ("fictionalityAcknowledgment", JBool false);
           ("prohibitedActivities", JBool false);
           ("realPersonLikeness", JBool false);
           ("aiLimitations", JBool false);
           ("narrativeConsent", JBool false);
           ("experimentalRisks", JBool false);
           ("termsOfService", JBool false)])].

Definition getConsent (encryptionKey : option string) : M Json :=
  let jsonFile := "user-profile.json" in
  found ← try_catch
    (content ← readFileContent jsonFile encryptionKey;
     data ← parse content;
     consent ← lift (member (Some data) "consent");
     if truthy consent then mret consent else mret None)
    (λ err, mret None);
  mret (default default_consent found).

(** [getFavorites] *)
Definition getFavorites (profileName : string) (encryptionKey : option string)
  : M Json :=
  let jsonPath := profileName +:+ ".json" in
  let needsDecryption := shouldEncryptProfile profileName in
  found ← try_catch
    (content ← readFileContent jsonPath
                 (if needsDecryption then encryptionKey else None);
     data ← parse content;
     version ← lift (member (Some data) "version");
     if is_string version "2.0" && is_string (prop data "type") "character"
     then
       favorites ← lift (member (prop data "character") "favorites");
       mret (Some (or_else favorites (JArr [])))
     else mret None)
    (λ err, mret None);
  mret (default (JArr []) found).

(** [addFavorite].  [generatedId] is the id the method makes up from the
    clock and [Math.random()] when the favorite brings none, [nowISO]
    is [new Date().toISOString()].  A [text] that is [undefined] makes
    a property [JSON.stringify] leaves out: it is left out here. *)
Definition favoriteWithId (generatedId nowISO : string) (favorite : Json) : Json :=
  JObj ([("id", or_else (prop favorite "id") (JStr generatedId))]
        ++ match prop favorite "text" with
           | Some text => [("text", text)]
           | None => []
           end
        ++ [("senderName", or_else (prop favorite "senderName") (JStr "Unknown"));
            ("timestamp", or_else (prop favorite "timestamp") (JStr nowISO));
            ("emotion", or_else (prop favorite "emotion") JNull);
            ("sentiment", or_else (prop favorite "sentiment") JNull)]).

Definition addFavorite (generatedId nowISO : string) (profileName : string)
    (favorite : Json) (encryptionKey : option string) : M Json :=
  let jsonPath := profileName +:+ ".json" in
  let needsEncryption := shouldEncryptProfile profileName in
  returned ← try_catch
    (content ← readFileContent jsonPath
                 (if needsEncryption then encryptionKey else None);
     data ← parse content;
     version ← lift (member (Some data) "version");
     if is_string version "2.0" && is_string (prop data "type") "character"
     then
       favorites ← lift (member (prop data "character") "favorites");
       data ← (if negb (truthy favorites)
               then lift (set_prop2 (Some data) "character" "favorites" (JArr []))
               else mret data);
       _ ← lift (member (Some favorite) "id");
       let added := favoriteWithId generatedId nowISO favorite in
       match opt_member (prop data "character") "favorites" with
       | Some (JArr favorites) =>
           data ← lift (set_prop2 (Some data) "character" "favorites"
                          (JArr (favorites ++ [added])));
           let jsonContent := JSON_stringify data in
           writeFileContent jsonPath jsonContent encryptionKey needsEncryption;;
           mret (Some added)
       | _ =>
           (* [.push] of something that is not an array *)
           throw TypeError
       end
     else mret None)
    (λ err, throw err);
  match returned with
  | Some added => mret added
  | None =>
      throw (Error ("Profile " +:+ profileName +:+ " not found or invalid format"))
  end.

(** [deleteProfile] also looks into the directory of the uploaded
    avatars, which may not exist ([None]). *)
Record Disk : Type := mkDisk {
  profilesDir : Store;
  uploadsDir : option (gmap string text);
}.

Definition on_profiles {A} (m : M A) : Eff Disk A := λ d,
  let '(r, s') := m (profilesDir d) in
  (r, {| profilesDir := s'; uploadsDir := uploadsDir d |}).

(** The state after [fs.unlink(path)]. *)
Definition remove_file (path : string) (s : Store) : Store :=
  {| files := delete path (files s);
     defaultUserData := defaultUserData s;
     written := written s |}.

Definition fs_unlink (path : string) : M unit := λ s,
  match files s !! path with
  | Some _ => (Ok (), remove_file path s)
  | None => (Throw ENOENT, s)
  end.

(** One promise of [Promise.allSettled]: a rejection is kept to itself.
    (The three [unlink] run side by side on three different files; the
    outcome is that of running them in turn.) *)
Definition settled (promise : M unit) : M unit :=
  try_catch promise (λ _, mret ()).

Definition uploads_readdir : Eff Disk (list string) := λ d,
  match uploadsDir d with
  | Some uploads => (Ok (map_to_list uploads).*1, d)
  | None => (Throw ENOENT, d)
  end.

Definition uploads_unlink (f : string) : Eff Disk unit := λ d,
  match uploadsDir d with
  | Some uploads =>
      match uploads !! f with
      | Some _ => (Ok (), {| profilesDir := profilesDir d;
                             uploadsDir := Some (delete f uploads) |})
      | None => (Throw ENOENT, d)
      end
  | None => (Throw ENOENT, d)
  end.

Definition deleteProfile (profileName : string) : Eff Disk unit :=
  let jsonPath := profileName +:+ ".json" in
  let txtPath := profileName +:+ ".txt" in
  let avatarPath := profileName +:+ "_avatar.txt" in
  on_profiles (settled (fs_unlink jsonPath);;
               settled (fs_unlink txtPath);;
               settled (fs_unlink avatarPath));;
  (* the avatar image *)
  try_catch
    (entries ← uploads_readdir;
     match List.find (λ f, startsWith f (profileName +:+ ".")) entries with
     | Some avatarFile => uploads_unlink avatarFile
     | None => mret ()
     end)
    (λ err, mret ()).

End Store.

Arguments Store : clear implicits.
Arguments Disk : clear implicits.

End ProfileStorage.

(** ** The session manager ([SessionManager]) *)

Module SessionManager.

(** Modelled from the spec: the agent class [HybridChatbot]
    ([core/chatbotHybrid.js]) is not among the sources.  The agent owns
    its conversation history and its character loader's state; it has an
    exposed cached-character slot; [clearHistory()] empties the history,
    [characterLoader.setEncryptionKey(key)] stores the key and
    [getActiveCharacterName()] reads the loader's active character. *)
Record HybridChatbot : Type := mkChatbot {
  loaderKey : option string;
  activeCharacterName : string;
  cachedCharacter : value;
  history : list Json;
}.

Definition setEncryptionKey (key : string) (c : HybridChatbot)
  : Result unit * HybridChatbot :=
  (Ok (), {| loaderKey := Some key;
             activeCharacterName := activeCharacterName c;
             cachedCharacter := cachedCharacter c;
             history := history c |}).

Definition clearHistory (c : HybridChatbot) : Result unit * HybridChatbot :=
  (Ok (), {| loaderKey := loaderKey c;
             activeCharacterName := activeCharacterName c;
             cachedCharacter := cachedCharacter c;
             history := [] |}).

(** [chatbot.cachedCharacter = null] *)
Definition reset_cachedCharacter (c : HybridChatbot)
  : Result unit * HybridChatbot :=
  (Ok (), {| loaderKey := loaderKey c;
             activeCharacterName := activeCharacterName c;
             cachedCharacter := None;
             history := history c |}).

(** The rest of the agent is a parameter: what the constructor builds,
    and what loading a character (the named one, or the store's default
    for [None]) and initialising do to an agent; each of the two may
    throw. *)
Class Agent : Type := {
  new_HybridChatbot : HybridChatbot;
  loadCharacterAsync : option string → HybridChatbot → Result unit * HybridChatbot;
  initialize : HybridChatbot → Result unit * HybridChatbot;
}.

(** Chatbot objects are known by their address. *)
Abbreviation loc := nat.

Record Manager : Type := mkManager {
  sessions : gmap string loc;           (* sessionId -> chatbot instance *)
  sessionCharacters : gmap string string;
  latestRequestIds : gmap string string;
  charactersWithStarters : gset string;
  lastActivity : gmap string Z;
  heap : gmap loc HybridChatbot;        (* the chatbot objects *)
}.

(** 30 minutes of inactivity *)
Definition sessionTimeout : Z := 30 * 60 * 1000.

(** The manager [constructor] builds. *)
Definition new_SessionManager : Manager :=
  {| sessions := ∅; sessionCharacters := ∅; latestRequestIds := ∅;
     charactersWithStarters := ∅; lastActivity := ∅; heap := ∅ |}.

Definition with_sessions (f : gmap string loc → gmap string loc) (m : Manager) :=
  {| sessions := f (sessions m); sessionCharacters := sessionCharacters m;
     latestRequestIds := latestRequestIds m;
     charactersWithStarters := charactersWithStarters m;
     lastActivity := lastActivity m; heap := heap m |}.

Definition with_sessionCharacters (f : gmap string string → gmap string string)
    (m : Manager) :=
  {| sessions := sessions m; sessionCharacters := f (sessionCharacters m);
     latestRequestIds := latestRequestIds m;
     charactersWithStarters := charactersWithStarters m;
     lastActivity := lastActivity m; heap := heap m |}.

Definition with_latestRequestIds (f : gmap string string → gmap string string)
    (m : Manager) :=
  {| sessions := sessions m; sessionCharacters := sessionCharacters m;
     latestRequestIds := f (latestRequestIds m);
     charactersWithStarters := charactersWithStarters m;
     lastActivity := lastActivity m; heap := heap m |}.

Definition with_charactersWithStarters (f : gset string → gset string)
    (m : Manager) :=
  {| sessions := sessions m; sessionCharacters := sessionCharacters m;
     latestRequestIds := latestRequestIds m;
     charactersWithStarters := f (charactersWithStarters m);
     lastActivity := lastActivity m; heap := heap m |}.

Definition with_lastActivity (f : gmap string Z → gmap string Z) (m : Manager) :=
  {| sessions := sessions m; sessionCharacters := sessionCharacters m;
     latestRequestIds := latestRequestIds m;
     charactersWithStarters := charactersWithStarters m;
     lastActivity := f (lastActivity m); heap := heap m |}.

Definition with_heap (f : gmap loc HybridChatbot → gmap loc HybridChatbot)
    (m : Manager) :=
  {| sessions := sessions m; sessionCharacters := sessionCharacters m;
     latestRequestIds := latestRequestIds m;
     charactersWithStarters := charactersWithStarters m;
     lastActivity := lastActivity m; heap := f (heap m) |}.

Abbreviation M := (Eff Manager).

Definition get {A} (f : Manager → A) : M A := λ m, (Ok (f m), m).

Definition modify (f : Manager → Manager) : M unit := λ m, (Ok (), f m).

(** [new HybridChatbot()] *)
Definition construct `{Agent} : M loc := λ m,
  let chatbot := fresh (dom (heap m)) in
  (Ok chatbot, with_heap <[chatbot := new_HybridChatbot]> m).

(** A method call on the chatbot at an address; what the method did
    before throwing stays done. *)
Definition call (chatbot : loc)
    (method : HybridChatbot → Result unit * HybridChatbot) : M unit := λ m,
  match heap m !! chatbot with
  | Some c => let '(r, c') := method c in (r, with_heap <[chatbot := c']> m)
  | None => (Throw TypeError, m)
  end.

Definition getActiveCharacterName (chatbot : loc) : M string := λ m,
  match heap m !! chatbot with
  | Some c => (Ok (activeCharacterName c), m)
  | None => (Throw TypeError, m)
  end.

(** For the statements: a chatbot once [getChatbot] has injected the
    key, and the argument [getChatbot] passes to the loader. *)
Definition keyed (encryptionKey : option string) (c : HybridChatbot)
  : HybridChatbot :=
  if truthy_str encryptionKey
  then (setEncryptionKey (default "" encryptionKey) c).2
  else c.

Definition requested (characterName : option string) : option string :=
  if truthy_str characterName then characterName else None.

(** A session is expired at [now] when its activity time is more than
    [sessionTimeout] back. *)
Definition expired (now : Z) (m : Manager) (sessionId : string) : bool :=
  match lastActivity m !! sessionId with
  | Some lastActive => bool_decide (now - lastActive > sessionTimeout)
  | None => false
  end.

(** Every registered session has a recorded character and an activity
    time. *)
Definition tracked (m : Manager) : Prop :=
  ∀ sessionId, is_Some (sessions m !! sessionId) →
    is_Some (sessionCharacters m !! sessionId) ∧
    is_Some (lastActivity m !! sessionId).

Section Methods.
Context {agent : Agent}.

(** [now] is what [Date.now()] returns during the call.  The [logger]
    calls write to the console only and are left out. *)
Definition getChatbot (now : Z) (sessionId : string)
    (characterName encryptionKey : option string) : M loc :=
  if negb (truthy_str (Some sessionId))
  then throw (Error "Session ID is required")
  else
    (* update last activity *)
    modify (with_lastActivity <[sessionId := now]>);;
    existing ← get (λ m, sessions m !! sessionId);
    match existing with
    | Some chatbot =>
        currentCharacter ← get (λ m, sessionCharacters m !! sessionId);
        (if truthy_str encryptionKey
         then call chatbot (setEncryptionKey (default "" encryptionKey))
         else mret ());;
        (if truthy_str characterName
            && negb (bool_decide (characterName = currentCharacter))
         then
           call chatbot (loadCharacterAsync characterName);;
           modify (with_sessionCharacters
                     <[sessionId := default "" characterName]>);;
           call chatbot reset_cachedCharacter;;
           call chatbot clearHistory;;
           loadedName ← getActiveCharacterName chatbot;
           mret ()
         else mret ());;
        mret chatbot
    | None =>
        chatbot ← construct;
        (if truthy_str encryptionKey
         then call chatbot (setEncryptionKey (default "" encryptionKey))
         else mret ());;
        (* load the character first, before initializing *)
        (if truthy_str characterName
         then
           call chatbot (loadCharacterAsync characterName);;
           modify (with_sessionCharacters
                     <[sessionId := default "" characterName]>);;
           loadedName ← getActiveCharacterName chatbot;
           mret ()
         else
           call chatbot (loadCharacterAsync None);;
           loadedCharacter ← getActiveCharacterName chatbot;
           modify (with_sessionCharacters <[sessionId := loadedCharacter]>));;
        call chatbot initialize;;
        modify (with_sessions <[sessionId := chatbot]>);;
        mret chatbot
    end.

Definition trackRequestId (sessionId : string) (requestId : option string)
  : M bool :=
  if negb (truthy_str requestId) then mret true
  else
    modify (with_latestRequestIds <[sessionId := default "" requestId]>);;
    mret true.

Definition setActiveCharacterForSession (sessionId characterName : string)
  : M unit :=
  chatbot ← get (λ m, sessions m !! sessionId);
  match chatbot with
  | None => throw (Error ("Session " +:+ sessionId +:+ " not found"))
  | Some chatbot =>
      call chatbot (loadCharacterAsync (Some characterName));;
      modify (with_sessionCharacters <[sessionId := characterName]>);;
      call chatbot reset_cachedCharacter;;
      call chatbot clearHistory
  end.

Definition clearSession (now : Z) (sessionId : string) : M unit :=
  chatbot ← get (λ m, sessions m !! sessionId);
  match chatbot with
  | Some chatbot =>
      call chatbot clearHistory;;
      modify (with_lastActivity <[sessionId := now]>)
  | None => mret ()
  end.

Definition deleteSession (sessionId : string) : M unit :=
  has ← get (λ m, bool_decide (is_Some (sessions m !! sessionId)));
  if has : bool
  then
    modify (with_sessions (delete sessionId));;
    modify (with_lastActivity (delete sessionId))
  else mret ().

Definition cleanupInactiveSessions (now : Z) : M unit :=
  entries ← get (λ m, map_to_list (lastActivity m));
  let sessionsToDelete :=
    (filter (λ entry, now - entry.2 > sessionTimeout) entries).*1 in
  for_of sessionsToDelete deleteSession.

Definition needsStarter (characterName : string) : M bool :=
  get (λ m, negb (bool_decide (characterName ∈ charactersWithStarters m))).

Definition markStarterShown (characterName : string) : M unit :=
  modify (with_charactersWithStarters (λ shown, {[characterName]} ∪ shown)).

Definition clearAllStarterTracking : M unit :=
  modify (with_charactersWithStarters (λ _, ∅)).

End Methods.
End SessionManager.

(** Two agents to run the manager on: one whose loader sets the active
    character (["Echo"] when none is named), one whose loader always
    fails. *)
Module Agents.
Import SessionManager.

Definition blank : HybridChatbot :=
  {| loaderKey := None; activeCharacterName := "";
     cachedCharacter := None; history := [] |}.

Definition loading : Agent := {|
  new_HybridChatbot := blank;
  loadCharacterAsync := λ name c,
    (Ok (), {| loaderKey := loaderKey c;
               activeCharacterName := default "Echo" name;
               cachedCharacter := Some (JStr (default "Echo" name));
               history := history c |});
  initialize := λ c, (Ok (), c);
|}.

Definition failing : Agent := {|
  new_HybridChatbot := blank;
  loadCharacterAsync := λ name c,
    (Throw (Error "Profile not found or cannot be decrypted"), c);
  initialize := λ c, (Ok (), c);
|}.

(** An agent that loads but cannot be initialised. *)
Definition stillborn : Agent := {|
  new_HybridChatbot := blank;
  loadCharacterAsync := λ name c,
    (Ok (), {| loaderKey := loaderKey c;
               activeCharacterName := default "Echo" name;
               cachedCharacter := Some (JStr (default "Echo" name));
               history := history c |});
  initialize := λ c, (Throw (Error "No model configured"), c);
|}.

(** The manager after one session was created with ["Nova"]. *)
Definition nova_session : Manager :=
  (getChatbot (agent := loading) 1 "s1" (Some "Nova") None new_SessionManager).2.

End Agents.

(** Stores to run the profile store on, over the ideal runtime. *)
Module Examples.
Import ProfileStorage Ideal.

Definition store (entries : list (string * itext)) : Store runtime :=
  {| files := list_to_map entries;
     defaultUserData := DEFAULT_USER_DATA;
     written := [] |}.

Definition favorite (id text : string) : Json :=
  JObj [("id", JStr id); ("text", JStr text); ("senderName", JStr "Nova");
        ("timestamp", JStr "2025-01-01T00:00:00.000Z");
        ("emotion", JNull); ("sentiment", JNull)].

Definition character (name gender : string) (favorites : list Json) : Json :=
  JObj [
    ("version", JStr "2.0");
    ("type", JStr "character");
    ("character", JObj [
       ("name", JStr name); ("gender", JStr gender); ("species", JStr "elf");
       ("age", JNum 120); ("role", JStr "guide"); ("companionType", JStr "mentor");
       ("appearance", JStr "tall"); ("traits", JStr "patient");
       ("interests", JStr "stars"); ("backstory", JStr "Born at sea.");
       ("boundaries", JStr ""); ("avoidWords", JStr "");
       ("notifications", JBool true);
       ("tagSelections", JObj [("mood", JArr [JStr "calm"])]);
       ("favorites", JArr favorites)])
  ].

Definition nova_doc : Json :=
  character "Nova" "male" [favorite "fav-1" "hello"; favorite "fav-2" "good night"].

Definition user_doc : Json :=
  JObj [("version", JStr "2.0"); ("type", JStr "user");
        ("user", JObj [("name", JStr "Sam")]);
        ("settings", JObj [("enableMemory", JBool true)]);
        ("sharedMemory", JObj [("roleplayEvents", JArr [])]);
        ("consent", JObj [("accepted", JBool true)])].


(** A corpus under the password ["old-password"]: a private profile, a
    public one and the user document. *)
Definition corpus : Store runtime :=
  store [("Nova.json", Sealed "old-password" (Doc nova_doc));
         ("Echo.json", Doc (character "Echo" "female" []));
         ("user-profile.json", Sealed "old-password" (Doc user_doc))].

(** The same with one envelope damaged, in two ways. *)
Definition alice_damaged : Store runtime :=
  store [("Alice.json", Damaged);
         ("Bob.json", Sealed "old-password" (Doc (character "Bob" "male" [])));
         ("user-profile.json", Sealed "old-password" (Doc user_doc))].

Definition bob_damaged : Store runtime :=
  store [("Alice.json", Sealed "old-password" (Doc (character "Alice" "female" [])));
         ("Bob.json", Damaged);
         ("user-profile.json", Sealed "old-password" (Doc user_doc))].

(** A profile that was never migrated from the legacy format. *)
Definition legacy_only : Store runtime :=
  store [("Luna.txt", Raw "name=Luna");
         ("Nova.json", Sealed "old-password" (Doc nova_doc));
         ("user-profile.json", Sealed "old-password" (Doc user_doc))].

End Examples.

(** * Properties *)

(** Unfolding the monad in a goal. *)
Ltac eff :=
  repeat (progress (cbn -[lookup insert delete] in *;
                    unfold mbind, Eff_bind, mret, Eff_ret, try_catch, throw, lift in * )).

(** ** The helpers on small inputs *)

Example parseInt_decimal : parseInt (Some (JStr "42")) = Int 42.
Proof. reflexivity. Qed.

Example parseInt_prefix : parseInt (Some (JStr " -7 years")) = Int (-7).
Proof. reflexivity. Qed.

Example parseInt_hex : parseInt (Some (JStr "0x1F")) = Int 31.
Proof. reflexivity. Qed.

Example parseInt_NaN : parseInt (Some (JStr "old")) = NaN ∧ parseInt None = NaN.
Proof. split; reflexivity. Qed.

(** U+00A0 and U+FEFF before the digits. *)
Example parseInt_no_break_space :
  parseInt (Some (JStr (String "194" (String "160"
                          (String "239" (String "187" (String "191" "30")))))))
  = Int 30.
Proof. reflexivity. Qed.

(** [2 ^ 53 + 1] is no double: the digits round to [2 ^ 53]. *)
Example parseInt_rounds :
  parseInt (Some (JStr "9007199254740993")) = Int 9007199254740992 ∧
  parseInt (Some (JStr "9007199254740995")) = Int 9007199254740996.
Proof. split; vm_compute; reflexivity. Qed.

(** [1e21] prints as [1e+21] and [1e23] (the double below it) as
    [1e+23], [2 ^ 70] as [1.1805916207174113e+21]; a number below
    [1e21] prints all its digits. *)
Example parseInt_of_number :
  parseInt (Some (JNum (10 ^ 21))) = Int 1 ∧
  parseInt (Some (JNum 99999999999999991611392)) = Int 1 ∧
  parseInt (Some (JNum (2 ^ 70))) = Int 1 ∧
  parseInt (Some (JNum (- (7 * 10 ^ 21)))) = Int (-7) ∧
  parseInt (Some (JNum (2 ^ 64))) = Int (2 ^ 64) ∧
  parseInt (Some (JNum 30)) = Int 30.
Proof. repeat split; vm_compute; reflexivity. Qed.

Example parseInt_overflow :
  parseInt (Some (JStr ("0x" +:+ string_of_list_ascii (repeat "F"%char 257))))
  = Infinity.
Proof. vm_compute. reflexivity. Qed.

Example age_of_default :
  ProfileStorage.age_of None = JNum 25 ∧
  ProfileStorage.age_of (Some (JNum 0)) = JNum 25 ∧
  ProfileStorage.age_of (Some (JStr "30")) = JNum 30 ∧
  ProfileStorage.age_of (Some (JNum (10 ^ 21))) = JNum 1.
Proof. repeat split; vm_compute; reflexivity. Qed.

Example trim_unicode :
  trim (String "239" (String "187" (String "191" " name"))
        +:+ String "194" (String "160" (String "009" ""))) = "name".
Proof. reflexivity. Qed.

Example profile_name_of_files :
  ProfileStorage.profile_name_of "Nova.json" = Some "Nova" ∧
  ProfileStorage.profile_name_of "Luna.txt" = Some "Luna" ∧
  ProfileStorage.profile_name_of "user-profile.json" = None ∧
  ProfileStorage.profile_name_of "active-character.txt" = None ∧
  ProfileStorage.profile_name_of "user-settings.txt" = None ∧
  ProfileStorage.profile_name_of "Luna_avatar.txt" = None ∧
  ProfileStorage.profile_name_of "notes.md" = None.
Proof. repeat split; reflexivity. Qed.

Example collect_names_once :
  ProfileStorage.collect_names ["Luna.txt"; "Nova.json"; "Luna.json"]
  = ["Luna"; "Nova"].
Proof. reflexivity. Qed.

Example legacy_profile_lines :
  ProfileStorage.legacy_profile
    ("name = Luna" +:+ String "010" ("backstory=Born\nat sea=far"
                   +:+ String "010" "notifications=true"))
  = JObj [("name", JStr " Luna");
          ("backstory", JStr ("Born" +:+ String "010" "at sea=far"));
          ("notifications", JBool true)].
Proof. reflexivity. Qed.

(** A line for [__proto__] leaves no property, and the keys that are
    array indices come first, in ascending order. *)
Example legacy_profile_order :
  ProfileStorage.legacy_profile
    ("name=Luna" +:+ String "010" ("__proto__=x" +:+ String "010" ("10=b"
       +:+ String "010" ("2=a" +:+ String "010" ("01=c" +:+ String "010" "2=z")))))
  = JObj [("2", JStr "z"); ("10", JStr "b"); ("name", JStr "Luna");
          ("01", JStr "c")].
Proof. reflexivity. Qed.

Example shouldEncryptProfile_names :
  ProfileStorage.shouldEncryptProfile "Echo" = false ∧
  ProfileStorage.shouldEncryptProfile "Kairos" = false ∧
  ProfileStorage.shouldEncryptProfile "Nova" = true.
Proof. repeat split; reflexivity. Qed.

(** ** The session manager *)

Section ManagerProperties.
Import SessionManager.
Context {agent : Agent}.

(** What [deleteSession] does, by cases on the session registry. *)
Lemma deleteSession_registered sessionId m :
  is_Some (sessions m !! sessionId) →
  deleteSession sessionId m =
    (Ok (), with_lastActivity (delete sessionId)
              (with_sessions (delete sessionId) m)).
Proof.
  intros Hs. unfold deleteSession, get, modify. eff.
  rewrite bool_decide_eq_true_2 by done. reflexivity.
Qed.

Lemma deleteSession_unregistered sessionId m :
  sessions m !! sessionId = None →
  deleteSession sessionId m = (Ok (), m).
Proof.
  intros Hs. unfold deleteSession, get, modify. eff.
  rewrite bool_decide_eq_false_2; [reflexivity|].
  rewrite Hs. by intros [? ?].
Qed.

(** C8, as amended.  [deleteSession] always succeeds and never leaves a
    session record for the id.  When the registry holds the id it
    removes the record and the activity timestamp and nothing else;
    when it does not, it changes nothing, whatever the activity map
    holds.  A second call changes nothing.  The manager's state holds
    no document of the store. *)
Theorem deleteSession_spec sessionId m :
  ∃ m',
    deleteSession sessionId m = (Ok (), m') ∧
    sessions m' !! sessionId = None ∧
    (is_Some (sessions m !! sessionId) →
       lastActivity m' !! sessionId = None ∧
       m' = with_lastActivity (delete sessionId)
              (with_sessions (delete sessionId) m)) ∧
    (sessions m !! sessionId = None → m' = m) ∧
    (∀ other, other ≠ sessionId →
       sessions m' !! other = sessions m !! other ∧
       lastActivity m' !! other = lastActivity m !! other) ∧
    sessionCharacters m' = sessionCharacters m ∧
    heap m' = heap m ∧
    deleteSession sessionId m' = (Ok (), m').
Proof.
  destruct (sessions m !! sessionId) as [chatbot|] eqn:Hs.
  - eexists. split; [apply deleteSession_registered; by rewrite Hs|].
    cbn. rewrite !lookup_delete_eq.
    repeat split; try done.
    + by rewrite lookup_delete_ne.
    + by rewrite lookup_delete_ne.
    + apply deleteSession_unregistered. cbn. apply lookup_delete_eq.
  - exists m. split; [by apply deleteSession_unregistered|].
    repeat split; try done; try by intros [? ?].
    by apply deleteSession_unregistered.
Qed.

Lemma truthy_str_Some (s : string) : truthy_str (Some s) = true ↔ s ≠ "".
Proof.
  cbn. rewrite negb_true_iff, bool_decide_eq_false. reflexivity.
Qed.

(** C5, as amended.  When the load fails while a new session is being
    created, the error reaches the caller, and the session registry and
    the session-to-character map are as before the call (so they hold
    no entry for the id unless they already did); the activity map,
    written first, holds the time of the call for the id. *)
Theorem getChatbot_load_failure now sessionId characterName encryptionKey m e c' :
  sessionId ≠ "" →
  sessions m !! sessionId = None →
  loadCharacterAsync (requested characterName)
    (keyed encryptionKey new_HybridChatbot) = (Throw e, c') →
  ∃ m',
    getChatbot now sessionId characterName encryptionKey m = (Throw e, m') ∧
    sessions m' = sessions m ∧
    sessionCharacters m' = sessionCharacters m ∧
    lastActivity m' = <[sessionId := now]> (lastActivity m) ∧
    lastActivity m' !! sessionId = Some now.
Proof.
  intros Hid Hs Hload. unfold getChatbot.
  rewrite (proj2 (truthy_str_Some sessionId) Hid).
  unfold requested, keyed in Hload.
  unfold modify, get, construct, call, getActiveCharacterName. eff.
  rewrite Hs. eff.
  destruct (truthy_str encryptionKey); eff;
    rewrite ?lookup_insert_eq; eff;
    destruct (truthy_str characterName); eff;
    rewrite ?lookup_insert_eq, ?Hload; eff;
    (eexists; split; [reflexivity|]; cbn; by rewrite ?lookup_insert_eq).
Qed.

(** An existing session asked for without a character: the same
    chatbot, with nothing but the key and the activity time touched. *)
Lemma getChatbot_existing_unnamed now sessionId encryptionKey m chatbot c :
  sessionId ≠ "" →
  sessions m !! sessionId = Some chatbot →
  heap m !! chatbot = Some c →
  ∃ m',
    getChatbot now sessionId None encryptionKey m = (Ok chatbot, m') ∧
    sessions m' = sessions m ∧
    sessionCharacters m' = sessionCharacters m ∧
    heap m' !! chatbot = Some (keyed encryptionKey c).
Proof.
  intros Hid Hs Hc. unfold getChatbot.
  rewrite (proj2 (truthy_str_Some sessionId) Hid).
  unfold modify, get, call, keyed. eff. rewrite Hs. eff.
  destruct (truthy_str encryptionKey); eff; rewrite ?Hc; eff;
    (eexists; split; [reflexivity|]; cbn; by rewrite ?lookup_insert_eq).
Qed.

(** An existing session asked for with a character other than the
    recorded one. *)
Lemma getChatbot_switch now sessionId characterName encryptionKey m chatbot c c1 :
  sessionId ≠ "" →
  characterName ≠ "" →
  sessions m !! sessionId = Some chatbot →
  heap m !! chatbot = Some c →
  sessionCharacters m !! sessionId ≠ Some characterName →
  loadCharacterAsync (Some characterName) (keyed encryptionKey c) = (Ok (), c1) →
  ∃ m',
    getChatbot now sessionId (Some characterName) encryptionKey m
      = (Ok chatbot, m') ∧
    sessions m' = sessions m ∧
    sessionCharacters m' = <[sessionId := characterName]> (sessionCharacters m) ∧
    lastActivity m' = <[sessionId := now]> (lastActivity m) ∧
    heap m' !! chatbot =
      Some {| loaderKey := loaderKey c1;
              activeCharacterName := activeCharacterName c1;
              cachedCharacter := None;
              history := [] |}.
Proof.
  intros Hid Hname Hs Hc Hcur Hload. unfold getChatbot.
  rewrite (proj2 (truthy_str_Some sessionId) Hid).
  rewrite (proj2 (truthy_str_Some characterName) Hname).
  unfold keyed in Hload.
  unfold modify, get, call, getActiveCharacterName. eff. rewrite Hs. eff.
  rewrite (bool_decide_eq_false_2 (Some characterName = _)) by congruence.
  destruct (truthy_str encryptionKey); eff; rewrite ?Hc; eff;
    rewrite ?lookup_insert_eq; eff; rewrite ?Hload; eff;
    rewrite ?lookup_insert_eq; eff;
    rewrite ?lookup_insert_eq; eff;
    rewrite ?lookup_insert_eq; eff;
    (eexists; split; [reflexivity|]; cbn; by rewrite ?lookup_insert_eq).
Qed.

(** C6.  A call for an existing session with a character other than
    the recorded one loads that character into the same chatbot
    instance ([c1] is what the loader made of it), empties its history,
    resets its cached-character slot and records the new name; a call
    without a character that follows returns the same instance and
    leaves the history, the cached slot, the loaded character and the
    recorded name as they were. *)
Theorem getChatbot_switch_character
    now now' sessionId characterName encryptionKey encryptionKey' m chatbot c c1 :
  sessionId ≠ "" →
  characterName ≠ "" →
  sessions m !! sessionId = Some chatbot →
  heap m !! chatbot = Some c →
  sessionCharacters m !! sessionId ≠ Some characterName →
  loadCharacterAsync (Some characterName) (keyed encryptionKey c) = (Ok (), c1) →
  ∃ m1 m2 c2 c3,
    getChatbot now sessionId (Some characterName) encryptionKey m
      = (Ok chatbot, m1) ∧
    sessions m1 !! sessionId = Some chatbot ∧
    heap m1 !! chatbot = Some c2 ∧
    activeCharacterName c2 = activeCharacterName c1 ∧
    history c2 = [] ∧
    cachedCharacter c2 = None ∧
    sessionCharacters m1 !! sessionId = Some characterName ∧
    getChatbot now' sessionId None encryptionKey' m1 = (Ok chatbot, m2) ∧
    sessions m2 !! sessionId = Some chatbot ∧
    heap m2 !! chatbot = Some c3 ∧
    history c3 = history c2 ∧
    cachedCharacter c3 = cachedCharacter c2 ∧
    activeCharacterName c3 = activeCharacterName c2 ∧
    sessionCharacters m2 !! sessionId = Some characterName.
Proof.
  intros Hid Hname Hs Hc Hcur Hload.
  destruct (getChatbot_switch now sessionId characterName encryptionKey
              m chatbot c c1) as (m1 & Hrun & Hs1 & Hch1 & _ & Hc1); try done.
  assert (Hs1' : sessions m1 !! sessionId = Some chatbot) by by rewrite Hs1.
  destruct (getChatbot_existing_unnamed now' sessionId encryptionKey'
              m1 chatbot _ Hid Hs1' Hc1) as (m2 & Hrun2 & Hs2 & Hch2 & Hc2).
  exists m1, m2. eexists. eexists.
  split; [exact Hrun|]. split; [exact Hs1'|]. split; [exact Hc1|].
  split; [reflexivity|]. split; [reflexivity|]. split; [reflexivity|].
  split; [by rewrite Hch1, lookup_insert_eq|].
  split; [exact Hrun2|]. split; [by rewrite Hs2|]. split; [exact Hc2|].
  unfold keyed. destruct (truthy_str encryptionKey'); cbn;
    by rewrite Hch2, Hch1, lookup_insert_eq.
Qed.

End ManagerProperties.

(** The three theorems above on concrete runs. *)

(** C5: a failed creation registers an activity timestamp. *)
Lemma getChatbot_failure_leaves_timestamp :
  ∃ e m',
    SessionManager.getChatbot (agent := Agents.failing) 1000 "s1" (Some "Nova") None
      SessionManager.new_SessionManager = (Throw e, m') ∧
    SessionManager.sessions m' !! "s1" = None ∧
    SessionManager.sessionCharacters m' !! "s1" = None ∧
    SessionManager.lastActivity m' !! "s1" = Some 1000.
Proof. eexists. eexists. vm_compute. done. Qed.

Lemma getChatbot_load_failure_witness :
  ∃ m',
    SessionManager.getChatbot (agent := Agents.failing) 1000 "s1" (Some "Nova") None
      SessionManager.new_SessionManager
      = (Throw (Error "Profile not found or cannot be decrypted"), m') ∧
    SessionManager.sessions m' = ∅ ∧
    SessionManager.sessionCharacters m' = ∅ ∧
    SessionManager.lastActivity m' = <["s1" := 1000]> ∅ ∧
    SessionManager.lastActivity m' !! "s1" = Some 1000.
Proof.
  apply (getChatbot_load_failure (agent := Agents.failing) 1000 "s1"
           (Some "Nova") None SessionManager.new_SessionManager _ Agents.blank).
  - done.
  - reflexivity.
  - reflexivity.
Defined.

(** C8: the timestamp a failed creation left survives [deleteSession]. *)
Lemma deleteSession_leaves_timestamp :
  ∃ e m1 m2,
    SessionManager.getChatbot (agent := Agents.failing) 1000 "s1" (Some "Nova") None
      SessionManager.new_SessionManager = (Throw e, m1) ∧
    SessionManager.deleteSession "s1" m1 = (Ok (), m2) ∧
    SessionManager.lastActivity m2 !! "s1" = Some 1000.
Proof. eexists. eexists. eexists. vm_compute. done. Qed.

(** C6 on a session created with ["Nova"] and switched to ["Astra"]. *)
Lemma getChatbot_switch_character_witness :
  ∃ m1 m2 c2 c3,
    SessionManager.getChatbot (agent := Agents.loading) 2 "s1" (Some "Astra") None
      Agents.nova_session = (Ok 0%nat, m1) ∧
    SessionManager.sessions m1 !! "s1" = Some 0%nat ∧
    SessionManager.heap m1 !! 0%nat = Some c2 ∧
    SessionManager.activeCharacterName c2 = "Astra" ∧
    SessionManager.history c2 = [] ∧
    SessionManager.cachedCharacter c2 = None ∧
    SessionManager.sessionCharacters m1 !! "s1" = Some "Astra" ∧
    SessionManager.getChatbot (agent := Agents.loading) 3 "s1" None None m1
      = (Ok 0%nat, m2) ∧
    SessionManager.sessions m2 !! "s1" = Some 0%nat ∧
    SessionManager.heap m2 !! 0%nat = Some c3 ∧
    SessionManager.history c3 = SessionManager.history c2 ∧
    SessionManager.cachedCharacter c3 = SessionManager.cachedCharacter c2 ∧
    SessionManager.activeCharacterName c3 = SessionManager.activeCharacterName c2 ∧
    SessionManager.sessionCharacters m2 !! "s1" = Some "Astra".
Proof.
  apply (getChatbot_switch_character (agent := Agents.loading) 2 3 "s1" "Astra"
           None None Agents.nova_session 0%nat
           (SessionManager.mkChatbot None "Nova" (Some (JStr "Nova")) [])
           (SessionManager.mkChatbot None "Astra" (Some (JStr "Astra")) [])).
  - done.
  - done.
  - vm_compute. reflexivity.
  - vm_compute. reflexivity.
  - vm_compute. congruence.
  - reflexivity.
Defined.

(** ** The profile store *)

Section StoreProperties.
Import ProfileStorage.
Context {R : Runtime}.

Implicit Types (s : Store R) (path name : string) (key : option string).

(** Reading never changes the state. *)
Lemma fs_readFile_state path s r s' :
  fs_readFile path s = (r, s') → s' = s.
Proof. unfold fs_readFile. case_match; congruence. Qed.

Lemma readFileContent_state path key s r s' :
  readFileContent path key s = (r, s') → s' = s.
Proof.
  unfold readFileContent, fs_readFile. eff.
  repeat case_match; eff; congruence.
Qed.

Lemma readFileContent_missing path key s :
  files s !! path = None →
  readFileContent path key s = (Throw ENOENT, s).
Proof. intros H. unfold readFileContent, fs_readFile. eff. by rewrite H. Qed.

Lemma parse_state (content : text) s r s' :
  parse content s = (r, s') → s' = s.
Proof. unfold parse. case_match; eff; congruence. Qed.

(** The two attempts of [reEncryptAllData] on one file. *)
Lemma read_old_or_new_state path old new message s r s' :
  read_old_or_new path old new message s = (r, s') → s' = s.
Proof.
  unfold read_old_or_new. eff.
  destruct (readFileContent path (Some old) s) as [[c|e] s1] eqn:H1;
    apply readFileContent_state in H1; subst; [congruence|].
  destruct (readFileContent path (Some new) s) as [[c|e'] s1] eqn:H2;
    apply readFileContent_state in H2; subst; congruence.
Qed.

Lemma read_old_or_new_fails path old new message s e1 e2 :
  readFileContent path (Some old) s = (Throw e1, s) →
  readFileContent path (Some new) s = (Throw e2, s) →
  read_old_or_new path old new message s = (Throw (Error message), s).
Proof. intros H1 H2. unfold read_old_or_new. eff. by rewrite H1, H2. Qed.

Lemma writeFileContent_run path (content : text) key (b : bool) s :
  writeFileContent path content key b s
  = (Ok (), put_file path (outputContent content key b) s).
Proof. reflexivity. Qed.

(** A read sees one file only. *)
Lemma readFileContent_ext path key s1 s2 :
  files s1 !! path = files s2 !! path →
  (readFileContent path key s1).1 = (readFileContent path key s2).1.
Proof.
  intros H. unfold readFileContent, fs_readFile. eff. rewrite H.
  repeat case_match; eff; congruence.
Qed.

Lemma readFileContent_put_other path path' (c : text) key s :
  path ≠ path' →
  (readFileContent path key (put_file path' c s)).1
  = (readFileContent path key s).1.
Proof.
  intros H. apply readFileContent_ext. cbn. by rewrite lookup_insert_ne.
Qed.

Lemma readFileContent_fst path key s r :
  (readFileContent path key s).1 = r → readFileContent path key s = (r, s).
Proof.
  destruct (readFileContent path key s) as [r' s'] eqn:H.
  apply readFileContent_state in H. cbn. congruence.
Qed.

(** [saveProfile] stops on [null] and writes one file otherwise. *)
Lemma saveProfile_null name key s :
  saveProfile name JNull key s = (Throw TypeError, s).
Proof. reflexivity. Qed.

Lemma saveProfile_run name (profileData : Json) key s :
  profileData ≠ JNull →
  saveProfile name profileData key s
  = (Ok (), put_file (name +:+ ".json")
              (outputContent
                 (JSON_stringify
                    (saved_document name profileData
                       (existing_document (name +:+ ".json") (read_key name key) s)))
                 key (shouldEncryptProfile name)) s).
Proof.
  intros Hnn. unfold saveProfile, saved_document, full_format.
  assert (Hm : member (Some profileData) "version" = Ok (prop profileData "version"))
    by by destruct profileData.
  rewrite Hm. eff.
  destruct (is_string (prop profileData "version") "2.0"
            && is_string (prop profileData "type") "character"); eff.
  - reflexivity.
  - unfold existing_document, read_key.
    destruct (readFileContent _ _ s) as [[content|e] s1] eqn:Hread;
      apply readFileContent_state in Hread; subst s1; eff; [|reflexivity].
    unfold parse. destruct (JSON_parse content); eff; reflexivity.
Qed.

Lemma string_length_app (a b : string) :
  String.length (a +:+ b) = (String.length a + String.length b)%nat.
Proof.
  induction a as [|c a IH]; [done|].
  change (S (String.length (a +:+ b)) = S (String.length a + String.length b)).
  by rewrite IH.
Qed.

Lemma string_app_inv_tail (a b t : string) : a +:+ t = b +:+ t → a = b.
Proof.
  revert b. induction a as [|c a IH]; intros [|c' b] H.
  - done.
  - apply (f_equal String.length) in H.
    rewrite !string_length_app in H. cbn in H. lia.
  - apply (f_equal String.length) in H.
    rewrite !string_length_app in H. cbn in H. lia.
  - change (String c (a +:+ t) = String c' (b +:+ t)) in H.
    injection H as -> H. f_equal. by apply IH.
Qed.


(** One profile of the loop of [reEncryptAllData]: nothing happens, or
    its file is rewritten, or the loop is left with the one error. *)
Lemma reEncryptProfile_cases old new name s :
  reEncryptProfile old new name s = (Ok (), s) ∨
  (∃ c, reEncryptProfile old new name s
        = (Ok (), put_file (name +:+ ".json") c s)) ∨
  reEncryptProfile old new name s
  = (Throw (Error "Failed to re-encrypt profile"), s).
Proof.
  unfold reEncryptProfile.
  destruct (shouldEncryptProfile name); [|by left]. eff.
  destruct (read_old_or_new _ _ _ _ s) as [[[content already]|e] s1] eqn:Hr;
    apply read_old_or_new_state in Hr; subst s1; [|by right; right].
  destruct already; eff; [by left|].
  unfold parse. destruct (JSON_parse content) as [profileData|]; eff;
    [|by right; right].
  destruct profileData;
    try (rewrite saveProfile_run by done; right; left; eexists; reflexivity).
  rewrite saveProfile_null. by right; right.
Qed.

Lemma reEncryptProfile_undecryptable old new name s :
  shouldEncryptProfile name = true →
  unreadable (name +:+ ".json") old s →
  unreadable (name +:+ ".json") new s →
  reEncryptProfile old new name s
  = (Throw (Error "Failed to re-encrypt profile"), s).
Proof.
  intros Hp [e1 H1] [e2 H2]. unfold reEncryptProfile. rewrite Hp. eff.
  apply readFileContent_fst in H1, H2.
  by rewrite (read_old_or_new_fails _ _ _ _ _ _ _ H1 H2).
Qed.

Lemma unreadable_put_other path path' password (c : text) s :
  path ≠ path' →
  unreadable path password s → unreadable path password (put_file path' c s).
Proof.
  intros Hne [e H]. exists e. by rewrite readFileContent_put_other.
Qed.

(** The loop stops at (or before) a profile neither password opens. *)
Lemma for_of_reEncryptProfile_aborts old new name (names : list string) s :
  name ∈ names →
  shouldEncryptProfile name = true →
  unreadable (name +:+ ".json") old s →
  unreadable (name +:+ ".json") new s →
  ∃ s', for_of names (reEncryptProfile old new) s
        = (Throw (Error "Failed to re-encrypt profile"), s').
Proof.
  intros Hin Hp. revert s. induction names as [|p names IH]; intros s H1 H2.
  - by apply elem_of_nil in Hin.
  - cbn [for_of]. unfold mbind, Eff_bind at 1.
    destruct (decide (p = name)) as [->|Hne].
    + rewrite reEncryptProfile_undecryptable by done. by eexists.
    + apply elem_of_cons in Hin as [Heq|Hin]; [congruence|].
      destruct (reEncryptProfile_cases old new p s) as [Hc|[[c Hc]|Hc]];
        rewrite Hc.
      * by apply IH.
      * apply IH; [done| |]; apply unreadable_put_other; try done;
          intros Heq; by apply string_app_inv_tail in Heq.
      * by eexists.
Qed.

Lemma reEncryptAllData_unfold old new s :
  reEncryptAllData old new s
  = match for_of (profile_names s) (reEncryptProfile old new) s with
    | (Ok _, s1) => reEncryptUserProfile old new s1
    | (Throw e, s1) => (Throw e, s1)
    end.
Proof. reflexivity. Qed.

Lemma unreadable_missing path password s :
  files s !! path = None → unreadable path password s.
Proof.
  intros H. exists ENOENT. by rewrite readFileContent_missing.
Qed.

(** C4, as amended.  When a private profile that [listProfiles] reports
    opens under neither password, the whole operation stops with the
    error [Failed to re-encrypt profile]; when the loop over the
    profiles is through and the user document opens under neither
    password, it stops with [Failed to re-encrypt user profile].  The
    error is the same for every profile: it does not carry a name. *)
Theorem reEncryptAllData_undecryptable old new s :
  (∀ name,
     name ∈ profile_names s →
     shouldEncryptProfile name = true →
     unreadable (name +:+ ".json") old s →
     unreadable (name +:+ ".json") new s →
     ∃ s', reEncryptAllData old new s
           = (Throw (Error "Failed to re-encrypt profile"), s')) ∧
  (∀ s1,
     for_of (profile_names s) (reEncryptProfile old new) s = (Ok (), s1) →
     unreadable "user-profile.json" old s1 →
     unreadable "user-profile.json" new s1 →
     reEncryptAllData old new s
     = (Throw (Error "Failed to re-encrypt user profile"), s1)).
Proof.
  split.
  - intros name Hin Hp H1 H2.
    destruct (for_of_reEncryptProfile_aborts old new name _ s Hin Hp H1 H2)
      as [s' Hs'].
    exists s'. by rewrite reEncryptAllData_unfold, Hs'.
  - intros s1 Hloop [e1 H1] [e2 H2].
    rewrite reEncryptAllData_unfold, Hloop.
    unfold reEncryptUserProfile. eff.
    apply readFileContent_fst in H1, H2.
    by rewrite (read_old_or_new_fails _ _ _ _ _ _ _ H1 H2).
Qed.

(** C10.  A private name that [listProfiles] reports and that has no
    [.json] file (a profile known from its legacy [.txt] file only is
    one, see [legacy_file_is_reported] below): reading the [.json]
    file fails under the old and under the new password, and
    [reEncryptAllData] fails, whatever the two passwords are. *)
Theorem reEncryptAllData_legacy_only old new name s :
  name ∈ profile_names s →
  shouldEncryptProfile name = true →
  files s !! (name +:+ ".json") = None →
  readFileContent (name +:+ ".json") (Some old) s = (Throw ENOENT, s) ∧
  readFileContent (name +:+ ".json") (Some new) s = (Throw ENOENT, s) ∧
  ∃ s', reEncryptAllData old new s
        = (Throw (Error "Failed to re-encrypt profile"), s').
Proof.
  intros Hin Hp Hnone.
  split; [by apply readFileContent_missing|].
  split; [by apply readFileContent_missing|].
  destruct (for_of_reEncryptProfile_aborts old new name _ s Hin Hp)
    as [s' Hs']; [by apply unreadable_missing..|].
  exists s'. by rewrite reEncryptAllData_unfold, Hs'.
Qed.

(** The names [listProfiles] returns are those of the files. *)
Lemma elem_of_Set_add (x y : string) (elems : list string) :
  x ∈ Set_add y elems ↔ x = y ∨ x ∈ elems.
Proof.
  unfold Set_add. case_bool_decide.
  - split; [by right|]. by intros [->|].
  - rewrite elem_of_app, list_elem_of_singleton. tauto.
Qed.

Lemma elem_of_collect_names name (entries : list string) :
  name ∈ collect_names entries ↔
  ∃ f, f ∈ entries ∧ profile_name_of f = Some name.
Proof.
  unfold collect_names.
  enough (∀ acc,
    name ∈ foldl (λ profileNames f,
                    match profile_name_of f with
                    | Some n => Set_add n profileNames
                    | None => profileNames
                    end) acc entries
    ↔ name ∈ acc ∨ ∃ f, f ∈ entries ∧ profile_name_of f = Some name) as H.
  { rewrite H. split; [intros [Hnil|?]; [by apply elem_of_nil in Hnil|done]|by right]. }
  induction entries as [|f entries IH]; intros acc; cbn [foldl].
  - split; [by left|]. intros [?|(f & Hf & _)]; [done|by apply elem_of_nil in Hf].
  - rewrite IH. destruct (profile_name_of f) as [n|] eqn:Hf.
    + rewrite elem_of_Set_add. split.
      * intros [[->|Hacc]|(g & Hg & Hn)].
        -- right. exists f. split; [apply elem_of_cons; by left|done].
        -- by left.
        -- right. exists g. split; [apply elem_of_cons; by right|done].
      * intros [Hacc|(g & Hg & Hn)]; [by left; right|].
        apply elem_of_cons in Hg as [->|Hg]; [left; left; congruence|].
        right. by exists g.
    + split.
      * intros [Hacc|(g & Hg & Hn)]; [by left|].
        right. exists g. split; [apply elem_of_cons; by right|done].
      * intros [Hacc|(g & Hg & Hn)]; [by left|].
        apply elem_of_cons in Hg as [->|Hg]; [congruence|].
        right. by exists g.
Qed.

Lemma elem_of_profile_names name s :
  name ∈ profile_names s ↔
  ∃ f, is_Some (files s !! f) ∧ profile_name_of f = Some name.
Proof.
  unfold profile_names. rewrite elem_of_collect_names.
  split; intros (f & Hf & Hn); exists f; (split; [|done]).
  - apply list_elem_of_fmap in Hf as ([k c] & -> & Hkc).
    apply elem_of_map_to_list in Hkc. by exists c.
  - destruct Hf as [c Hc]. apply list_elem_of_fmap. exists (f, c).
    split; [done|]. by apply elem_of_map_to_list.
Qed.

(** A legacy file puts its profile on the list. *)
Lemma legacy_file_is_reported name s :
  is_Some (files s !! (name +:+ ".txt")) →
  profile_name_of (name +:+ ".txt") = Some name →
  name ∈ profile_names s.
Proof. intros Hf Hn. apply elem_of_profile_names. by eexists. Qed.

(** *** [removeFavorite] *)

Lemma assoc_assign k k' (v : Json) fields :
  assoc k' (assign k v fields) = if bool_decide (k = k') then Some v else assoc k' fields.
Proof.
  induction fields as [|[k0 v0] fields IH]; cbn.
  - by repeat case_bool_decide.
  - repeat (case_bool_decide; cbn); congruence.
Qed.

Lemma assoc_assign_eq k (v : Json) fields : assoc k (assign k v fields) = Some v.
Proof. rewrite assoc_assign. by rewrite bool_decide_eq_true_2. Qed.

Lemma assoc_assign_ne k k' (v : Json) fields :
  k ≠ k' → assoc k' (assign k v fields) = assoc k' fields.
Proof. intros. rewrite assoc_assign. by rewrite bool_decide_eq_false_2. Qed.

Lemma filter_favorites_run favoriteId (favorites : list Json) :
  Forall (λ fav, fav ≠ JNull) favorites →
  filter_favorites favoriteId favorites
  = Ok (filter (λ fav, has_id favoriteId fav = false) favorites).
Proof.
  induction 1 as [|fav favorites Hfav _ IH]; [done|].
  cbn [filter_favorites]. rewrite IH.
  assert (member (Some fav) "id" = Ok (prop fav "id")) as -> by by destruct fav.
  rewrite filter_cons. unfold has_id.
  destruct (is_string (prop fav "id") favoriteId); by case_decide.
Qed.

Lemma filter_length_all {A} (P : A → Prop) `{∀ x, Decision (P x)} (l : list A) :
  List.length (filter P l) = List.length l ↔ Forall P l.
Proof.
  induction l as [|x l IH]; [done|].
  rewrite filter_cons. case_decide; cbn.
  - rewrite Forall_cons. split; [intros [=]; split; tauto|intros [_ ?]; f_equal; tauto].
  - pose proof (length_filter P l). rewrite Forall_cons. split; [lia|tauto].
Qed.

Lemma filter_Forall_id {A} (P : A → Prop) `{∀ x, Decision (P x)} (l : list A) :
  Forall P l → filter P l = l.
Proof.
  induction 1 as [|x l Hx _ IH]; [done|]. by rewrite filter_cons_True, IH.
Qed.

(** What [removeFavorite] does on a stored character document that
    the key reads. *)
Lemma removeFavorite_cases name favoriteId key s (content : text) top cf favorites :
  (readFileContent (name +:+ ".json") (read_key name key) s).1 = Ok content →
  JSON_parse content = Some (JObj top) →
  full_format (JObj top) = true →
  assoc "character" top = Some (JObj cf) →
  (assoc "favorites" cf = Some (JArr favorites) ∨
   (truthy (assoc "favorites" cf) = false ∧ favorites = [])) →
  Forall (λ fav, fav ≠ JNull) favorites →
  removeFavorite name favoriteId key s
  = if bool_decide
         (List.length (filter (λ fav, has_id favoriteId fav = false) favorites)
          = List.length favorites)
    then (Throw (Error ("Favorite " +:+ favoriteId +:+ " not found")), s)
    else (Ok true,
          put_file (name +:+ ".json")
            (outputContent
               (JSON_stringify
                  (JObj (assign "character"
                           (JObj (assign "favorites"
                                    (JArr (filter (λ fav, has_id favoriteId fav = false)
                                             favorites)) cf)) top)))
               key (shouldEncryptProfile name)) s).
Proof.
  intros Hread Hparse Hfull Hchar Hfavs Hnn.
  apply readFileContent_fst in Hread.
  unfold full_format in Hfull. cbn [prop] in Hfull.
  set (kept := filter (λ fav, has_id favoriteId fav = false) favorites).
  unfold removeFavorite. fold (read_key name key). eff.
  rewrite Hread. eff. unfold parse. rewrite Hparse. eff.
  rewrite Hfull. eff. rewrite Hchar. eff.
  destruct Hfavs as [Hfavs|[Hfalsy Hnil]].
  - rewrite Hfavs. eff. rewrite Hchar. eff. rewrite Hfavs.
    rewrite (filter_favorites_run _ _ Hnn). fold kept. eff.
    case_bool_decide; reflexivity.
  - rewrite Hfalsy. eff. rewrite !assoc_assign_eq. eff.
    rewrite ?assoc_assign_eq. eff.
    subst kept favorites. reflexivity.
Qed.

(** *** The user document *)

Lemma read_and_parse_fails {A} path key s (k : Json → Eff (Store R) A) :
  no_readable_document path key s →
  ∃ e, (content ← readFileContent path key; v ← parse content; k v) s
       = (Throw e, s).
Proof.
  intros Hno. eff.
  destruct (readFileContent path key s) as [[content|e] s1] eqn:Hread;
    pose proof (readFileContent_state _ _ _ _ _ Hread); subst s1;
    [|by eexists].
  unfold parse. rewrite (Hno content) by by rewrite Hread. eff. by eexists.
Qed.

(** The refusal of [saveUserSettings] is thrown inside the [try] whose
    [catch] was meant for a missing file: it never leaves the block. *)
Lemma saveUserSettings_refusal_is_caught s :
  try_catch
    (fs_access "user-profile.json";;
     throw (Error "Cannot save user settings - unable to read existing profile (encryption key mismatch?)"))
    (λ accessErr, mret ()) s
  = (Ok (), s).
Proof. unfold fs_access. eff. by destruct (files s !! _). Qed.

Lemma update_defaults s (f : Json → Result Json) d' :
  f (defaultUserData s) = Ok d' →
  update TheDefaults f s
  = (Ok TheDefaults,
     {| files := files s; defaultUserData := d'; written := written s |}).
Proof. intros H. unfold update. by rewrite H. Qed.

Lemma set_prop2_object k1 k2 (v : Json) top inner :
  assoc k1 top = Some (JObj inner) →
  set_prop2 (Some (JObj top)) k1 k2 v
  = Ok (JObj (assign k1 (JObj (assign k2 v inner)) top)).
Proof. intros H. unfold set_prop2. cbn. by rewrite H. Qed.

(** Assignments that leave [settings.defaultActiveCharacter] alone. *)
Lemma set_prop_keeps_default d k (v : Json) (name : Json) :
  k ≠ "settings" →
  defaultActiveCharacter_of d = Some name →
  ∃ d', set_prop (Some d) k v = Ok d' ∧
        defaultActiveCharacter_of d' = Some name ∧
        truthy (prop d' "settings") = true.
Proof.
  intros Hk Hd. destruct d as [| | | | |top]; try done.
  eexists. split; [reflexivity|].
  unfold defaultActiveCharacter_of in *. cbn [prop] in *.
  rewrite assoc_assign_ne by done. split; [done|].
  by destruct (assoc "settings" top) as [[]|].
Qed.

Lemma set_prop2_keeps_default d k (v : Json) (name : Json) :
  k ≠ "defaultActiveCharacter" →
  defaultActiveCharacter_of d = Some name →
  ∃ d', set_prop2 (Some d) "settings" k v = Ok d' ∧
        defaultActiveCharacter_of d' = Some name.
Proof.
  intros Hk Hd. destruct d as [| | | | |top]; try done.
  unfold defaultActiveCharacter_of in *. cbn [prop] in *.
  destruct (assoc "settings" top) as [[| | | | |inner]|] eqn:Hs; try done.
  rewrite (set_prop2_object _ _ _ _ _ Hs).
  eexists. split; [reflexivity|]. cbn [prop].
  rewrite assoc_assign_eq. cbn. by rewrite assoc_assign_ne.
Qed.

Lemma setActiveProfile_fallback name key s sf :
  no_readable_document "user-profile.json" key s →
  prop (defaultUserData s) "settings" = Some (JObj sf) →
  ∃ s1,
    setActiveProfile name key s = (Ok (), s1) ∧
    defaultActiveCharacter_of (defaultUserData s1) = Some (JStr name) ∧
    files s1 !! "user-profile.json"
    = Some (outputContent (JSON_stringify (defaultUserData s1)) key true).
Proof.
  intros Hno Hd. unfold setActiveProfile, try_catch.
  edestruct (read_and_parse_fails (A:=unit) "user-profile.json" key s) as [e He];
    [exact Hno|]. rewrite He.
  destruct (defaultUserData s) as [| | | | |top] eqn:Htop; try done.
  cbn [prop] in Hd.
  unfold mbind, Eff_bind, update, current. rewrite Htop.
  rewrite (set_prop2_object _ _ _ _ _ Hd).
  eexists. split; [reflexivity|]. cbn. split.
  - unfold defaultActiveCharacter_of. cbn. rewrite assoc_assign_eq. cbn.
    by rewrite assoc_assign_eq.
  - by rewrite lookup_insert_eq.
Qed.

(** The first [try] of [saveConsent] and [saveUserSettings] when no
    document can be read: [existingData] stays [DEFAULT_USER_DATA]. *)
Lemma existingData_falls_back key s (handler : exn → Eff (Store R) docref) :
  no_readable_document "user-profile.json" key s →
  (∀ e, handler e s = (Ok TheDefaults, s)) →
  try_catch
    (content ← readFileContent "user-profile.json" key;
     v ← parse content;
     mret (Parsed v)) handler s
  = (Ok TheDefaults, s).
Proof.
  intros Hno Hh. unfold try_catch.
  edestruct (read_and_parse_fails (A:=docref) "user-profile.json" key s)
    as [e He]; [exact Hno|]. rewrite He. apply Hh.
Qed.

Lemma saveConsent_fallback (consentData : Json) key s (who : Json) :
  no_readable_document "user-profile.json" key s →
  defaultActiveCharacter_of (defaultUserData s) = Some who →
  ∃ s' doc,
    saveConsent consentData key s = (Ok (), s') ∧
    files s' !! "user-profile.json"
    = Some (outputContent (JSON_stringify doc) key (has_key key)) ∧
    prop doc "consent" = Some consentData ∧
    defaultActiveCharacter_of doc = Some who.
Proof.
  intros Hno Hd. unfold saveConsent.
  unfold mbind at 1, Eff_bind at 1.
  rewrite existingData_falls_back by done.
  destruct (set_prop_keeps_default _ "consent" consentData _ ltac:(done) Hd)
    as (d' & Hset & Hd' & _).
  unfold mbind at 1, Eff_bind at 1.
  rewrite (update_defaults _ _ _ Hset).
  eexists. exists d'. split; [reflexivity|]. cbn.
  rewrite lookup_insert_eq. split; [done|]. split; [|done].
  destruct (defaultUserData s); try done. injection Hset as <-.
  cbn. by rewrite assoc_assign_eq.
Qed.

Lemma update_set_prop_keeps s k (v who : Json) :
  k ≠ "settings" →
  defaultActiveCharacter_of (defaultUserData s) = Some who →
  ∃ s',
    update TheDefaults (λ d, set_prop (Some d) k v) s = (Ok TheDefaults, s') ∧
    files s' = files s ∧ written s' = written s ∧
    defaultActiveCharacter_of (defaultUserData s') = Some who ∧
    truthy (prop (defaultUserData s') "settings") = true.
Proof.
  intros Hk Hd.
  destruct (set_prop_keeps_default _ k v _ Hk Hd) as (d' & Hset & Hd' & Ht).
  eexists. split; [by apply update_defaults|]. done.
Qed.

Lemma update_set_prop2_keeps s k (v who : Json) :
  k ≠ "defaultActiveCharacter" →
  defaultActiveCharacter_of (defaultUserData s) = Some who →
  ∃ s',
    update TheDefaults (λ d, set_prop2 (Some d) "settings" k v) s
    = (Ok TheDefaults, s') ∧
    files s' = files s ∧ written s' = written s ∧
    defaultActiveCharacter_of (defaultUserData s') = Some who.
Proof.
  intros Hk Hd.
  destruct (set_prop2_keeps_default _ k v _ Hk Hd) as (d' & Hset & Hd').
  eexists. split; [by apply update_defaults|]. done.
Qed.

(** One assignment to the defaults that keeps
    [settings.defaultActiveCharacter]. *)
Ltac step_defaults who :=
  unfold mbind at 1, Eff_bind at 1;
  match goal with
  | |- context [update TheDefaults (λ d, set_prop (Some d) ?k ?v) ?s0] =>
      let Hu := fresh "Hu" in
      let Hk := fresh "Hkeep" in
      destruct (update_set_prop_keeps s0 k v who ltac:(done) ltac:(done))
        as (? & Hu & ? & ? & Hk & ?);
      rewrite Hu; clear Hu
  | |- context [update TheDefaults (λ d, set_prop2 (Some d) "settings" ?k ?v) ?s0] =>
      let Hu := fresh "Hu" in
      let Hk := fresh "Hkeep" in
      destruct (update_set_prop2_keeps s0 k v who ltac:(done) ltac:(done))
        as (? & Hu & ? & ? & Hk);
      rewrite Hu; clear Hu
  end.

Lemma saveUserSettings_fallback (settings : Json) key s (who : Json) :
  no_readable_document "user-profile.json" key s →
  settings ≠ JNull →
  prop settings "defaultActiveCharacter" = None →
  defaultActiveCharacter_of (defaultUserData s) = Some who →
  ∃ s' doc,
    saveUserSettings settings key s = (Ok (), s') ∧
    files s' !! "user-profile.json"
    = Some (outputContent (JSON_stringify doc) key true) ∧
    defaultActiveCharacter_of doc = Some who.
Proof.
  intros Hno Hnn Hnone Hd. unfold saveUserSettings.
  unfold mbind at 1, Eff_bind at 1.
  rewrite existingData_falls_back; [|done|].
  2:{ intros e. unfold mbind, Eff_bind.
      by rewrite saveUserSettings_refusal_is_caught. }
  assert (member (Some settings) "userName" = Ok (prop settings "userName")) as Hm
    by by destruct settings.
  unfold mbind at 1, Eff_bind at 1. rewrite Hm. unfold lift at 1.
  rewrite Hnone.
  do 2 step_defaults who.
  unfold mbind at 1, Eff_bind at 1, current at 1.
  match goal with H : truthy _ = true |- context [truthy ?t] =>
    rewrite H end. cbn [negb].
  unfold mbind at 1, Eff_bind at 1, mret at 1, Eff_ret at 1.
  do 3 step_defaults who.
  unfold mbind at 1, Eff_bind at 1, mret at 1, Eff_ret at 1.
  unfold mbind at 1, Eff_bind at 1, current at 1.
  rewrite writeFileContent_run.
  eexists. eexists. split; [reflexivity|]. cbn.
  rewrite lookup_insert_eq. split; [reflexivity|]. done.
Qed.

(** C9.  [DEFAULT_USER_DATA] is one object, changed in place.  When
    [setActiveProfile] finds no readable user document, its fallback
    writes [defaultActiveCharacter] into the defaults' own [settings]
    and stores the defaults.  From then on, whatever happens to the
    files, a [saveConsent] or [saveUserSettings] that finds no readable
    user document starts from the changed object: the document it
    stores carries that [defaultActiveCharacter]. *)
Theorem setActiveProfile_changes_defaults name key s sf :
  no_readable_document "user-profile.json" key s →
  prop (defaultUserData s) "settings" = Some (JObj sf) →
  ∃ s1,
    setActiveProfile name key s = (Ok (), s1) ∧
    defaultActiveCharacter_of (defaultUserData s1) = Some (JStr name) ∧
    files s1 !! "user-profile.json"
    = Some (outputContent (JSON_stringify (defaultUserData s1)) key true) ∧
    ∀ s2 key2,
      defaultUserData s2 = defaultUserData s1 →
      no_readable_document "user-profile.json" key2 s2 →
      (∀ consentData : Json, ∃ s3 doc,
         saveConsent consentData key2 s2 = (Ok (), s3) ∧
         files s3 !! "user-profile.json"
         = Some (outputContent (JSON_stringify doc) key2 (has_key key2)) ∧
         defaultActiveCharacter_of doc = Some (JStr name)) ∧
      (∀ settings : Json,
         settings ≠ JNull →
         prop settings "defaultActiveCharacter" = None →
         ∃ s3 doc,
           saveUserSettings settings key2 s2 = (Ok (), s3) ∧
           files s3 !! "user-profile.json"
           = Some (outputContent (JSON_stringify doc) key2 true) ∧
           defaultActiveCharacter_of doc = Some (JStr name)).
Proof.
  intros Hno Hd.
  destruct (setActiveProfile_fallback name key s sf Hno Hd) as (s1 & Hrun & Hd1 & Hf).
  exists s1. split; [done|]. split; [done|]. split; [done|].
  intros s2 key2 Heq Hno2. rewrite <- Heq in Hd1. split.
  - intros consentData.
    destruct (saveConsent_fallback consentData key2 s2 _ Hno2 Hd1)
      as (s3 & doc & ? & ? & _ & ?).
    by exists s3, doc.
  - intros settings Hnn Hnone.
    by apply saveUserSettings_fallback.
Qed.

End StoreProperties.

(** ** The profile store on a runtime that keeps its contract *)

Section StoreLaws.
Import ProfileStorage.
Context {R : Runtime} {L : RuntimeLaws R}.

Implicit Types (s : Store R) (path name : string) (key : option string).

(** What [writeFileContent] wrote under the key a profile is read with
    reads back. *)
Lemma read_back name key (t : text) s path :
  files s !! path = Some (outputContent t key (shouldEncryptProfile name)) →
  readFileContent path (read_key name key) s = (Ok t, s).
Proof.
  intros Hf. unfold readFileContent, fs_readFile, read_key, outputContent in *.
  eff. rewrite Hf. eff.
  destruct (shouldEncryptProfile name), (has_key key) eqn:Hk; eff;
    rewrite ?Hk; eff; try reflexivity.
  by rewrite isEncrypted_encrypt, decrypt_encrypt.
Qed.


(** *** Rotating the password *)

Lemma has_key_Some (k : string) : k ≠ "" → has_key (Some k) = true.
Proof. intros. cbn. by rewrite bool_decide_eq_false_2. Qed.

Lemma read_sealed path (k : string) d s :
  k ≠ "" →
  files s !! path = Some (encrypt (JSON_stringify d) k) →
  readFileContent path (Some k) s = (Ok (JSON_stringify d), s).
Proof.
  intros Hk Hf. unfold readFileContent, fs_readFile. eff. rewrite Hf. eff.
  rewrite bool_decide_eq_false_2 by done. eff.
  by rewrite isEncrypted_encrypt, decrypt_encrypt.
Qed.

Lemma read_sealed_wrong_key path (k k' : string) d s :
  k' ≠ "" → k ≠ k' →
  files s !! path = Some (encrypt (JSON_stringify d) k) →
  readFileContent path (Some k') s
  = (Throw (Error "Failed to decrypt file - incorrect password or corrupted data"), s).
Proof.
  intros Hk Hne Hf. unfold readFileContent, fs_readFile. eff. rewrite Hf. eff.
  rewrite bool_decide_eq_false_2 by done. eff.
  by rewrite isEncrypted_encrypt, decrypt_wrong_key.
Qed.

Section Rotation.
Variables old new : string.
Hypothesis old_given : old ≠ "".
Hypothesis new_given : new ≠ "".
Hypothesis changed : old ≠ new.

Lemma read_old_or_new_still_old path message d s :
  files s !! path = Some (encrypt (JSON_stringify d) old) →
  read_old_or_new path old new message s = (Ok (JSON_stringify d, false), s).
Proof.
  intros Hf. unfold read_old_or_new. eff. by rewrite (read_sealed _ _ d).
Qed.

Lemma read_old_or_new_already_new path message d s :
  files s !! path = Some (encrypt (JSON_stringify d) new) →
  read_old_or_new path old new message s = (Ok (JSON_stringify d, true), s).
Proof.
  intros Hf. unfold read_old_or_new. eff.
  rewrite (read_sealed_wrong_key _ new old d) by done. eff.
  by rewrite (read_sealed _ _ d).
Qed.

Lemma reEncryptProfile_public name s :
  shouldEncryptProfile name = false →
  reEncryptProfile old new name s = (Ok (), s).
Proof. intros Hp. unfold reEncryptProfile. by rewrite Hp. Qed.

Lemma reEncryptProfile_still_old name d s :
  shouldEncryptProfile name = true →
  d ≠ JNull →
  files s !! (name +:+ ".json") = Some (encrypt (JSON_stringify d) old) →
  ∃ d', reEncryptProfile old new name s
        = (Ok (), put_file (name +:+ ".json")
                    (encrypt (JSON_stringify d') new) s).
Proof.
  intros Hp Hnn Hf. unfold reEncryptProfile. rewrite Hp. eff.
  rewrite (read_old_or_new_still_old _ _ d) by done. eff.
  unfold parse. rewrite parse_stringify. eff.
  rewrite saveProfile_run by done. unfold outputContent.
  rewrite has_key_Some, Hp by done. eff. by eexists.
Qed.

Lemma reEncryptProfile_already_new name s :
  shouldEncryptProfile name = true →
  sealed_under (name +:+ ".json") new s →
  reEncryptProfile old new name s = (Ok (), s).
Proof.
  intros Hp [d Hf]. unfold reEncryptProfile. rewrite Hp. eff.
  by rewrite (read_old_or_new_already_new _ _ d).
Qed.

Lemma reEncryptUserProfile_still_old d s :
  files s !! "user-profile.json" = Some (encrypt (JSON_stringify d) old) →
  reEncryptUserProfile old new s
  = (Ok (), put_file "user-profile.json" (encrypt (JSON_stringify d) new) s).
Proof.
  intros Hf. unfold reEncryptUserProfile. eff.
  rewrite (read_old_or_new_still_old _ _ d) by done. eff.
  unfold parse. rewrite parse_stringify. eff.
  by rewrite bool_decide_eq_false_2.
Qed.

Lemma reEncryptUserProfile_already_new s :
  sealed_under "user-profile.json" new s →
  reEncryptUserProfile old new s = (Ok (), s).
Proof.
  intros [d Hf]. unfold reEncryptUserProfile. eff.
  by rewrite (read_old_or_new_already_new _ _ d).
Qed.

(** Writing a document sealed under [new] over an existing file. *)
Lemma sealed_under_put path path' d s :
  sealed_under path new s ∨ path = path' →
  sealed_under path new
    (put_file path' (encrypt (JSON_stringify d) new) s).
Proof.
  unfold sealed_under. cbn. destruct (decide (path' = path)) as [->|Hne].
  - intros _. exists d. by rewrite lookup_insert_eq.
  - intros [[d0 Hd0]|Heq]; [|congruence]. exists d0. by rewrite lookup_insert_ne.
Qed.

Lemma rotating_put path path' d s :
  rotating old new path s →
  rotating old new path (put_file path' (encrypt (JSON_stringify d) new) s).
Proof.
  destruct (decide (path' = path)) as [->|Hne].
  - intros _. right. apply sealed_under_put. by right.
  - intros [[d0 Hd0]|Hn]; [left|right; apply sealed_under_put; by left].
    exists d0. cbn. by rewrite lookup_insert_ne.
Qed.

Lemma rotating_profile_put path path' d s :
  rotating_profile old new path s →
  rotating_profile old new path
    (put_file path' (encrypt (JSON_stringify d) new) s).
Proof.
  destruct (decide (path' = path)) as [->|Hne].
  - intros _. right. apply sealed_under_put. by right.
  - intros [(d0 & Hnn & Hd0)|Hn]; [left|right; apply sealed_under_put; by left].
    exists d0. split; [done|]. cbn. by rewrite lookup_insert_ne.
Qed.

Lemma is_Some_put path path' (c : text) s :
  is_Some (files s !! path') →
  is_Some (files (put_file path' c s) !! path) ↔ is_Some (files s !! path).
Proof.
  intros Hex. cbn. destruct (decide (path' = path)) as [->|Hne].
  - rewrite lookup_insert_eq. split; [done|by eexists].
  - by rewrite lookup_insert_ne.
Qed.

(** The loop over the profiles, from a corpus in the middle of the
    rotation: it goes through and leaves every private profile of the
    list under [new]; no file appears or disappears. *)
Lemma for_of_reEncryptProfile_rotates (names : list string) s :
  (∀ name, name ∈ names → shouldEncryptProfile name = true →
     rotating_profile old new (name +:+ ".json") s) →
  ∃ s',
    for_of names (reEncryptProfile old new) s = (Ok (), s') ∧
    (∀ name, name ∈ names → shouldEncryptProfile name = true →
       sealed_under (name +:+ ".json") new s') ∧
    (∀ p, sealed_under p new s → sealed_under p new s') ∧
    (∀ p, rotating old new p s → rotating old new p s') ∧
    (∀ p, is_Some (files s' !! p) ↔ is_Some (files s !! p)).
Proof.
  revert s. induction names as [|n names IH]; intros s Hall.
  - exists s. split; [reflexivity|]. split; [|done].
    intros name Hin. by apply elem_of_nil in Hin.
  - cbn [for_of]. unfold mbind, Eff_bind at 1.
    destruct (shouldEncryptProfile n) eqn:Hp.
    + destruct (Hall n ltac:(apply elem_of_cons; by left) Hp)
        as [(d & Hnn & Hf)|Hnew].
      * destruct (reEncryptProfile_still_old n d s Hp Hnn Hf) as [d' Hstep].
        rewrite Hstep.
        destruct (IH (put_file (n +:+ ".json") (encrypt (JSON_stringify d') new) s))
          as (s' & Hrun & Hdone & Hkeep & Hrot & Hdom).
        { intros name Hin Hpn. apply rotating_profile_put.
          apply Hall; [apply elem_of_cons; by right|done]. }
        exists s'. split; [exact Hrun|]. split; [|split; [|split]].
        -- intros name Hin Hpn. apply elem_of_cons in Hin as [->|Hin].
           ++ apply Hkeep, sealed_under_put. by right.
           ++ by apply Hdone.
        -- intros p Hs. apply Hkeep, sealed_under_put. by left.
        -- intros p Hr. by apply Hrot, rotating_put.
        -- intros p. rewrite Hdom. apply is_Some_put. by eexists.
      * rewrite (reEncryptProfile_already_new n s Hp Hnew).
        destruct (IH s) as (s' & Hrun & Hdone & Hkeep & Hrot & Hdom).
        { intros name Hin Hpn. apply Hall; [apply elem_of_cons; by right|done]. }
        exists s'. split; [exact Hrun|]. split; [|done].
        intros name Hin Hpn. apply elem_of_cons in Hin as [->|Hin].
        -- by apply Hkeep.
        -- by apply Hdone.
    + rewrite (reEncryptProfile_public n s Hp).
      destruct (IH s) as (s' & Hrun & Hdone & Hkeep & Hrot & Hdom).
      { intros name Hin Hpn. apply Hall; [apply elem_of_cons; by right|done]. }
      exists s'. split; [exact Hrun|]. split; [|done].
      intros name Hin Hpn. apply elem_of_cons in Hin as [->|Hin].
      -- congruence.
      -- by apply Hdone.
Qed.

(** The loop on a corpus that is already under [new]: nothing is
    written. *)
Lemma for_of_reEncryptProfile_skips (names : list string) s :
  (∀ name, name ∈ names → shouldEncryptProfile name = true →
     sealed_under (name +:+ ".json") new s) →
  for_of names (reEncryptProfile old new) s = (Ok (), s).
Proof.
  induction names as [|n names IH]; intros Hall; [reflexivity|].
  cbn [for_of]. unfold mbind, Eff_bind at 1.
  assert (reEncryptProfile old new n s = (Ok (), s)) as ->.
  { destruct (shouldEncryptProfile n) eqn:Hp.
    - apply reEncryptProfile_already_new; [done|].
      apply Hall; [apply elem_of_cons; by left|done].
    - by apply reEncryptProfile_public. }
  apply IH. intros name Hin Hpn. apply Hall; [apply elem_of_cons; by right|done].
Qed.

(** A file under [new], as the second run finds it. *)
Lemma second_attempt path s :
  sealed_under path new s →
  ∃ t,
    readFileContent path (Some old) s
    = (Throw (Error "Failed to decrypt file - incorrect password or corrupted data"), s) ∧
    readFileContent path (Some new) s = (Ok t, s) ∧
    ∀ message, read_old_or_new path old new message s = (Ok (t, true), s).
Proof.
  intros [d Hf]. exists (JSON_stringify d). split; [|split].
  - by apply (read_sealed_wrong_key _ new old d).
  - by apply read_sealed.
  - intros message. by apply read_old_or_new_already_new.
Qed.

End Rotation.

(** C2, as amended.  For two distinct passwords (non-empty strings)
    and a corpus in which the file of every private profile that
    [listProfiles] reports, and the user document, hold a document
    sealed under the old one: the first run succeeds and leaves each of
    them sealed under the new password; the second run succeeds too and
    writes nothing (the state after it, log of writes included, is the
    state before it): each of these files fails to open under the old
    password, opens under the new one at the second attempt, and is
    skipped. *)
Theorem reEncryptAllData_twice old new s :
  old ≠ "" → new ≠ "" → old ≠ new →
  (∀ name, name ∈ profile_names s → shouldEncryptProfile name = true →
     ∃ d, d ≠ JNull ∧
          files s !! (name +:+ ".json") = Some (encrypt (JSON_stringify d) old)) →
  sealed_under "user-profile.json" old s →
  ∃ s1,
    reEncryptAllData old new s = (Ok (), s1) ∧
    (∀ name, name ∈ profile_names s → shouldEncryptProfile name = true →
       sealed_under (name +:+ ".json") new s1) ∧
    sealed_under "user-profile.json" new s1 ∧
    reEncryptAllData old new s1 = (Ok (), s1) ∧
    (∀ path, sealed_under path new s1 →
       ∃ t,
         readFileContent path (Some old) s1
         = (Throw (Error "Failed to decrypt file - incorrect password or corrupted data"), s1) ∧
         readFileContent path (Some new) s1 = (Ok t, s1) ∧
         ∀ message, read_old_or_new path old new message s1 = (Ok (t, true), s1)).
Proof.
  intros Hold Hnew Hne Hprofiles Huser.
  destruct (for_of_reEncryptProfile_rotates old new Hold Hnew Hne (profile_names s) s)
    as (s' & Hloop & Hdone & Hkeep & Hrot & Hdom).
  { intros name Hin Hp. left. by apply Hprofiles. }
  assert (∃ s1,
    reEncryptUserProfile old new s' = (Ok (), s1) ∧
    (∀ p, sealed_under p new s' → sealed_under p new s1) ∧
    sealed_under "user-profile.json" new s1 ∧
    (∀ p, is_Some (files s1 !! p) ↔ is_Some (files s' !! p)))
    as (s1 & Huserrun & Hkeep1 & Huser1 & Hdom1).
  { destruct (Hrot "user-profile.json" (or_introl Huser)) as [[u Hu]|Hn].
    - eexists. split; [by apply reEncryptUserProfile_still_old|].
      split; [|split].
      + intros p Hs. apply sealed_under_put. by left.
      + apply sealed_under_put. by right.
      + intros p. apply is_Some_put. by eexists.
    - exists s'. split; [by apply reEncryptUserProfile_already_new|]. done. }
  exists s1. split; [by rewrite reEncryptAllData_unfold, Hloop|].
  split; [intros name Hin Hp; by apply Hkeep1, Hdone|].
  split; [done|]. split.
  - rewrite reEncryptAllData_unfold.
    rewrite for_of_reEncryptProfile_skips; [|done..|].
    + by apply reEncryptUserProfile_already_new.
    + intros name Hin Hp. apply Hkeep1, Hdone; [|done].
      apply elem_of_profile_names in Hin as (f & Hf & Hname).
      apply elem_of_profile_names. exists f. split; [|done].
      by apply Hdom, Hdom1.
  - intros path Hs. by apply second_attempt.
Qed.

End StoreLaws.

(** C4: two corpora whose damaged profile differs stop with one and the
    same error. *)
Lemma reEncryptAllData_error_names_no_document :
  ∃ sA sB,
    ProfileStorage.unreadable "Alice.json" "old-password" Examples.alice_damaged ∧
    ProfileStorage.unreadable "Alice.json" "new-password" Examples.alice_damaged ∧
    ProfileStorage.unreadable "Bob.json" "old-password" Examples.bob_damaged ∧
    ProfileStorage.unreadable "Bob.json" "new-password" Examples.bob_damaged ∧
    ProfileStorage.reEncryptAllData "old-password" "new-password" Examples.alice_damaged
      = (Throw (Error "Failed to re-encrypt profile"), sA) ∧
    ProfileStorage.reEncryptAllData "old-password" "new-password" Examples.bob_damaged
      = (Throw (Error "Failed to re-encrypt profile"), sB).
Proof.
  eexists. eexists.
  repeat split; try (eexists; vm_compute; reflexivity); vm_compute; reflexivity.
Qed.

Lemma reEncryptAllData_undecryptable_witness :
  ∃ s', ProfileStorage.reEncryptAllData "old-password" "new-password"
          Examples.alice_damaged
        = (Throw (Error "Failed to re-encrypt profile"), s').
Proof.
  apply (proj1 (reEncryptAllData_undecryptable "old-password" "new-password"
                  Examples.alice_damaged) "Alice").
  - apply list_elem_of_In. vm_compute. auto.
  - reflexivity.
  - eexists. vm_compute. reflexivity.
  - eexists. vm_compute. reflexivity.
Defined.

(** C10 on a corpus with the legacy-only profile [Luna.txt]. *)
Lemma reEncryptAllData_legacy_only_witness :
  ProfileStorage.profile_name_of "Luna.txt" = Some "Luna" ∧
  ∃ s', ProfileStorage.reEncryptAllData "old-password" "new-password"
          Examples.legacy_only
        = (Throw (Error "Failed to re-encrypt profile"), s').
Proof.
  split; [reflexivity|].
  apply (reEncryptAllData_legacy_only "old-password" "new-password" "Luna").
  - apply legacy_file_is_reported; [by eexists|reflexivity].
  - reflexivity.
  - vm_compute. reflexivity.
Defined.

(** C9 on a store without a user document: the pristine defaults name
    no character, those [setActiveProfile] leaves behind do, and so
    does the consent document saved next on an empty directory. *)
Lemma setActiveProfile_changes_defaults_witness :
  ProfileStorage.defaultActiveCharacter_of ProfileStorage.DEFAULT_USER_DATA = None ∧
  ∃ s1,
    ProfileStorage.setActiveProfile (R := Ideal.runtime) "Nova" None
      (Examples.store []) = (Ok (), s1) ∧
    ProfileStorage.defaultActiveCharacter_of (ProfileStorage.defaultUserData s1)
      = Some (JStr "Nova") ∧
    ∃ s3 doc,
      ProfileStorage.saveConsent (JObj [("accepted", JBool true)]) None
        (ProfileStorage.mkStore (R := Ideal.runtime) ∅ (ProfileStorage.defaultUserData s1) [])
        = (Ok (), s3) ∧
      ProfileStorage.files s3 !! "user-profile.json" = Some (Ideal.Doc doc) ∧
      ProfileStorage.defaultActiveCharacter_of doc = Some (JStr "Nova").
Proof.
  split; [reflexivity|].
  destruct (setActiveProfile_changes_defaults (R := Ideal.runtime)
              "Nova" None (Examples.store []) [])
    as (s1 & Hrun & Hd & _ & Hlater).
  - intros content H. vm_compute in H. discriminate.
  - reflexivity.
  - exists s1. split; [exact Hrun|]. split; [exact Hd|].
    destruct (Hlater (ProfileStorage.mkStore (R := Ideal.runtime) ∅ (ProfileStorage.defaultUserData s1) [])
                None eq_refl) as [Hconsent _].
    + intros content H. vm_compute in H. discriminate.
    + destruct (Hconsent (JObj [("accepted", JBool true)]))
        as (s3 & doc & H1 & H2 & H3).
      exists s3, doc. split; [exact H1|]. split; [exact H2|exact H3].
Defined.

(** C3: the user document of the corpus, asked to be saved with a
    password that does not open it.  The file is there, the read
    throws, and [saveUserSettings] returns normally, having replaced the
    file by the defaults (the stored consent is gone) under the other
    password. *)
Lemma saveUserSettings_overwrites_unreadable :
  ∃ s' doc,
    ProfileStorage.files Examples.corpus !! "user-profile.json"
      = Some (Ideal.Sealed "old-password" (Ideal.Doc Examples.user_doc)) ∧
    ProfileStorage.readFileContent "user-profile.json" (Some "wrong-password")
      Examples.corpus
      = (Throw (Error "Failed to decrypt file - incorrect password or corrupted data"),
         Examples.corpus) ∧
    ProfileStorage.saveUserSettings (JObj [("userName", JStr "Kim")])
      (Some "wrong-password") Examples.corpus = (Ok (), s') ∧
    ProfileStorage.files s' !! "user-profile.json"
      = Some (Ideal.Sealed "wrong-password" (Ideal.Doc doc)) ∧
    prop Examples.user_doc "consent" = Some (JObj [("accepted", JBool true)]) ∧
    prop doc "consent" = None ∧
    opt_member (prop doc "user") "name" = Some (JStr "Kim") ∧
    opt_member (prop doc "settings") "enableMemory" = Some (JBool false).
Proof.
  set (s' := (ProfileStorage.saveUserSettings (JObj [("userName", JStr "Kim")])
                (Some "wrong-password") Examples.corpus).2).
  exists s'.
  exists (match ProfileStorage.files s' !! "user-profile.json" with
          | Some (Ideal.Sealed _ (Ideal.Doc d)) => d
          | _ => JNull
          end).
  repeat split; vm_compute; reflexivity.
 Qed.

(** The ideal runtime keeps the contract. *)
Lemma ideal_laws : RuntimeLaws Ideal.runtime.
Proof.
  split; cbn.
  - reflexivity.
  - intros t k. by rewrite bool_decide_eq_true_2.
  - intros t k k' Hk. by rewrite bool_decide_eq_false_2.
  - reflexivity.
Qed.



(** C2 on the corpus, from ["old-password"] to ["new-password"]. *)
Lemma reEncryptAllData_twice_witness :
  ∃ s1,
    ProfileStorage.reEncryptAllData "old-password" "new-password" Examples.corpus
      = (Ok (), s1) ∧
    ProfileStorage.sealed_under "Nova.json" "new-password" s1 ∧
    ProfileStorage.sealed_under "user-profile.json" "new-password" s1 ∧
    ProfileStorage.reEncryptAllData "old-password" "new-password" s1 = (Ok (), s1).
Proof.
  destruct (reEncryptAllData_twice (L := ideal_laws)
              "old-password" "new-password" Examples.corpus)
    as (s1 & Hfirst & Hprofiles & Huser & Hsecond & _).
  - discriminate.
  - discriminate.
  - discriminate.
  - intros name Hin Hp. apply list_elem_of_In in Hin. vm_compute in Hin.
    destruct Hin as [<-|[<-|[]]].
    + vm_compute in Hp. discriminate.
    + exists Examples.nova_doc. split; [discriminate|reflexivity].
  - exists Examples.user_doc. reflexivity.
  - exists s1. split; [exact Hfirst|]. split; [|split; [exact Huser|exact Hsecond]].
    apply (Hprofiles "Nova"); [|reflexivity].
    apply list_elem_of_In. vm_compute. auto.
Defined.

(** C2: a rotation from a password to itself.  Every document of the
    corpus opens under the old password; after the first run it still
    does, at the first attempt, so that the second run does not skip
    it: it writes both files again. *)
Lemma reEncryptAllData_same_password_rewrites :
  ∃ s1 s2,
    ProfileStorage.readFileContent "Nova.json" (Some "old-password") Examples.corpus
      = (Ok (Ideal.Doc Examples.nova_doc), Examples.corpus) ∧
    ProfileStorage.readFileContent "user-profile.json" (Some "old-password")
      Examples.corpus = (Ok (Ideal.Doc Examples.user_doc), Examples.corpus) ∧
    ProfileStorage.reEncryptAllData "old-password" "old-password" Examples.corpus
      = (Ok (), s1) ∧
    ProfileStorage.readFileContent "Nova.json" (Some "old-password") s1
      = (Ok (Ideal.Doc Examples.nova_doc), s1) ∧
    ProfileStorage.read_old_or_new "Nova.json" "old-password" "old-password"
      "Cannot decrypt profile - may be corrupted" s1
      = (Ok (Ideal.Doc Examples.nova_doc, false), s1) ∧
    ProfileStorage.reEncryptAllData "old-password" "old-password" s1
      = (Ok (), s2) ∧
    ProfileStorage.written s2
      = "user-profile.json" :: "Nova.json" :: ProfileStorage.written s1.
Proof.
  set (s1 := (ProfileStorage.reEncryptAllData "old-password" "old-password"
                Examples.corpus).2).
  exists s1.
  exists (ProfileStorage.reEncryptAllData "old-password" "old-password" s1).2.
  repeat split; vm_compute; reflexivity.
 Qed.

(** * Further properties *)

(** ** The session manager: creation, reuse, expiry *)

Section ManagerLifecycle.
Import SessionManager.
Context {agent : Agent}.

(** X1.  Without a session id [getChatbot] throws
    [Session ID is required] and leaves the manager as it was: not even
    an activity time is written. *)
Theorem getChatbot_requires_id now characterName encryptionKey m :
  getChatbot now "" characterName encryptionKey m
  = (Throw (Error "Session ID is required"), m).
Proof. reflexivity. Qed.

(** A session is created. *)
Lemma getChatbot_creates_run now sessionId characterName encryptionKey m c1 c2 :
  sessionId ≠ "" →
  sessions m !! sessionId = None →
  loadCharacterAsync (requested characterName)
    (keyed encryptionKey new_HybridChatbot) = (Ok (), c1) →
  initialize c1 = (Ok (), c2) →
  ∃ chatbot m',
    getChatbot now sessionId characterName encryptionKey m = (Ok chatbot, m') ∧
    heap m !! chatbot = None ∧
    heap m' !! chatbot = Some c2 ∧
    (∀ other, other ≠ chatbot → heap m' !! other = heap m !! other) ∧
    sessions m' = <[sessionId := chatbot]> (sessions m) ∧
    lastActivity m' = <[sessionId := now]> (lastActivity m) ∧
    sessionCharacters m' =
      <[sessionId := if truthy_str characterName then default "" characterName
                     else activeCharacterName c1]> (sessionCharacters m).
Proof.
  intros Hid Hs Hload Hinit. unfold getChatbot.
  rewrite (proj2 (truthy_str_Some sessionId) Hid).
  unfold requested, keyed in Hload.
  exists (fresh (dom (heap m))).
  assert (Hfresh : heap m !! fresh (dom (heap m)) = None).
  { apply not_elem_of_dom, is_fresh. }
  unfold modify, get, construct, call, getActiveCharacterName. eff.
  rewrite Hs. eff.
  destruct (truthy_str encryptionKey); eff;
    rewrite ?lookup_insert_eq; eff;
    destruct (truthy_str characterName); eff;
    rewrite ?lookup_insert_eq, ?Hload; eff;
    rewrite ?lookup_insert_eq, ?Hinit; eff;
    rewrite ?lookup_insert_eq, ?Hinit; eff;
    (eexists; split; [reflexivity|]; cbn;
     rewrite ?lookup_insert_eq; repeat split; try done;
     intros other Hother; by rewrite !lookup_insert_ne).
Qed.

(** X2.  Creating a session.  When the id is not registered and the
    load and the initialisation succeed, [getChatbot] returns a chatbot
    object that did not exist before, registers it under the id, writes
    the time of the call, and records as the session's character the
    name that was asked for (whatever the loader reports as active), or
    the loader's active character when none was asked for.  No other
    chatbot object is touched. *)
Theorem getChatbot_creates now sessionId characterName encryptionKey m c1 c2 :
  sessionId ≠ "" →
  sessions m !! sessionId = None →
  loadCharacterAsync (requested characterName)
    (keyed encryptionKey new_HybridChatbot) = (Ok (), c1) →
  initialize c1 = (Ok (), c2) →
  ∃ chatbot m',
    getChatbot now sessionId characterName encryptionKey m = (Ok chatbot, m') ∧
    heap m !! chatbot = None ∧
    heap m' !! chatbot = Some c2 ∧
    (∀ other, other ≠ chatbot → heap m' !! other = heap m !! other) ∧
    sessions m' = <[sessionId := chatbot]> (sessions m) ∧
    lastActivity m' = <[sessionId := now]> (lastActivity m) ∧
    sessionCharacters m' =
      <[sessionId := if truthy_str characterName then default "" characterName
                     else activeCharacterName c1]> (sessionCharacters m).
Proof. apply getChatbot_creates_run. Qed.

(** X3.  When the initialisation fails while a session is being
    created, the error reaches the caller and the session is not
    registered, but the session-to-character map already holds the
    character for the id, next to the activity time. *)
Theorem getChatbot_initialize_failure
    now sessionId characterName encryptionKey m c1 e c2 :
  sessionId ≠ "" →
  sessions m !! sessionId = None →
  loadCharacterAsync (requested characterName)
    (keyed encryptionKey new_HybridChatbot) = (Ok (), c1) →
  initialize c1 = (Throw e, c2) →
  ∃ m',
    getChatbot now sessionId characterName encryptionKey m = (Throw e, m') ∧
    sessions m' = sessions m ∧
    lastActivity m' !! sessionId = Some now ∧
    sessionCharacters m' !! sessionId =
      Some (if truthy_str characterName then default "" characterName
            else activeCharacterName c1).
Proof.
  intros Hid Hs Hload Hinit. unfold getChatbot.
  rewrite (proj2 (truthy_str_Some sessionId) Hid).
  unfold requested, keyed in Hload.
  unfold modify, get, construct, call, getActiveCharacterName. eff.
  rewrite Hs. eff.
  destruct (truthy_str encryptionKey); eff;
    rewrite ?lookup_insert_eq; eff;
    destruct (truthy_str characterName); eff;
    rewrite ?lookup_insert_eq, ?Hload; eff;
    rewrite ?lookup_insert_eq, ?Hinit; eff;
    rewrite ?lookup_insert_eq, ?Hinit; eff;
    (eexists; split; [reflexivity|]; cbn; by rewrite ?lookup_insert_eq).
Qed.

(** X4.  A call for an existing session that names the character the
    session already has loads nothing: it returns the same chatbot with
    its history, cached character and active character as they were,
    whatever the loader would have done. *)
Theorem getChatbot_same_character
    now sessionId characterName encryptionKey m chatbot c :
  sessionId ≠ "" →
  sessions m !! sessionId = Some chatbot →
  heap m !! chatbot = Some c →
  sessionCharacters m !! sessionId = Some characterName →
  ∃ m',
    getChatbot now sessionId (Some characterName) encryptionKey m
      = (Ok chatbot, m') ∧
    heap m' !! chatbot = Some (keyed encryptionKey c) ∧
    history (keyed encryptionKey c) = history c ∧
    cachedCharacter (keyed encryptionKey c) = cachedCharacter c ∧
    activeCharacterName (keyed encryptionKey c) = activeCharacterName c ∧
    sessions m' = sessions m ∧
    sessionCharacters m' = sessionCharacters m ∧
    lastActivity m' = <[sessionId := now]> (lastActivity m).
Proof.
  intros Hid Hs Hc Hcur. unfold getChatbot.
  rewrite (proj2 (truthy_str_Some sessionId) Hid).
  unfold modify, get, call, keyed. eff. rewrite Hs. eff. rewrite Hcur.
  rewrite (bool_decide_eq_true_2 (Some characterName = Some characterName))
    by done.
  rewrite andb_false_r.
  destruct (truthy_str encryptionKey); eff; rewrite ?Hc; eff;
    (eexists; split; [reflexivity|]; cbn; by rewrite ?lookup_insert_eq).
Qed.

Lemma bool_decide_elem_of_cons_ne (id x : string) ids :
  id ≠ x → bool_decide (id ∈ x :: ids) = bool_decide (id ∈ ids).
Proof. intros Hne. apply bool_decide_ext. rewrite elem_of_cons. tauto. Qed.

(** A run of [deleteSession] over a list of ids. *)
Lemma for_of_deleteSession ids m :
  ∃ m',
    for_of ids deleteSession m = (Ok (), m') ∧
    (∀ id, sessions m' !! id =
             if bool_decide (id ∈ ids) then None else sessions m !! id) ∧
    (∀ id, lastActivity m' !! id =
             if bool_decide (id ∈ ids) && bool_decide (is_Some (sessions m !! id))
             then None else lastActivity m !! id) ∧
    sessionCharacters m' = sessionCharacters m ∧
    latestRequestIds m' = latestRequestIds m ∧
    charactersWithStarters m' = charactersWithStarters m ∧
    heap m' = heap m.
Proof.
  revert m. induction ids as [|x ids IH]; intros m.
  - exists m. split; [reflexivity|]. repeat split; try done.
  - destruct (sessions m !! x) as [chatbot|] eqn:Hsx.
    + destruct (IH (with_lastActivity (delete x) (with_sessions (delete x) m)))
        as (m' & Hrun' & Hs' & Ha' & Hch' & Hreq' & Hst' & Hheap').
      exists m'. split.
      { cbn. unfold mbind, Eff_bind.
        rewrite deleteSession_registered by (by rewrite Hsx). exact Hrun'. }
      cbn in *. repeat split; try done.
      * intros id. rewrite Hs'.
        destruct (decide (id = x)) as [->|Hne].
        -- rewrite lookup_delete_eq.
           rewrite (bool_decide_eq_true_2 (x ∈ x :: ids)) by (apply elem_of_cons; by left).
           by case_bool_decide.
        -- rewrite lookup_delete_ne by done.
           by rewrite bool_decide_elem_of_cons_ne.
      * intros id. rewrite Ha'.
        destruct (decide (id = x)) as [->|Hne].
        -- rewrite !lookup_delete_eq, Hsx.
           rewrite (bool_decide_eq_true_2 (x ∈ x :: ids)) by (apply elem_of_cons; by left).
           rewrite (bool_decide_eq_true_2 (is_Some (Some chatbot))) by by eexists.
           rewrite (bool_decide_eq_false_2 (is_Some None)) by (by intros [? ?]).
           by rewrite andb_false_r.
        -- rewrite !lookup_delete_ne by done.
           by rewrite bool_decide_elem_of_cons_ne.
    + destruct (IH m) as (m' & Hrun' & Hs' & Ha' & Hch' & Hreq' & Hst' & Hheap').
      exists m'. split.
      { cbn. unfold mbind, Eff_bind.
        rewrite deleteSession_unregistered by done. exact Hrun'. }
      repeat split; try done.
      * intros id. rewrite Hs'.
        destruct (decide (id = x)) as [->|Hne].
        -- rewrite (bool_decide_eq_true_2 (x ∈ x :: ids)) by (apply elem_of_cons; by left).
           rewrite Hsx. by case_bool_decide.
        -- by rewrite bool_decide_elem_of_cons_ne.
      * intros id. rewrite Ha'.
        destruct (decide (id = x)) as [->|Hne].
        -- rewrite Hsx.
           rewrite (bool_decide_eq_false_2 (is_Some None)) by (by intros [? ?]).
           by rewrite !andb_false_r.
        -- by rewrite bool_decide_elem_of_cons_ne.
Qed.

(** X5.  The sweep.  [cleanupInactiveSessions] never fails.  It drops
    the registration and the activity time of exactly the registered
    sessions whose activity time is more than 30 minutes back (a
    session exactly 30 minutes idle stays); an activity time without a
    registered session is never collected, however old.  The
    session-to-character map and the chatbot objects are left alone. *)
Theorem cleanupInactiveSessions_spec now m :
  ∃ m',
    cleanupInactiveSessions now m = (Ok (), m') ∧
    (∀ id, sessions m' !! id =
             if expired now m id then None else sessions m !! id) ∧
    (∀ id, lastActivity m' !! id =
             if expired now m id && bool_decide (is_Some (sessions m !! id))
             then None else lastActivity m !! id) ∧
    sessionCharacters m' = sessionCharacters m ∧
    heap m' = heap m.
Proof.
  unfold cleanupInactiveSessions, get. eff.
  set (ids := (filter _ (map_to_list (lastActivity m))).*1).
  destruct (for_of_deleteSession ids m)
    as (m' & Hrun & Hs & Ha & Hch & _ & _ & Hheap).
  assert (Hin : ∀ id, bool_decide (id ∈ ids) = expired now m id).
  { intros id. unfold expired, ids.
    destruct (lastActivity m !! id) as [t|] eqn:Ht.
    - apply bool_decide_ext. rewrite list_elem_of_fmap. split.
      + intros [[id' t'] [-> Hin]]. apply list_elem_of_filter in Hin.
        destruct Hin as [Hold Hin]. apply elem_of_map_to_list in Hin.
        cbn in *. congruence.
      + intros Hold. exists (id, t). split; [done|].
        apply list_elem_of_filter. split; [done|].
        by apply elem_of_map_to_list.
    - apply bool_decide_eq_false_2. rewrite list_elem_of_fmap.
      intros [[id' t'] [-> Hin]]. apply list_elem_of_filter in Hin.
      destruct Hin as [_ Hin]. apply elem_of_map_to_list in Hin.
      cbn in *. congruence. }
  exists m'. split; [exact Hrun|].
  repeat split; try done.
  - intros id. by rewrite Hs, Hin.
  - intros id. by rewrite Ha, Hin.
Qed.

(** What the methods do to a chatbot is invisible to [tracked]. *)
Lemma tracked_with_heap f m : tracked m → tracked (with_heap f m).
Proof. intros Ht id Hid. exact (Ht id Hid). Qed.

Lemma tracked_touch now sessionId m :
  tracked m → tracked (with_lastActivity <[sessionId := now]> m).
Proof.
  intros Ht id Hid. destruct (Ht id Hid) as [Hc Ha]. split; [exact Hc|].
  cbn. destruct (decide (sessionId = id)) as [->|Hne].
  - rewrite lookup_insert_eq. by eexists.
  - by rewrite lookup_insert_ne.
Qed.

Lemma tracked_record sessionId name m :
  tracked m → tracked (with_sessionCharacters <[sessionId := name]> m).
Proof.
  intros Ht id Hid. destruct (Ht id Hid) as [Hc Ha]. split; [|exact Ha].
  cbn. destruct (decide (sessionId = id)) as [->|Hne].
  - rewrite lookup_insert_eq. by eexists.
  - by rewrite lookup_insert_ne.
Qed.

Lemma tracked_register sessionId chatbot m :
  tracked m →
  is_Some (sessionCharacters m !! sessionId) →
  is_Some (lastActivity m !! sessionId) →
  tracked (with_sessions <[sessionId := chatbot]> m).
Proof.
  intros Ht Hc Ha id Hid. cbn in *.
  destruct (decide (sessionId = id)) as [->|Hne]; [done|].
  rewrite lookup_insert_ne in Hid by done. exact (Ht id Hid).
Qed.

Lemma tracked_deleteSession sessionId m :
  tracked m → tracked (deleteSession sessionId m).2.
Proof.
  intros Ht. destruct (sessions m !! sessionId) as [chatbot|] eqn:Hs.
  - rewrite deleteSession_registered by (by rewrite Hs).
    intros id Hid. cbn in *.
    destruct (decide (sessionId = id)) as [->|Hne].
    + rewrite lookup_delete_eq in Hid. by destruct Hid.
    + rewrite lookup_delete_ne in Hid by done.
      rewrite lookup_delete_ne by done. exact (Ht id Hid).
  - by rewrite deleteSession_unregistered.
Qed.

Lemma tracked_for_of_deleteSession ids m :
  tracked m → tracked (for_of ids deleteSession m).2.
Proof.
  revert m. induction ids as [|x ids IH]; intros m Ht; [exact Ht|].
  cbn. unfold mbind, Eff_bind.
  pose proof (tracked_deleteSession x m Ht) as Ht1.
  destruct (sessions m !! x) as [chatbot|] eqn:Hs.
  - rewrite deleteSession_registered in * by (by rewrite Hs). by apply IH.
  - rewrite deleteSession_unregistered in * by done. by apply IH.
Qed.

Lemma tracked_getChatbot now sessionId characterName encryptionKey m :
  tracked m →
  tracked (getChatbot now sessionId characterName encryptionKey m).2.
Proof.
  intros Ht. unfold getChatbot.
  destruct (truthy_str (Some sessionId)); [|exact Ht].
  unfold modify, get, construct, call, getActiveCharacterName. eff.
  assert (Hnow : is_Some (<[sessionId := now]> (lastActivity m) !! sessionId)).
  { rewrite lookup_insert_eq. by eexists. }
  assert (Hrec : ∀ name (sc : gmap string string),
             is_Some (<[sessionId := name]> sc !! sessionId)).
  { intros. rewrite lookup_insert_eq. by eexists. }
  pose proof (tracked_touch now sessionId m Ht) as Ht0.
  repeat (case_match; eff; simplify_eq);
    repeat first
      [ exact Ht0
      | apply tracked_with_heap
      | apply tracked_record
      | apply tracked_register; cbn; [|apply Hrec|apply Hnow] ].
Qed.

(** X6.  An invariant of the manager: every registered session has a
    recorded character and an activity time, so that the sweep can
    reach it.  The manager starts with it, and no method breaks it,
    whether the method returns or throws. *)
Theorem tracked_invariant :
  tracked new_SessionManager ∧
  ∀ m, tracked m →
    (∀ now sessionId characterName encryptionKey,
       tracked (getChatbot now sessionId characterName encryptionKey m).2) ∧
    (∀ sessionId characterName,
       tracked (setActiveCharacterForSession sessionId characterName m).2) ∧
    (∀ now sessionId, tracked (clearSession now sessionId m).2) ∧
    (∀ sessionId, tracked (deleteSession sessionId m).2) ∧
    (∀ now, tracked (cleanupInactiveSessions now m).2) ∧
    (∀ sessionId requestId, tracked (trackRequestId sessionId requestId m).2) ∧
    (∀ characterName, tracked (markStarterShown characterName m).2) ∧
    tracked (clearAllStarterTracking m).2.
Proof.
  split.
  { intros id Hid. cbn in Hid. rewrite lookup_empty in Hid. by destruct Hid. }
  intros m Ht.
  refine (conj _ (conj _ (conj _ (conj _ (conj _ (conj _ (conj _ _))))))).
  - intros. by apply tracked_getChatbot.
  - intros sessionId characterName.
    unfold setActiveCharacterForSession, modify, get, call. eff.
    repeat (case_match; eff; simplify_eq);
      repeat first [ exact Ht | apply tracked_with_heap | apply tracked_record ].
  - intros now sessionId. unfold clearSession, modify, get, call. eff.
    repeat (case_match; eff; simplify_eq);
      repeat first [ exact Ht | apply tracked_touch | apply tracked_with_heap ].
  - intros. by apply tracked_deleteSession.
  - intros now. unfold cleanupInactiveSessions, get. eff.
    by apply tracked_for_of_deleteSession.
  - intros sessionId requestId. unfold trackRequestId, modify. eff.
    case_match; eff; [exact Ht|]. intros id Hid. exact (Ht id Hid).
  - intros characterName id Hid. exact (Ht id Hid).
  - intros id Hid. exact (Ht id Hid).
Qed.

(** X7.  A registered session that has been idle for more than the
    timeout is gone after the sweep, and
    the next [getChatbot] for its id builds a new chatbot object
    instead of handing out the old one. *)
Theorem cleanup_then_getChatbot now now' sessionId characterName encryptionKey
    m old c lastActive c1 c2 :
  sessionId ≠ "" →
  sessions m !! sessionId = Some old →
  heap m !! old = Some c →
  lastActivity m !! sessionId = Some lastActive →
  now - lastActive > sessionTimeout →
  loadCharacterAsync (requested characterName)
    (keyed encryptionKey new_HybridChatbot) = (Ok (), c1) →
  initialize c1 = (Ok (), c2) →
  ∃ m1 chatbot m2,
    cleanupInactiveSessions now m = (Ok (), m1) ∧
    sessions m1 !! sessionId = None ∧
    lastActivity m1 !! sessionId = None ∧
    getChatbot now' sessionId characterName encryptionKey m1 = (Ok chatbot, m2) ∧
    chatbot ≠ old ∧
    sessions m2 !! sessionId = Some chatbot ∧
    heap m2 !! old = Some c.
Proof.
  intros Hid Hs Hold Ha Hidle Hload Hinit.
  destruct (for_of_deleteSession
              (filter (λ entry, now - entry.2 > sessionTimeout)
                 (map_to_list (lastActivity m))).*1 m)
    as (m1 & Hrun & Hs1 & Ha1 & _ & _ & _ & Hheap).
  assert (Hin : sessionId ∈
            (filter (λ entry : string * Z, now - entry.2 > sessionTimeout)
               (map_to_list (lastActivity m))).*1).
  { apply list_elem_of_fmap. exists (sessionId, lastActive). split; [done|].
    apply list_elem_of_filter. split; [done|]. by apply elem_of_map_to_list. }
  assert (Hs1' : sessions m1 !! sessionId = None).
  { rewrite Hs1. by rewrite bool_decide_eq_true_2. }
  destruct (getChatbot_creates_run now' sessionId characterName encryptionKey
              m1 c1 c2 Hid Hs1' Hload Hinit)
    as (chatbot & m2 & Hget & Hnew & _ & Hothers & Hs2 & _).
  assert (Hne : old ≠ chatbot).
  { intros ->. rewrite Hheap in Hnew. congruence. }
  exists m1, chatbot, m2. split; [exact Hrun|]. split; [exact Hs1'|].
  split.
  { rewrite Ha1, Hs. rewrite bool_decide_eq_true_2 by done.
    by rewrite bool_decide_eq_true_2 by by eexists. }
  split; [exact Hget|]. split; [done|].
  split; [by rewrite Hs2, lookup_insert_eq|].
  by rewrite Hothers, Hheap.
Qed.

(** X8.  The starter record is one set for the whole manager.  After
    [markStarterShown] the character needs no starter, in whatever
    session; the answer for every other character is as before;
    marking again changes nothing; after [clearAllStarterTracking]
    every character needs one again.  Sessions are not touched. *)
Theorem starter_tracking characterName m :
  ∃ m',
    markStarterShown characterName m = (Ok (), m') ∧
    needsStarter characterName m' = (Ok false, m') ∧
    (∀ other, other ≠ characterName →
       (needsStarter other m').1 = (needsStarter other m).1) ∧
    markStarterShown characterName m' = (Ok (), m') ∧
    (∀ other, (needsStarter other (clearAllStarterTracking m').2).1 = Ok true) ∧
    sessions m' = sessions m ∧
    sessionCharacters m' = sessionCharacters m ∧
    lastActivity m' = lastActivity m.
Proof.
  eexists. split; [reflexivity|].
  unfold needsStarter, markStarterShown, clearAllStarterTracking, get, modify.
  cbn. repeat split.
  - rewrite bool_decide_eq_true_2; [done|]. set_solver.
  - intros other Hne. do 2 f_equal. apply bool_decide_ext. set_solver.
  - unfold with_charactersWithStarters. cbn. do 2 f_equal. set_solver.
Qed.

(** X9.  [trackRequestId] never reports a request as stale: it answers
    [true] for every session and request id.  A request id that is
    given replaces the one recorded for the session; [null] and the
    empty string leave the record as it is. *)
Theorem trackRequestId_always_true sessionId requestId m :
  ∃ m',
    trackRequestId sessionId requestId m = (Ok true, m') ∧
    latestRequestIds m' !! sessionId =
      (if truthy_str requestId then requestId
       else latestRequestIds m !! sessionId) ∧
    (∀ other, other ≠ sessionId →
       latestRequestIds m' !! other = latestRequestIds m !! other) ∧
    sessions m' = sessions m ∧
    sessionCharacters m' = sessionCharacters m ∧
    lastActivity m' = lastActivity m ∧
    heap m' = heap m.
Proof.
  unfold trackRequestId, modify. eff.
  destruct requestId as [r|]; cbn; [|by eexists].
  case_bool_decide; cbn; [by eexists|].
  eexists. split; [reflexivity|]. cbn. rewrite lookup_insert_eq.
  repeat split; try done. intros other Hne. by rewrite lookup_insert_ne.
Qed.

(** X10.  [setActiveCharacterForSession] on an id that is not
    registered throws [Session <id> not found] and changes nothing,
    also when a failed creation left an activity time or a character
    for the id. *)
Theorem setActiveCharacterForSession_unknown sessionId characterName m :
  sessions m !! sessionId = None →
  setActiveCharacterForSession sessionId characterName m
  = (Throw (Error ("Session " +:+ sessionId +:+ " not found")), m).
Proof.
  intros Hs. unfold setActiveCharacterForSession, get. eff. by rewrite Hs.
Qed.

(** X11.  [setActiveCharacterForSession] on a registered session: when
    the load succeeds the character is recorded, the history is emptied
    and the cached character is reset, as in a switch through
    [getChatbot], but the activity time is not renewed; when the load
    fails the error reaches the caller and the recorded character and
    the history stay. *)
Theorem setActiveCharacterForSession_spec sessionId characterName m chatbot c r c1 :
  sessions m !! sessionId = Some chatbot →
  heap m !! chatbot = Some c →
  loadCharacterAsync (Some characterName) c = (r, c1) →
  ∃ m',
    setActiveCharacterForSession sessionId characterName m = (r, m') ∧
    sessions m' = sessions m ∧
    lastActivity m' = lastActivity m ∧
    match r with
    | Ok _ =>
        sessionCharacters m' = <[sessionId := characterName]> (sessionCharacters m) ∧
        heap m' !! chatbot =
          Some {| loaderKey := loaderKey c1;
                  activeCharacterName := activeCharacterName c1;
                  cachedCharacter := None;
                  history := [] |}
    | Throw _ =>
        sessionCharacters m' = sessionCharacters m ∧
        heap m' !! chatbot = Some c1
    end.
Proof.
  intros Hs Hc Hload.
  unfold setActiveCharacterForSession, modify, get, call. eff.
  rewrite Hs. eff. rewrite Hc, Hload. destruct r as [[]|e]; eff.
  - rewrite !lookup_insert_eq. eff. rewrite !lookup_insert_eq. eff.
    eexists. split; [reflexivity|]. cbn. by rewrite lookup_insert_eq.
  - eexists. split; [reflexivity|]. cbn. by rewrite lookup_insert_eq.
Qed.

(** X12.  [clearSession] on a registered session empties the history
    of its chatbot and renews the activity time, and keeps the loaded
    and the recorded character; on an id that is not registered it does
    nothing, so it never creates an activity time. *)
Theorem clearSession_spec now sessionId m :
  (∀ chatbot, sessions m !! sessionId = Some chatbot →
     is_Some (heap m !! chatbot)) →
  ∃ m',
    clearSession now sessionId m = (Ok (), m') ∧
    sessions m' = sessions m ∧
    sessionCharacters m' = sessionCharacters m ∧
    match sessions m !! sessionId with
    | Some chatbot =>
        lastActivity m' = <[sessionId := now]> (lastActivity m) ∧
        ∃ c, heap m !! chatbot = Some c ∧
             heap m' !! chatbot =
               Some {| loaderKey := loaderKey c;
                       activeCharacterName := activeCharacterName c;
                       cachedCharacter := cachedCharacter c;
                       history := [] |}
    | None => m' = m
    end.
Proof.
  intros Hwf. unfold clearSession, modify, get, call. eff.
  destruct (sessions m !! sessionId) as [chatbot|] eqn:Hs; eff.
  - destruct (Hwf chatbot eq_refl) as [c Hc]. rewrite Hc. eff.
    eexists. split; [reflexivity|]. cbn.
    repeat split. exists c. by rewrite lookup_insert_eq.
  - by eexists.
Qed.

End ManagerLifecycle.

(** The theorems above on concrete runs. *)

(** X2: a second session, without a character, next to the one of
    ["Nova"]: the loader's default is recorded. *)
Lemma getChatbot_creates_witness :
  ∃ m',
    SessionManager.getChatbot (agent := Agents.loading) 5 "s2" None (Some "pw")
      Agents.nova_session = (Ok 1%nat, m') ∧
    SessionManager.sessions m' !! "s2" = Some 1%nat ∧
    SessionManager.sessionCharacters m' !! "s2" = Some "Echo" ∧
    SessionManager.sessionCharacters m' !! "s1" = Some "Nova" ∧
    SessionManager.lastActivity m' !! "s2" = Some 5.
Proof.
  destruct (getChatbot_creates (agent := Agents.loading) 5 "s2" None (Some "pw")
              Agents.nova_session
              (SessionManager.mkChatbot (Some "pw") "Echo" (Some (JStr "Echo")) [])
              (SessionManager.mkChatbot (Some "pw") "Echo" (Some (JStr "Echo")) []))
    as (chatbot & m' & Hrun & _ & _ & _ & Hs & Ha & Hc).
  - done.
  - reflexivity.
  - reflexivity.
  - reflexivity.
  - exists m'.
    assert (chatbot = 1%nat) as ->.
    { vm_compute in Hrun. congruence. }
    split; [exact Hrun|].
    rewrite Hs, Ha, Hc. repeat split; reflexivity.
Defined.

(** X3: the agent that cannot be initialised. *)
Lemma getChatbot_initialize_failure_witness :
  ∃ m',
    SessionManager.getChatbot (agent := Agents.stillborn) 7 "s1" (Some "Nova") None
      SessionManager.new_SessionManager
      = (Throw (Error "No model configured"), m') ∧
    SessionManager.sessions m' = ∅ ∧
    SessionManager.lastActivity m' !! "s1" = Some 7 ∧
    SessionManager.sessionCharacters m' !! "s1" = Some "Nova".
Proof.
  apply (getChatbot_initialize_failure (agent := Agents.stillborn) 7 "s1"
           (Some "Nova") None SessionManager.new_SessionManager
           (SessionManager.mkChatbot None "Nova" (Some (JStr "Nova")) [])
           (Error "No model configured")
           (SessionManager.mkChatbot None "Nova" (Some (JStr "Nova")) [])).
  - done.
  - reflexivity.
  - reflexivity.
  - reflexivity.
Defined.

(** X4: ["Nova"] asked for again, with a loader that would fail. *)
Lemma getChatbot_same_character_witness :
  ∃ m',
    SessionManager.getChatbot (agent := Agents.failing) 9 "s1" (Some "Nova") None
      Agents.nova_session = (Ok 0%nat, m') ∧
    SessionManager.heap m' !! 0%nat
      = Some (SessionManager.mkChatbot None "Nova" (Some (JStr "Nova")) []) ∧
    SessionManager.sessionCharacters m' = SessionManager.sessionCharacters Agents.nova_session.
Proof.
  destruct (getChatbot_same_character (agent := Agents.failing) 9 "s1" "Nova" None
              Agents.nova_session 0%nat
              (SessionManager.mkChatbot None "Nova" (Some (JStr "Nova")) []))
    as (m' & Hrun & Hheap & _ & _ & _ & _ & Hc & _).
  - done.
  - reflexivity.
  - reflexivity.
  - reflexivity.
  - exists m'. split; [exact Hrun|]. split; [exact Hheap|exact Hc].
Defined.

(** X7: the session of ["Nova"], last active at 1, swept at 1800002. *)
Lemma cleanup_then_getChatbot_witness :
  ∃ m1 chatbot m2,
    SessionManager.cleanupInactiveSessions 1800002
      Agents.nova_session = (Ok (), m1) ∧
    SessionManager.sessions m1 !! "s1" = None ∧
    SessionManager.lastActivity m1 !! "s1" = None ∧
    SessionManager.getChatbot (agent := Agents.loading) 1800003 "s1" (Some "Nova")
      None m1 = (Ok chatbot, m2) ∧
    chatbot ≠ 0%nat ∧
    SessionManager.sessions m2 !! "s1" = Some chatbot ∧
    SessionManager.heap m2 !! 0%nat
      = Some (SessionManager.mkChatbot None "Nova" (Some (JStr "Nova")) []).
Proof.
  apply (cleanup_then_getChatbot (agent := Agents.loading) 1800002 1800003 "s1"
           (Some "Nova") None Agents.nova_session 0%nat
           (SessionManager.mkChatbot None "Nova" (Some (JStr "Nova")) []) 1
           (SessionManager.mkChatbot None "Nova" (Some (JStr "Nova")) [])
           (SessionManager.mkChatbot None "Nova" (Some (JStr "Nova")) [])).
  - done.
  - reflexivity.
  - reflexivity.
  - reflexivity.
  - vm_compute. reflexivity.
  - reflexivity.
  - reflexivity.
Defined.

(** X10: no session was ever created. *)
Lemma setActiveCharacterForSession_unknown_witness :
  SessionManager.setActiveCharacterForSession (agent := Agents.loading) "s9" "Nova"
    Agents.nova_session
  = (Throw (Error "Session s9 not found"), Agents.nova_session).
Proof.
  apply (setActiveCharacterForSession_unknown (agent := Agents.loading) "s9" "Nova"
           Agents.nova_session).
  reflexivity.
Defined.

(** X11: the session of ["Nova"] set to ["Astra"]. *)
Lemma setActiveCharacterForSession_spec_witness :
  ∃ m',
    SessionManager.setActiveCharacterForSession (agent := Agents.loading) "s1" "Astra"
      Agents.nova_session = (Ok (), m') ∧
    SessionManager.sessions m' = SessionManager.sessions Agents.nova_session ∧
    SessionManager.lastActivity m' = SessionManager.lastActivity Agents.nova_session ∧
    SessionManager.sessionCharacters m'
      = <["s1" := "Astra"]> (SessionManager.sessionCharacters Agents.nova_session) ∧
    SessionManager.heap m' !! 0%nat
      = Some (SessionManager.mkChatbot None "Astra" None []).
Proof.
  apply (setActiveCharacterForSession_spec (agent := Agents.loading) "s1" "Astra"
           Agents.nova_session 0%nat
           (SessionManager.mkChatbot None "Nova" (Some (JStr "Nova")) [])
           (Ok ())
           (SessionManager.mkChatbot None "Astra" (Some (JStr "Astra")) [])).
  - reflexivity.
  - reflexivity.
  - reflexivity.
Defined.

(** X12: the session of ["Nova"] cleared at 50. *)
Lemma clearSession_spec_witness :
  ∃ m',
    SessionManager.clearSession 50 "s1" Agents.nova_session
      = (Ok (), m') ∧
    SessionManager.lastActivity m' !! "s1" = Some 50 ∧
    SessionManager.sessionCharacters m' !! "s1" = Some "Nova".
Proof.
  destruct (clearSession_spec 50 "s1" Agents.nova_session)
    as (m' & Hrun & _ & Hc & Hrest).
  - intros chatbot Hs. vm_compute in Hs. injection Hs as <-. by eexists.
  - exists m'. split; [exact Hrun|].
    change (SessionManager.sessions Agents.nova_session !! "s1")
      with (Some 0%nat) in Hrest.
    destruct Hrest as [Ha _]. rewrite Ha, Hc. split; reflexivity.
Defined.

(** ** The profile store: listing, reading, existence *)

Section StoreReads.
Import ProfileStorage.
Context {R : Runtime}.

Implicit Types (s : Store R) (path name : string) (key : option string).




(** What [getProfile] falls back to. *)
Lemma getProfile_legacy name key s :
  (∀ data, existing_document (name +:+ ".json") (read_key name key) s = Some data →
           full_format data = false) →
  getProfile name key s =
    match files s !! (name +:+ ".txt") with
    | Some content => (Ok (legacy_profile (utf8 content)), s)
    | None => (Throw (Error "Profile not found or cannot be decrypted"), s)
    end.
Proof.
  intros Hnone. unfold getProfile. fold (read_key name key).
  unfold existing_document in Hnone. eff.
  destruct (readFileContent (name +:+ ".json") (read_key name key) s)
    as [[content|e] s0] eqn:Hread.
  - apply readFileContent_state in Hread as Hs0. subst s0. cbn in Hnone.
    unfold parse. eff. destruct (JSON_parse content) as [data|] eqn:Hp; eff.
    + specialize (Hnone data eq_refl). unfold full_format in Hnone.
      destruct data; eff; try rewrite Hnone; eff;
        unfold fs_access, fs_readFile; eff;
        destruct (files s !! (name +:+ ".txt")) eqn:Ht; eff; rewrite ?Ht; reflexivity.
    + unfold fs_access, fs_readFile. eff.
      destruct (files s !! (name +:+ ".txt")) eqn:Ht; eff; rewrite ?Ht; reflexivity.
  - apply readFileContent_state in Hread as Hs0. subst s0. eff.
    unfold fs_access, fs_readFile. eff.
    destruct (files s !! (name +:+ ".txt")) eqn:Ht; eff; rewrite ?Ht; reflexivity.
Qed.

Lemma getProfile_document name key s data :
  existing_document (name +:+ ".json") (read_key name key) s = Some data →
  full_format data = true →
  getProfile name key s = (Ok data, s).
Proof.
  intros Hdoc Hfull. unfold getProfile. fold (read_key name key).
  unfold existing_document in Hdoc. eff.
  destruct (readFileContent (name +:+ ".json") (read_key name key) s)
    as [[content|e] s0] eqn:Hread; [|done].
  apply readFileContent_state in Hread as Hs0. subst s0. cbn in Hdoc.
  unfold parse. eff. rewrite Hdoc. eff.
  unfold full_format in Hfull. destruct data; try done. eff.
  by rewrite Hfull.
Qed.

Lemma profileExists_run name s :
  profileExists name s
  = (Ok (bool_decide (is_Some (files s !! (name +:+ ".json"))
                      ∨ is_Some (files s !! (name +:+ ".txt")))), s).
Proof.
  unfold profileExists, fs_access. case_bool_decide as H; eff.
  - destruct (files s !! (name +:+ ".json")) as [c|] eqn:Hj; eff; [done|].
    destruct H as [[c Hc]|[c Hc]]; [done|]. by rewrite Hc.
  - destruct (files s !! (name +:+ ".json")) as [c|] eqn:Hj.
    { exfalso. apply H. left. by eexists. }
    eff. destruct (files s !! (name +:+ ".txt")) as [c|] eqn:Htxt; [|done].
    exfalso. apply H. right. by eexists.
Qed.


(** X15.  A profile [getProfile] can return exists for
    [profileExists]; where [profileExists] answers [false],
    [getProfile] throws.  [profileExists] itself never throws and
    changes nothing. *)
Theorem getProfile_profileExists name key s :
  (∃ exists_, profileExists name s = (Ok exists_, s)) ∧
  (∀ data, getProfile name key s = (Ok data, s) →
     profileExists name s = (Ok true, s)) ∧
  (profileExists name s = (Ok false, s) →
   getProfile name key s
   = (Throw (Error "Profile not found or cannot be decrypted"), s)).
Proof.
  rewrite profileExists_run. split; [by eexists|].
  assert (Hmissing :
    files s !! (name +:+ ".json") = None →
    existing_document (name +:+ ".json") (read_key name key) s = None).
  { intros Hj. unfold existing_document.
    by rewrite readFileContent_missing. }
  split.
  - intros data Hget. rewrite bool_decide_eq_true_2; [done|].
    destruct (files s !! (name +:+ ".json")) as [c|] eqn:Hj; [left; by eexists|].
    right. rewrite getProfile_legacy in Hget
      by (rewrite Hmissing by done; done).
    destruct (files s !! (name +:+ ".txt")); [by eexists|done].
  - intros Hex. injection Hex as Hex. apply bool_decide_eq_false in Hex.
    destruct (files s !! (name +:+ ".json")) as [c|] eqn:Hj.
    { exfalso. apply Hex. left. by eexists. }
    rewrite getProfile_legacy by (rewrite Hmissing by done; done).
    destruct (files s !! (name +:+ ".txt")) as [c|] eqn:Ht; [|done].
    exfalso. apply Hex. right. by eexists.
Qed.

(** X16.  The getters that answer with a default.  [getActiveProfile],
    [getUserSettings], [getConsent] and [getFavorites] never throw,
    whatever the directory holds and whatever the key, and change
    nothing. *)
Theorem getters_never_throw name key s :
  (∃ active, getActiveProfile key s = (Ok active, s)) ∧
  (∃ settings, getUserSettings key s = (Ok settings, s)) ∧
  (∃ consent, getConsent key s = (Ok consent, s)) ∧
  (∃ favorites, getFavorites name key s = (Ok favorites, s)).
Proof.
  unfold getActiveProfile, getUserSettings, getConsent, getFavorites.
  destruct (readFileContent "user-profile.json" key s)
    as [[content|e] s0] eqn:Hread;
    apply readFileContent_state in Hread as Hs0; subst s0;
  destruct (readFileContent (name +:+ ".json")
              (if shouldEncryptProfile name then key else None) s)
    as [[content'|e'] s0] eqn:Hread';
    apply readFileContent_state in Hread' as Hs0; subst s0;
  unfold parse, fs_readFile; eff; rewrite ?Hread, ?Hread'; eff;
  repeat split;
  repeat (case_match; eff; simplify_eq); by eexists.
Qed.

End StoreReads.

(** ** The profile store: deleting a profile *)

Section StoreDeletion.
Import ProfileStorage.
Context {R : Runtime}.

Implicit Types (s : Store R) (d : Disk R) (path name : string).

Lemma settled_unlink path s :
  settled (fs_unlink path) s = (Ok (), remove_file path s).
Proof.
  unfold settled, fs_unlink, remove_file. eff.
  destruct (files s !! path) as [c|] eqn:Hf; [done|].
  cbn. rewrite delete_id by done. by destruct s.
Qed.

Lemma elem_of_entries (u : gmap string text) f :
  In f (map_to_list u).*1 ↔ is_Some (u !! f).
Proof.
  rewrite <- list_elem_of_In, list_elem_of_fmap. split.
  - intros ([k c] & -> & Hkc). apply elem_of_map_to_list in Hkc. by exists c.
  - intros [c Hc]. exists (f, c). split; [done|]. by apply elem_of_map_to_list.
Qed.

(** X17.  [deleteProfile] never fails, whether or not the profile, its
    files or the uploads directory exist.  Of the profiles directory it
    removes the three files of the profile ([.json], [.txt],
    [_avatar.txt]) and nothing else; afterwards [profileExists] answers
    [false] and [getProfile] throws, under any key.  Of the uploads it
    removes at most one file, one whose name starts with the profile
    name and a dot, and it removes one whenever there is one. *)
Theorem deleteProfile_spec name d :
  ∃ d',
    deleteProfile name d = (Ok (), d') ∧
    (∀ path,
       files (profilesDir d') !! path =
         if bool_decide (path ∈ [name +:+ ".json"; name +:+ ".txt";
                                 name +:+ "_avatar.txt"])
         then None else files (profilesDir d) !! path) ∧
    defaultUserData (profilesDir d') = defaultUserData (profilesDir d) ∧
    profileExists name (profilesDir d') = (Ok false, profilesDir d') ∧
    (∀ key, getProfile name key (profilesDir d')
            = (Throw (Error "Profile not found or cannot be decrypted"),
               profilesDir d')) ∧
    match uploadsDir d with
    | None => uploadsDir d' = None
    | Some uploads =>
        (∃ f, is_Some (uploads !! f) ∧
              startsWith f (name +:+ ".") = true ∧
              uploadsDir d' = Some (delete f uploads)) ∨
        ((∀ f, is_Some (uploads !! f) → startsWith f (name +:+ ".") = false) ∧
         uploadsDir d' = Some uploads)
    end.
Proof.
  set (s1 := remove_file (name +:+ "_avatar.txt")
               (remove_file (name +:+ ".txt")
                  (remove_file (name +:+ ".json") (profilesDir d)))).
  assert (Hfiles : ∀ path,
    files s1 !! path =
      if bool_decide (path ∈ [name +:+ ".json"; name +:+ ".txt";
                              name +:+ "_avatar.txt"])
      then None else files (profilesDir d) !! path).
  { intros path. subst s1. cbn.
    case_bool_decide as Hin.
    - rewrite !elem_of_cons in Hin.
      destruct Hin as [->|[->|[->|Hin]]]; [| | |by apply elem_of_nil in Hin].
      + destruct (decide (name +:+ "_avatar.txt" = name +:+ ".json")) as [->|];
          [by rewrite lookup_delete_eq|rewrite lookup_delete_ne by done].
        destruct (decide (name +:+ ".txt" = name +:+ ".json")) as [->|];
          [by rewrite lookup_delete_eq|rewrite lookup_delete_ne by done].
        by rewrite lookup_delete_eq.
      + destruct (decide (name +:+ "_avatar.txt" = name +:+ ".txt")) as [->|];
          [by rewrite lookup_delete_eq|rewrite lookup_delete_ne by done].
        by rewrite lookup_delete_eq.
      + by rewrite lookup_delete_eq.
    - rewrite !elem_of_cons in Hin.
      rewrite !lookup_delete_ne; [done|intros <-; tauto..]. }
  assert (Hfirst :
    on_profiles (settled (fs_unlink (name +:+ ".json"));;
                 settled (fs_unlink (name +:+ ".txt"));;
                 settled (fs_unlink (name +:+ "_avatar.txt"))) d
    = (Ok (), {| profilesDir := s1; uploadsDir := uploadsDir d |})).
  { unfold on_profiles. cbn. unfold mbind, Eff_bind.
    by rewrite !settled_unlink. }
  assert (Hj : files s1 !! (name +:+ ".json") = None).
  { rewrite Hfiles. rewrite bool_decide_eq_true_2; [done|].
    apply elem_of_cons. by left. }
  assert (Ht : files s1 !! (name +:+ ".txt") = None).
  { rewrite Hfiles. rewrite bool_decide_eq_true_2; [done|].
    apply elem_of_cons. right. apply elem_of_cons. by left. }
  assert (Hexists : profileExists name s1 = (Ok false, s1)).
  { rewrite profileExists_run, Hj, Ht.
    rewrite bool_decide_eq_false_2; [done|]. by intros [[? ?]|[? ?]]. }
  assert (Hget : ∀ key, getProfile name key s1
            = (Throw (Error "Profile not found or cannot be decrypted"), s1)).
  { intros key. rewrite getProfile_legacy; [by rewrite Ht|].
    intros data. unfold existing_document.
    by rewrite readFileContent_missing. }
  unfold deleteProfile. cbn zeta. unfold mbind at 1, Eff_bind at 1.
  rewrite Hfirst. unfold uploads_readdir, uploads_unlink. eff.
  destruct (uploadsDir d) as [uploads|] eqn:Hu; eff.
  - destruct (find (λ f, startsWith f (name +:+ ".")) (map_to_list uploads).*1)
      as [avatarFile|] eqn:Hfind; eff.
    + apply find_some in Hfind as [Hin Hstarts].
      apply elem_of_entries in Hin as [c Hc]. rewrite Hc. eff.
      eexists. split; [reflexivity|]. cbn.
      split; [exact Hfiles|]. split; [done|]. split; [exact Hexists|].
      split; [exact Hget|]. left. exists avatarFile.
      split; [by eexists|]. by split.
    + eexists. split; [reflexivity|]. cbn.
      split; [exact Hfiles|]. split; [done|]. split; [exact Hexists|].
      split; [exact Hget|]. right. split; [|done].
      intros f Hf. apply elem_of_entries in Hf.
      exact (find_none _ _ Hfind f Hf).
  - eexists. split; [reflexivity|]. cbn.
    split; [exact Hfiles|]. split; [done|]. split; [exact Hexists|].
    split; [exact Hget|]. done.
Qed.

End StoreDeletion.

(** ** The profile store: what is written reads back *)

Section StoreRoundTrips.
Import ProfileStorage.
Context {R : Runtime} {L : RuntimeLaws R}.

Implicit Types (s : Store R) (path name : string) (key : option string).

(** X18.  [writeFileContent] then [readFileContent].  A write that
    returns has touched no other file.  What was written with a key
    and [shouldEncrypt] reads back with the same key, is refused with
    [Failed to decrypt file] under any other key, and is handed out as
    the envelope, without an error, when no key is given; what was
    written without a key, or without [shouldEncrypt], is stored as it
    is and reads back without a key. *)
Theorem writeFileContent_then_readFileContent
    path (content : text) key (shouldEncrypt : bool) s s1 :
  writeFileContent path content key shouldEncrypt s = (Ok (), s1) →
  (∀ other, other ≠ path → files s1 !! other = files s !! other) ∧
  defaultUserData s1 = defaultUserData s ∧
  if has_key key && shouldEncrypt
  then
    files s1 !! path = Some (encrypt content (default "" key)) ∧
    readFileContent path key s1 = (Ok content, s1) ∧
    (∀ k', k' ≠ "" → Some k' ≠ key →
       readFileContent path (Some k') s1
       = (Throw (Error "Failed to decrypt file - incorrect password or corrupted data"),
          s1)) ∧
    readFileContent path None s1 = (Ok (encrypt content (default "" key)), s1)
  else
    files s1 !! path = Some content ∧
    readFileContent path None s1 = (Ok content, s1).
Proof.
  rewrite writeFileContent_run. intros [= <-].
  split; [intros other Hne; cbn; by rewrite lookup_insert_ne|].
  split; [done|].
  unfold outputContent, readFileContent, fs_readFile.
  destruct (has_key key && shouldEncrypt) eqn:Hk; eff;
    rewrite !lookup_insert_eq; eff.
  - apply andb_true_iff in Hk as [Hk _]. rewrite Hk. eff.
    rewrite isEncrypted_encrypt, decrypt_encrypt.
    split; [done|]. split; [done|]. split; [|done].
    intros k' Hk' Hne. rewrite bool_decide_eq_false_2 by done. eff.
    rewrite decrypt_wrong_key; [done|].
    destruct key as [k|]; [|done]. cbn. congruence.
  - done.
Qed.

(** What was written for the user document reads back. *)
Lemma read_back_user key (t : text) s path :
  files s !! path = Some (outputContent t key true) →
  readFileContent path key s = (Ok t, s).
Proof.
  intros Hf. unfold readFileContent, fs_readFile, outputContent in *.
  eff. rewrite Hf. eff.
  destruct (has_key key) eqn:Hk; eff; rewrite ?Hk; eff; [|done].
  by rewrite isEncrypted_encrypt, decrypt_encrypt.
Qed.

Lemma outputContent_has_key (t : text) key :
  outputContent t key (has_key key) = outputContent t key true.
Proof. unfold outputContent. by destruct (has_key key). Qed.

(** X19.  A full version-2.0 character document is saved as it is:
    [getProfile] with the same key returns exactly the document, one
    file is written, and no other file and not the defaults are
    touched.  The file is sealed only for a private profile saved with
    a key: a public profile, and any profile saved without a key, is
    stored in the clear. *)
Theorem saveProfile_full_document name (profileData : Json) key s :
  full_format profileData = true →
  ∃ s1,
    saveProfile name profileData key s = (Ok (), s1) ∧
    getProfile name key s1 = (Ok profileData, s1) ∧
    files s1 !! (name +:+ ".json")
    = Some (if shouldEncryptProfile name && has_key key
            then encrypt (JSON_stringify profileData) (default "" key)
            else JSON_stringify profileData) ∧
    (∀ path, path ≠ name +:+ ".json" → files s1 !! path = files s !! path) ∧
    written s1 = (name +:+ ".json") :: written s ∧
    defaultUserData s1 = defaultUserData s.
Proof.
  intros Hfull.
  assert (Hnn : profileData ≠ JNull) by (by intros ->).
  eexists. split; [by apply saveProfile_run|].
  unfold saved_document. rewrite Hfull.
  split; [|split; [|split; [|done]]].
  - apply getProfile_document; [|done].
    unfold existing_document.
    erewrite read_back; [|cbn; apply lookup_insert_eq].
    cbn. apply parse_stringify.
  - cbn. rewrite lookup_insert_eq. unfold outputContent.
    by rewrite andb_comm.
  - intros path Hne. cbn. by rewrite lookup_insert_ne.
Qed.

(** X20.  [saveConsent] then [getConsent].  When the stored user
    document, if one can be read, is an object, a consent record that
    is saved is the one [getConsent] returns under the same key; no
    file but [user-profile.json] is written. *)
Theorem saveConsent_then_getConsent (consentData : Json) key s :
  truthy (Some consentData) = true →
  (∃ fields, defaultUserData s = JObj fields) →
  (∀ d, existing_document "user-profile.json" key s = Some d →
        ∃ fields, d = JObj fields) →
  ∃ s1,
    saveConsent consentData key s = (Ok (), s1) ∧
    getConsent key s1 = (Ok consentData, s1) ∧
    (∀ path, path ≠ "user-profile.json" → files s1 !! path = files s !! path).
Proof.
  intros Htruthy [dfields Hdef] Hobj.
  assert (Hget : ∀ s1 fields,
    files s1 !! "user-profile.json"
    = Some (outputContent
              (JSON_stringify (JObj (assign "consent" consentData fields)))
              key (has_key key)) →
    getConsent key s1 = (Ok consentData, s1)).
  { intros s1 fields Hf. rewrite outputContent_has_key in Hf.
    unfold getConsent. eff. rewrite (read_back_user _ _ _ _ Hf). eff.
    unfold parse. rewrite parse_stringify. eff.
    rewrite !assoc_assign_eq. cbn. by rewrite Htruthy. }
  unfold saveConsent, existing_document in *. eff.
  destruct (readFileContent "user-profile.json" key s)
    as [[content|e] s0] eqn:Hread;
    apply readFileContent_state in Hread as Hs0; subst s0; cbn in Hobj.
  - unfold parse. destruct (JSON_parse content) as [d|] eqn:Hp; eff.
    + destruct (Hobj d eq_refl) as [fields ->]. eff.
      unfold writeFileContent, fs_writeFile. eff.
      eexists. split; [reflexivity|]. split.
      * eapply Hget. cbn. rewrite lookup_insert_eq. reflexivity.
      * intros path Hne. cbn. by rewrite lookup_insert_ne.
    + rewrite Hdef. eff. unfold writeFileContent, fs_writeFile. eff.
      eexists. split; [reflexivity|]. split.
      * eapply Hget. cbn. rewrite lookup_insert_eq. reflexivity.
      * intros path Hne. cbn. by rewrite lookup_insert_ne.
  - unfold update. rewrite Hdef. eff. unfold writeFileContent, fs_writeFile. eff.
    eexists. split; [reflexivity|]. split.
    + eapply Hget. cbn. rewrite lookup_insert_eq. reflexivity.
    + intros path Hne. cbn. by rewrite lookup_insert_ne.
Qed.

Lemma existing_document_Some path key s d :
  existing_document path key s = Some d →
  ∃ content, readFileContent path key s = (Ok content, s) ∧
             JSON_parse content = Some d.
Proof.
  unfold existing_document. intros Hdoc.
  destruct (readFileContent path key s) as [[content|e] s0] eqn:Hread; [|done].
  apply readFileContent_state in Hread as Hs0. subst s0. by exists content.
Qed.

Lemma existing_document_put path key (d : Json) s :
  existing_document path key
    (put_file path (outputContent (JSON_stringify d) key true) s) = Some d.
Proof.
  unfold existing_document.
  erewrite read_back_user; [|cbn; apply lookup_insert_eq].
  cbn. apply parse_stringify.
Qed.

(** X21.  [setActiveProfile] then [getActiveProfile].  On a stored
    version-2.0 user document (whose [settings], if it has any, is an
    object) the name that is set is the one [getActiveProfile] returns
    under the same key.  The document keeps every other top-level
    property and every other setting, and the module's defaults are not
    touched. *)
Theorem setActiveProfile_then_getActiveProfile name key s fields :
  name ≠ "" →
  existing_document "user-profile.json" key s = Some (JObj fields) →
  assoc "version" fields = Some (JStr "2.0") →
  (truthy (assoc "settings" fields) = true →
   ∃ sf, assoc "settings" fields = Some (JObj sf)) →
  ∃ s1 doc,
    setActiveProfile name key s = (Ok (), s1) ∧
    getActiveProfile key s1 = (Ok (JStr name), s1) ∧
    existing_document "user-profile.json" key s1 = Some doc ∧
    (∀ k, k ≠ "settings" → prop doc k = assoc k fields) ∧
    (∀ k, k ≠ "defaultActiveCharacter" →
       opt_member (prop doc "settings") k = opt_member (assoc "settings" fields) k) ∧
    defaultUserData s1 = defaultUserData s.
Proof.
  intros Hname Hdoc Hversion Hsettings.
  apply existing_document_Some in Hdoc as (content & Hread & Hparse).
  assert (Hget : ∀ sf',
    getActiveProfile key
      (put_file "user-profile.json"
         (outputContent
            (JSON_stringify
               (JObj (assign "settings"
                        (JObj (assign "defaultActiveCharacter" (JStr name) sf'))
                        fields))) key true) s)
    = (Ok (JStr name),
       put_file "user-profile.json"
         (outputContent
            (JSON_stringify
               (JObj (assign "settings"
                        (JObj (assign "defaultActiveCharacter" (JStr name) sf'))
                        fields))) key true) s)).
  { intros sf'. unfold getActiveProfile. eff.
    erewrite read_back_user; [|cbn; apply lookup_insert_eq]. eff.
    unfold parse. rewrite parse_stringify. eff.
    rewrite assoc_assign_ne by done. rewrite Hversion.
    rewrite !assoc_assign_eq. cbn. rewrite !assoc_assign_eq. cbn.
    rewrite (bool_decide_eq_true_2 ("2.0" = "2.0")) by done.
    by rewrite (bool_decide_eq_false_2 (name = "")). }
  unfold setActiveProfile. eff. rewrite Hread. eff.
  unfold parse. rewrite Hparse. eff.
  destruct (truthy (assoc "settings" fields)) eqn:Htruthy; eff.
  - destruct (Hsettings eq_refl) as [sf Hsf].
    rewrite Hsf. eff.
    eexists. eexists. split; [reflexivity|].
    split; [apply Hget|]. split; [apply existing_document_put|].
    cbn [prop]. split; [|split; [|done]].
    + intros k Hk. by rewrite assoc_assign_ne.
    + intros k Hk. rewrite assoc_assign_eq. cbn.
      by rewrite assoc_assign_ne.
  - rewrite assoc_assign_eq. eff.
    assert (Hassign : ∀ v : Json,
      assign "settings" v (assign "settings" (JObj []) fields)
      = assign "settings" v fields).
    { intros v. clear. induction fields as [|[k' v'] rest IH]; cbn.
      - by rewrite bool_decide_eq_true_2.
      - case_bool_decide; cbn.
        + by rewrite bool_decide_eq_true_2.
        + rewrite bool_decide_eq_false_2 by done. by rewrite IH. }
    rewrite Hassign.
    eexists. eexists. split; [reflexivity|].
    split; [apply (Hget [])|]. split; [apply existing_document_put|].
    cbn [prop]. split; [|split; [|done]].
    + intros k Hk. by rewrite assoc_assign_ne.
    + intros k Hk. rewrite assoc_assign_eq. cbn.
      rewrite bool_decide_eq_false_2 by done.
      by destruct (assoc "settings" fields) as [[]|].
Qed.

(** *** Favorites *)

Lemma assign_assign k (v v' : Json) fields :
  assign k v (assign k v' fields) = assign k v fields.
Proof.
  induction fields as [|[k' w] rest IH]; cbn.
  - by rewrite bool_decide_eq_true_2.
  - case_bool_decide; cbn.
    + by rewrite bool_decide_eq_true_2.
    + rewrite bool_decide_eq_false_2 by done. by rewrite IH.
Qed.

Lemma character_document_set top cf (favorites : list Json) :
  full_format (JObj top) = true →
  Forall (λ fav, fav ≠ JNull) favorites →
  character_document
    (JObj (assign "character" (JObj (assign "favorites" (JArr favorites) cf)) top))
    favorites.
Proof.
  intros Hfull Hnn. unfold character_document, full_format in *. cbn [prop] in *.
  rewrite !assoc_assign_ne by done. split; [done|]. split; [|done].
  eexists. split; [apply assoc_assign_eq|]. left. apply assoc_assign_eq.
Qed.

Lemma getFavorites_document name key s (content : text) data favorites :
  (readFileContent (name +:+ ".json") (read_key name key) s).1 = Ok content →
  JSON_parse content = Some data →
  character_document data favorites →
  getFavorites name key s = (Ok (JArr favorites), s).
Proof.
  intros Hread Hparse (Hfull & (cf & Hchar & Hfavs) & Hnn).
  apply readFileContent_fst in Hread.
  destruct data as [| | | | |top]; try done.
  unfold full_format in Hfull. cbn [prop] in Hfull, Hchar.
  unfold getFavorites. fold (read_key name key). eff.
  rewrite Hread. eff. unfold parse. rewrite Hparse. eff.
  rewrite Hfull. eff. rewrite Hchar. eff.
  destruct Hfavs as [Hfavs|[Hfalsy ->]].
  - by rewrite Hfavs.
  - unfold or_else. by rewrite Hfalsy.
Qed.

Lemma addFavorite_run generatedId nowISO name (favorite : Json) key s
    (content : text) top cf favorites :
  (readFileContent (name +:+ ".json") (read_key name key) s).1 = Ok content →
  JSON_parse content = Some (JObj top) →
  full_format (JObj top) = true →
  assoc "character" top = Some (JObj cf) →
  (assoc "favorites" cf = Some (JArr favorites) ∨
   (truthy (assoc "favorites" cf) = false ∧ favorites = [])) →
  favorite ≠ JNull →
  addFavorite generatedId nowISO name favorite key s
  = (Ok (favoriteWithId generatedId nowISO favorite),
     put_file (name +:+ ".json")
       (outputContent
          (JSON_stringify
             (JObj (assign "character"
                      (JObj (assign "favorites"
                               (JArr (favorites
                                      ++ [favoriteWithId generatedId nowISO favorite]))
                               cf)) top)))
          key (shouldEncryptProfile name)) s).
Proof.
  intros Hread Hparse Hfull Hchar Hfavs Hfav.
  apply readFileContent_fst in Hread.
  unfold full_format in Hfull. cbn [prop] in Hfull.
  unfold addFavorite. fold (read_key name key).
  generalize (favoriteWithId generatedId nowISO favorite). intros added.
  eff. rewrite Hread. eff. unfold parse. rewrite Hparse. eff.
  rewrite Hfull. eff. rewrite Hchar. eff.
  destruct Hfavs as [Hfavs|[Hfalsy ->]].
  - rewrite Hfavs. eff. destruct favorite; try done; eff;
      repeat (rewrite ?Hchar, ?Hfavs; eff); reflexivity.
  - rewrite Hfalsy. eff. destruct favorite; try done; eff;
      repeat (rewrite ?assoc_assign_eq; eff);
      rewrite !assign_assign; reflexivity.
Qed.

Lemma removeFavorite_run name favoriteId key s (content : text) top cf favorites :
  (readFileContent (name +:+ ".json") (read_key name key) s).1 = Ok content →
  JSON_parse content = Some (JObj top) →
  full_format (JObj top) = true →
  assoc "character" top = Some (JObj cf) →
  assoc "favorites" cf = Some (JArr favorites) →
  Forall (λ fav, fav ≠ JNull) favorites →
  let kept := filter (λ fav, has_id favoriteId fav = false) favorites in
  List.length kept ≠ List.length favorites →
  removeFavorite name favoriteId key s
  = (Ok true,
     put_file (name +:+ ".json")
       (outputContent
          (JSON_stringify
             (JObj (assign "character"
                      (JObj (assign "favorites" (JArr kept) cf)) top)))
          key (shouldEncryptProfile name)) s).
Proof.
  intros Hread Hparse Hfull Hchar Hfavs Hnn kept Hlen.
  apply readFileContent_fst in Hread.
  unfold full_format in Hfull. cbn [prop] in Hfull.
  unfold removeFavorite. fold (read_key name key). eff.
  rewrite Hread. eff. unfold parse. rewrite Hparse. eff.
  rewrite Hfull. eff. rewrite Hchar. eff.
  rewrite Hfavs. eff. rewrite Hchar. eff. rewrite Hfavs.
  rewrite (filter_favorites_run _ _ Hnn). fold kept. eff.
  by rewrite bool_decide_eq_false_2.
Qed.

(** C7, as amended.  On a stored version-2.0 character document that
    the key reads:
    - without an entry of that id, [removeFavorite] throws an [Error]
      with the message [Favorite <id> not found], and the store, the
      file included, is as before;
    - with one or more, it returns [true] and the file then holds a
      document, the one [getProfile] returns, whose favorites are the
      former ones without {e every} entry of that id, in their order;
      every other property of the document and of its character is as
      before, and no other file is touched.  When a single entry has
      the id, that entry is what is removed. *)
Theorem removeFavorite_spec name favoriteId key s (content : text) data favorites :
  (readFileContent (name +:+ ".json") (read_key name key) s).1 = Ok content →
  JSON_parse content = Some data →
  character_document data favorites →
  (Forall (λ fav, has_id favoriteId fav = false) favorites →
     removeFavorite name favoriteId key s
     = (Throw (Error ("Favorite " +:+ favoriteId +:+ " not found")), s)) ∧
  (Exists (λ fav, has_id favoriteId fav = true) favorites →
     ∃ s' data' kept,
       removeFavorite name favoriteId key s = (Ok true, s') ∧
       files s' !! (name +:+ ".json")
       = Some (outputContent (JSON_stringify data') key (shouldEncryptProfile name)) ∧
       (∀ path, path ≠ name +:+ ".json" → files s' !! path = files s !! path) ∧
       getProfile name key s' = (Ok data', s') ∧
       getFavorites name key s' = (Ok (JArr kept), s') ∧
       opt_member (prop data' "character") "favorites" = Some (JArr kept) ∧
       kept = filter (λ fav, has_id favoriteId fav = false) favorites ∧
       (∀ fav, fav ∈ kept ↔ fav ∈ favorites ∧ has_id favoriteId fav = false) ∧
       (List.length kept < List.length favorites)%nat ∧
       (∀ k, k ≠ "character" → prop data' k = prop data k) ∧
       (∀ k, k ≠ "favorites" →
          opt_member (prop data' "character") k
          = opt_member (prop data "character") k) ∧
       (∀ before fav after,
          favorites = (before ++ fav :: after)%list →
          Forall (λ fav, has_id favoriteId fav = false) before →
          Forall (λ fav, has_id favoriteId fav = false) after →
          kept = (before ++ after)%list)).
Proof.
  intros Hread Hparse (Hfull & (cf & Hchar & Hfavs) & Hnn).
  destruct data as [| | | | |top]; try done. cbn [prop] in Hchar.
  set (kept := filter (λ fav, has_id favoriteId fav = false) favorites).
  pose proof (filter_length_all (λ fav, has_id favoriteId fav = false) favorites)
    as Hlen. fold kept in Hlen.
  pose proof (removeFavorite_cases name favoriteId key s content top cf favorites
                Hread Hparse Hfull Hchar Hfavs Hnn) as Hrun.
  fold kept in Hrun. rewrite Hrun. split.
  - intros Hall. by rewrite bool_decide_eq_true_2 by by apply Hlen.
  - intros Hex.
    assert (Hshort : List.length kept ≠ List.length favorites).
    { rewrite Hlen. intros Hall. apply Exists_exists in Hex as (fav & Hin & Hid).
      rewrite Forall_forall in Hall. specialize (Hall fav Hin). congruence. }
    rewrite bool_decide_eq_false_2 by done.
    assert (Hnn' : Forall (λ fav, fav ≠ JNull) kept).
    { rewrite Forall_forall in *. intros fav Hin. apply Hnn.
      subst kept. by apply list_elem_of_filter in Hin as [_ ?]. }
    set (data' := JObj (assign "character"
                          (JObj (assign "favorites" (JArr kept) cf)) top)).
    set (s' := put_file _ _ s).
    assert (Hread' : (readFileContent (name +:+ ".json") (read_key name key) s').1
                     = Ok (JSON_stringify data')).
    { erewrite read_back; [done|]. subst s'. cbn. apply lookup_insert_eq. }
    assert (Hfull' : full_format data' = true).
    { subst data'. unfold full_format in *. cbn [prop] in *.
      by rewrite !assoc_assign_ne. }
    exists s', data', kept. split; [reflexivity|].
    split; [subst s'; cbn; by rewrite lookup_insert_eq|].
    split; [intros path Hne; subst s'; cbn; by rewrite lookup_insert_ne|].
    split.
    { apply getProfile_document; [|done]. unfold existing_document.
      rewrite Hread'. apply parse_stringify. }
    split.
    { eapply getFavorites_document; [exact Hread'|apply parse_stringify|].
      by apply character_document_set. }
    subst data'. cbn [prop].
    split; [by rewrite assoc_assign_eq; cbn; rewrite assoc_assign_eq|].
    split; [done|]. split.
    { intros fav. subst kept. rewrite list_elem_of_filter. tauto. }
    split.
    { pose proof (length_filter (λ fav, has_id favoriteId fav = false) favorites).
      fold kept in H. lia. }
    split; [intros k Hk; by rewrite assoc_assign_ne|].
    split.
    { intros k Hk. rewrite assoc_assign_eq, Hchar. cbn. by rewrite assoc_assign_ne. }
    intros before fav after -> Hb Ha. subst kept.
    rewrite filter_app, filter_cons, (filter_Forall_id _ _ Hb), (filter_Forall_id _ _ Ha).
    destruct (decide (has_id favoriteId fav = false)) as [Hfav|Hfav]; [|done].
    exfalso. apply Exists_exists in Hex as (x & Hin & Hid).
    apply elem_of_app in Hin as [Hin|Hin].
    + rewrite Forall_forall in Hb. specialize (Hb x Hin). congruence.
    + apply elem_of_cons in Hin as [->|Hin]; [congruence|].
      rewrite Forall_forall in Ha. specialize (Ha x Hin). congruence.
Qed.

(** X22.  [addFavorite], [getFavorites], [removeFavorite].  On a
    readable version-2.0 character document, [addFavorite] returns the
    favorite it stored, and [getFavorites] then returns the former
    favorites followed by it; no other file is written.  When the
    stored favorite has a string id that no former favorite has,
    [removeFavorite] with that id succeeds and [getFavorites] returns
    the former favorites again. *)
Theorem addFavorite_then_getFavorites generatedId nowISO name (favorite : Json)
    key s (content : text) data favorites :
  (readFileContent (name +:+ ".json") (read_key name key) s).1 = Ok content →
  JSON_parse content = Some data →
  character_document data favorites →
  favorite ≠ JNull →
  let added := favoriteWithId generatedId nowISO favorite in
  ∃ s1,
    addFavorite generatedId nowISO name favorite key s = (Ok added, s1) ∧
    getFavorites name key s1 = (Ok (JArr (favorites ++ [added])), s1) ∧
    (∀ path, path ≠ name +:+ ".json" → files s1 !! path = files s !! path) ∧
    (∀ favoriteId,
       prop added "id" = Some (JStr favoriteId) →
       Forall (λ fav, has_id favoriteId fav = false) favorites →
       ∃ s2,
         removeFavorite name favoriteId key s1 = (Ok true, s2) ∧
         getFavorites name key s2 = (Ok (JArr favorites), s2)).
Proof.
  intros Hread Hparse (Hfull & (cf & Hchar & Hfavs) & Hnn) Hfav added.
  destruct data as [| | | | |top]; try done. cbn [prop] in Hchar.
  assert (Hadded : added ≠ JNull) by done.
  assert (Hnn1 : Forall (λ fav, fav ≠ JNull) (favorites ++ [added])%list).
  { apply Forall_app. split; [done|]. by apply Forall_singleton. }
  eexists. split; [by eapply addFavorite_run|].
  set (doc1 := JObj (assign "character"
                       (JObj (assign "favorites" (JArr (favorites ++ [added])) cf))
                       top)).
  set (s1 := put_file _ _ s).
  assert (Hread1 : (readFileContent (name +:+ ".json") (read_key name key) s1).1
                   = Ok (JSON_stringify doc1)).
  { erewrite read_back; [done|]. subst s1. cbn. apply lookup_insert_eq. }
  split; [|split].
  - eapply getFavorites_document; [exact Hread1|apply parse_stringify|].
    by apply character_document_set.
  - intros path Hne. subst s1. cbn. by rewrite lookup_insert_ne.
  - intros favoriteId Hid Hnone.
    assert (Hkept : filter (λ fav, has_id favoriteId fav = false)
                      (favorites ++ [added])%list = favorites).
    { rewrite filter_app, (filter_Forall_id _ _ Hnone).
      rewrite filter_cons, filter_nil.
      destruct (decide (has_id favoriteId added = false)) as [Hno|_].
      - unfold has_id in Hno. rewrite Hid in Hno. cbn in Hno.
        by rewrite bool_decide_eq_true_2 in Hno.
      - apply app_nil_r. }
    eexists. split.
    + eapply removeFavorite_run;
        [exact Hread1|apply parse_stringify| | | |exact Hnn1|].
      * unfold full_format in *. cbn [prop] in *.
        by rewrite !assoc_assign_ne.
      * apply assoc_assign_eq.
      * apply assoc_assign_eq.
      * rewrite Hkept, length_app. cbn. lia.
    + rewrite Hkept.
      eapply getFavorites_document;
        [erewrite read_back; [done|cbn; apply lookup_insert_eq]
        |apply parse_stringify|].
      apply character_document_set; [|done].
      unfold full_format in *. cbn [prop] in *.
      by rewrite !assoc_assign_ne.
Qed.

(** *** The user settings *)

Lemma getUserSettings_document key s doc :
  existing_document "user-profile.json" key s = Some doc →
  is_string (prop doc "version") "2.0" && is_string (prop doc "type") "user" = true →
  getUserSettings key s = (Ok doc, s).
Proof.
  intros Hdoc Hfull.
  apply existing_document_Some in Hdoc as (content & Hread & Hparse).
  unfold getUserSettings. eff. rewrite Hread. eff.
  unfold parse. rewrite Hparse. eff.
  destruct doc; try done. eff. cbn [prop] in Hfull. by rewrite Hfull.
Qed.

(** X23.  [saveUserSettings] on a stored user document that can be
    read (an object whose [settings], if it has any, is an object).
    The document is rewritten in place: the consent record and every
    other top-level property but [user], [sharedMemory] and [settings]
    stay, and so do the settings the method does not name, the active
    character among them unless the update carries one.  The [user]
    record and [sharedMemory] are rebuilt from the update alone, as
    written out below: a field the update lacks (or has falsy) falls
    back to its built-in default, whatever was stored.  The three
    settings the method names take the update's values ([false] and
    the empty string when it has none).  The
    defaults of the module are not touched, and [getUserSettings] under
    the same key returns the document when it is a version-2.0 user
    document. *)
Lemma bind_ok {S A B} (m : Eff S A) (k : A → Eff S B) (st st' : S) (a : A) :
  m st = (Ok a, st') → (x ← m; k x) st = k a st'.
Proof. intros H. unfold mbind, Eff_bind. by rewrite H. Qed.

Lemma existingData_is_stored key s d (handler : exn → Eff (Store R) docref) :
  existing_document "user-profile.json" key s = Some d →
  try_catch
    (content ← readFileContent "user-profile.json" key;
     v ← parse content;
     mret (Parsed v)) handler s
  = (Ok (Parsed d), s).
Proof.
  intros Hdoc. apply existing_document_Some in Hdoc as (content & Hread & Hparse).
  eff. rewrite Hread. eff. unfold parse. by rewrite Hparse.
Qed.

Lemma update_property top k (v : Json) s :
  ∃ top',
    update (Parsed (JObj top)) (λ d, set_prop (Some d) k v) s
    = (Ok (Parsed (JObj top')), s) ∧
    assoc k top' = Some v ∧
    ∀ k', k' ≠ k → assoc k' top' = assoc k' top.
Proof.
  exists (assign k v top). split; [done|].
  split; [apply assoc_assign_eq|]. intros k' Hk'. by apply assoc_assign_ne.
Qed.

Lemma update_setting top sf k (v : Json) s :
  assoc "settings" top = Some (JObj sf) →
  ∃ top',
    update (Parsed (JObj top)) (λ d, set_prop2 (Some d) "settings" k v) s
    = (Ok (Parsed (JObj top')), s) ∧
    assoc "settings" top' = Some (JObj (assign k v sf)) ∧
    ∀ k', k' ≠ "settings" → assoc k' top' = assoc k' top.
Proof.
  intros Hsf. exists (assign "settings" (JObj (assign k v sf)) top).
  split.
  - unfold update. by rewrite (set_prop2_object _ _ _ _ _ Hsf).
  - split; [apply assoc_assign_eq|]. intros k' Hk'. by apply assoc_assign_ne.
Qed.

Theorem saveUserSettings_then_getUserSettings (settings : Json) key s fields :
  settings ≠ JNull →
  existing_document "user-profile.json" key s = Some (JObj fields) →
  (truthy (assoc "settings" fields) = true →
   ∃ sf, assoc "settings" fields = Some (JObj sf)) →
  ∃ s1 doc,
    saveUserSettings settings key s = (Ok (), s1) ∧
    existing_document "user-profile.json" key s1 = Some doc ∧
    (∀ k, k ≠ "user" → k ≠ "sharedMemory" → k ≠ "settings" →
       prop doc k = assoc k fields) ∧
    prop doc "user"
    = Some (JObj [
        ("name", or_else (prop settings "userName") (JStr "User"));
        ("gender", or_else (prop settings "userGender") (JStr "non-binary"));
        ("species", or_else (prop settings "userSpecies") (JStr "human"));
        ("timezone", or_else (prop settings "timezone") (JStr "UTC"));
        ("backstory", or_else (prop settings "userBackstory") (JStr ""));
        ("preferences",
           or_else (prop settings "userPreferences")
             (JObj [("music", JArr []); ("books", JArr []); ("movies", JArr []);
                    ("hobbies", JArr []); ("other", JStr "")]));
        ("majorLifeEvents", or_else (prop settings "majorLifeEvents") (JArr []));
        ("communicationBoundaries",
           or_else (prop settings "communicationBoundaries") (JStr ""))]) ∧
    prop doc "sharedMemory"
    = Some (JObj [("roleplayEvents",
                   or_else (prop settings "sharedRoleplayEvents") (JArr []))]) ∧
    opt_member (prop doc "settings") "enableMemory"
    = Some (default (JBool false) (prop settings "enableMemory")) ∧
    opt_member (prop doc "settings") "enableWebSearch"
    = Some (default (JBool false) (prop settings "enableWebSearch")) ∧
    opt_member (prop doc "settings") "webSearchApiKey"
    = Some (or_else (prop settings "webSearchApiKey") (JStr "")) ∧
    (∀ dac, prop settings "defaultActiveCharacter" = Some dac →
       opt_member (prop doc "settings") "defaultActiveCharacter" = Some dac) ∧
    (∀ k, k ≠ "enableMemory" → k ≠ "enableWebSearch" → k ≠ "webSearchApiKey" →
          k ≠ "defaultActiveCharacter" →
       opt_member (prop doc "settings") k
       = opt_member (assoc "settings" fields) k) ∧
    (prop settings "defaultActiveCharacter" = None →
     opt_member (prop doc "settings") "defaultActiveCharacter"
     = opt_member (assoc "settings" fields) "defaultActiveCharacter") ∧
    defaultUserData s1 = defaultUserData s ∧
    (is_string (assoc "version" fields) "2.0"
     && is_string (assoc "type" fields) "user" = true →
     getUserSettings key s1 = (Ok doc, s1)).
Proof.
  intros Hnn Hdoc Hsettings. unfold saveUserSettings. cbn zeta.
  erewrite bind_ok; [|by apply existingData_is_stored].
  erewrite bind_ok; [|by destruct settings].
  destruct (update_property fields "user"
              (JObj [
                ("name", or_else (prop settings "userName") (JStr "User"));
                ("gender", or_else (prop settings "userGender") (JStr "non-binary"));
                ("species", or_else (prop settings "userSpecies") (JStr "human"));
                ("timezone", or_else (prop settings "timezone") (JStr "UTC"));
                ("backstory", or_else (prop settings "userBackstory") (JStr ""));
                ("preferences",
                   or_else (prop settings "userPreferences") default_preferences);
                ("majorLifeEvents",
                   or_else (prop settings "majorLifeEvents") (JArr []));
                ("communicationBoundaries",
                   or_else (prop settings "communicationBoundaries") (JStr ""))]) s)
    as (top1 & Hrun1 & Huser1 & Hkeep1).
  erewrite bind_ok; [|exact Hrun1].
  destruct (update_property top1 "sharedMemory"
              (JObj [("roleplayEvents",
                      or_else (prop settings "sharedRoleplayEvents") (JArr []))]) s)
    as (top2 & Hrun2 & Hshared2 & Hkeep2).
  erewrite bind_ok; [|exact Hrun2].
  erewrite bind_ok; [|reflexivity].
  assert (Hsame : assoc "settings" top2 = assoc "settings" fields).
  { by rewrite Hkeep2, Hkeep1. }
  assert (Hstep3 : ∃ top3 sf,
    (if negb (truthy (prop (JObj top2) "settings"))
     then update (Parsed (JObj top2)) (λ d, set_prop (Some d) "settings" (JObj []))
     else mret (Parsed (JObj top2))) s
    = (Ok (Parsed (JObj top3)), s) ∧
    assoc "settings" top3 = Some (JObj sf) ∧
    (∀ k, assoc k sf = opt_member (assoc "settings" fields) k) ∧
    (∀ k', k' ≠ "settings" → assoc k' top3 = assoc k' top2)).
  { cbn [prop]. rewrite Hsame.
    destruct (truthy (assoc "settings" fields)) eqn:Htruthy; cbn [negb].
    - destruct (Hsettings eq_refl) as [sf Hsf]. exists top2, sf.
      split; [done|]. split; [congruence|]. split; [|done].
      intros k. by rewrite Hsf.
    - destruct (update_property top2 "settings" (JObj []) s)
        as (top3 & Hrun3 & Hs3 & Hkeep3).
      exists top3, []. split; [done|]. split; [done|]. split; [|done].
      intros k. by destruct (assoc "settings" fields) as [[]|]. }
  destruct Hstep3 as (top3 & sf & Hrun3 & Hs3 & Hsf & Hkeep3).
  erewrite bind_ok; [|exact Hrun3].
  destruct (update_setting top3 sf "enableMemory"
              (default (JBool false) (prop settings "enableMemory")) s Hs3)
    as (top4 & Hrun4 & Hs4 & Hkeep4).
  erewrite bind_ok; [|exact Hrun4].
  destruct (update_setting top4 _ "enableWebSearch"
              (default (JBool false) (prop settings "enableWebSearch")) s Hs4)
    as (top5 & Hrun5 & Hs5 & Hkeep5).
  erewrite bind_ok; [|exact Hrun5].
  destruct (update_setting top5 _ "webSearchApiKey"
              (or_else (prop settings "webSearchApiKey") (JStr "")) s Hs5)
    as (top6 & Hrun6 & Hs6 & Hkeep6).
  erewrite bind_ok; [|exact Hrun6].
  assert (Hstep7 : ∃ top7 sf7,
    match prop settings "defaultActiveCharacter" with
    | Some name =>
        update (Parsed (JObj top6)) (λ d,
          set_prop2 (Some d) "settings" "defaultActiveCharacter" name)
    | None => mret (Parsed (JObj top6))
    end s = (Ok (Parsed (JObj top7)), s) ∧
    assoc "settings" top7 = Some (JObj sf7) ∧
    assoc "enableMemory" sf7
    = Some (default (JBool false) (prop settings "enableMemory")) ∧
    assoc "enableWebSearch" sf7
    = Some (default (JBool false) (prop settings "enableWebSearch")) ∧
    assoc "webSearchApiKey" sf7
    = Some (or_else (prop settings "webSearchApiKey") (JStr "")) ∧
    (∀ dac, prop settings "defaultActiveCharacter" = Some dac →
            assoc "defaultActiveCharacter" sf7 = Some dac) ∧
    (∀ k, k ≠ "enableMemory" → k ≠ "enableWebSearch" → k ≠ "webSearchApiKey" →
          k ≠ "defaultActiveCharacter" → assoc k sf7 = assoc k sf) ∧
    (prop settings "defaultActiveCharacter" = None →
     assoc "defaultActiveCharacter" sf7 = assoc "defaultActiveCharacter" sf) ∧
    (∀ k', k' ≠ "settings" → assoc k' top7 = assoc k' top6)).
  { destruct (prop settings "defaultActiveCharacter") as [dac|].
    - destruct (update_setting top6 _ "defaultActiveCharacter" dac s Hs6)
        as (top7 & Hrun7 & Hs7 & Hkeep7).
      exists top7. eexists. split; [exact Hrun7|]. split; [exact Hs7|].
      split; [by rewrite assoc_assign_ne, assoc_assign_ne, assoc_assign_ne,
                assoc_assign_eq|].
      split; [by rewrite assoc_assign_ne, assoc_assign_ne, assoc_assign_eq|].
      split; [by rewrite assoc_assign_ne, assoc_assign_eq|].
      split; [intros ? [= <-]; by rewrite assoc_assign_eq|].
      split; [|split; [done|done]].
      intros k ? ? ? ?. by rewrite !assoc_assign_ne.
    - exists top6. eexists. split; [done|]. split; [exact Hs6|].
      split; [by rewrite assoc_assign_ne, assoc_assign_ne, assoc_assign_eq|].
      split; [by rewrite assoc_assign_ne, assoc_assign_eq|].
      split; [by rewrite assoc_assign_eq|].
      split; [done|].
      split; [|split; [|done]].
      + intros k ? ? ? ?. by rewrite !assoc_assign_ne.
      + intros _. by rewrite !assoc_assign_ne. }
  destruct Hstep7
    as (top7 & sf7 & Hrun7 & Hs7 & Hmem7 & Hweb7 & Hapi7 & Hset7 & Hsf7 & Hdac7
        & Hkeep7).
  erewrite bind_ok; [|exact Hrun7].
  erewrite bind_ok; [|reflexivity].
  rewrite writeFileContent_run.
  assert (Hkeep : ∀ k, k ≠ "user" → k ≠ "sharedMemory" → k ≠ "settings" →
                       assoc k top7 = assoc k fields).
  { intros k ? ? ?.
    by rewrite Hkeep7, Hkeep6, Hkeep5, Hkeep4, Hkeep3, Hkeep2, Hkeep1. }
  eexists. exists (JObj top7). split; [reflexivity|].
  split; [apply existing_document_put|]. cbn [prop].
  split; [exact Hkeep|]. split.
  { by rewrite Hkeep7, Hkeep6, Hkeep5, Hkeep4, Hkeep3, Hkeep2, Huser1 by done. }
  split.
  { by rewrite Hkeep7, Hkeep6, Hkeep5, Hkeep4, Hkeep3, Hshared2 by done. }
  rewrite Hs7. cbn [opt_member prop].
  split; [exact Hmem7|]. split; [exact Hweb7|]. split; [exact Hapi7|].
  split; [exact Hset7|].
  split.
  { intros k ? ? ? ?. by rewrite Hsf7, Hsf. }
  split.
  { intros Hnone. by rewrite Hdac7, Hsf. }
  split; [done|].
  intros Hfull. apply getUserSettings_document; [apply existing_document_put|].
  cbn [prop]. by rewrite !Hkeep.
Qed.

End StoreRoundTrips.

(** ** The profile store: a rotation keeps the documents *)

Section StoreRotation.
Import ProfileStorage.
Context {R : Runtime} {L : RuntimeLaws R}.

Implicit Types (s : Store R) (path name : string) (key : option string).

Section Loop.
Variables old new : string.
Hypothesis old_given : old ≠ "".
Hypothesis new_given : new ≠ "".
Hypothesis changed : old ≠ new.

Lemma reEncryptProfile_full name d s :
  shouldEncryptProfile name = true →
  full_format d = true →
  files s !! (name +:+ ".json") = Some (encrypt (JSON_stringify d) old) →
  reEncryptProfile old new name s
  = (Ok (), put_file (name +:+ ".json") (encrypt (JSON_stringify d) new) s).
Proof.
  intros Hp Hfull Hf. unfold reEncryptProfile. rewrite Hp. eff.
  erewrite (read_old_or_new_still_old old new); [|done..|exact Hf]. eff.
  unfold parse. rewrite parse_stringify. eff.
  rewrite saveProfile_run by (by intros ->). unfold outputContent, saved_document.
  by rewrite has_key_Some, Hp, Hfull by done.
Qed.

Lemma not_both (t t' : text) : encrypt t old = encrypt t' new → False.
Proof.
  intros Heq. pose proof (decrypt_encrypt t' new) as Hopen.
  rewrite <- Heq, decrypt_wrong_key in Hopen by done. done.
Qed.

(** The loop over the profiles, on full documents: every file is as it
    was, or held a document under [old] and holds the same document
    under [new]. *)
Lemma for_of_reEncryptProfile_keeps (names : list string) s :
  (∀ name, name ∈ names → shouldEncryptProfile name = true →
     ∃ d, full_format d = true ∧
          (files s !! (name +:+ ".json") = Some (encrypt (JSON_stringify d) old) ∨
           files s !! (name +:+ ".json") = Some (encrypt (JSON_stringify d) new))) →
  ∃ s',
    for_of names (reEncryptProfile old new) s = (Ok (), s') ∧
    defaultUserData s' = defaultUserData s ∧
    ∀ path,
      files s' !! path = files s !! path ∨
      ∃ name d,
        path = name +:+ ".json" ∧ name ∈ names ∧
        shouldEncryptProfile name = true ∧
        files s !! path = Some (encrypt (JSON_stringify d) old) ∧
        files s' !! path = Some (encrypt (JSON_stringify d) new).
Proof.
  revert s. induction names as [|n names IH]; intros s Hall.
  - exists s. split; [reflexivity|]. split; [done|]. intros path. by left.
  - cbn [for_of]. unfold mbind, Eff_bind at 1.
    destruct (shouldEncryptProfile n) eqn:Hp.
    + destruct (Hall n ltac:(apply elem_of_cons; by left) Hp)
        as (d & Hfull & [Hf|Hf]).
      * rewrite (reEncryptProfile_full n d s Hp Hfull Hf).
        destruct (IH (put_file (n +:+ ".json") (encrypt (JSON_stringify d) new) s))
          as (s' & Hrun & Hdef & Hfiles).
        { intros name Hin Hpn.
          destruct (decide (name +:+ ".json" = n +:+ ".json")) as [Heq|Hne].
          - exists d. split; [done|]. right. cbn.
            by rewrite Heq, lookup_insert_eq.
          - destruct (Hall name ltac:(apply elem_of_cons; by right) Hpn)
              as (d' & Hfull' & Hd').
            exists d'. split; [done|]. cbn. by rewrite lookup_insert_ne. }
        exists s'. split; [exact Hrun|]. split; [done|].
        intros path. destruct (decide (path = n +:+ ".json")) as [->|Hne].
        -- right. exists n, d. split; [done|].
           split; [apply elem_of_cons; by left|]. split; [done|].
           split; [done|].
           destruct (Hfiles (n +:+ ".json"))
             as [->|(name' & d' & _ & _ & _ & Hold' & _)].
           ++ cbn. by rewrite lookup_insert_eq.
           ++ cbn in Hold'. rewrite lookup_insert_eq in Hold'.
              injection Hold' as Hold'. symmetry in Hold'.
              by apply not_both in Hold'.
        -- destruct (Hfiles path)
             as [->|(name' & d' & Hpath & Hin & Hpn & Hold' & Hnew')].
           ++ left. cbn. by rewrite lookup_insert_ne.
           ++ right. exists name', d'. split; [done|].
              split; [apply elem_of_cons; by right|]. split; [done|].
              split; [|done]. cbn in Hold'.
              by rewrite lookup_insert_ne in Hold'.
      * rewrite (reEncryptProfile_already_new old new old_given new_given changed n s Hp)
          by by eexists.
        destruct (IH s) as (s' & Hrun & Hdef & Hfiles).
        { intros name Hin Hpn. apply Hall; [apply elem_of_cons; by right|done]. }
        exists s'. split; [exact Hrun|]. split; [done|].
        intros path. destruct (Hfiles path)
          as [->|(name' & d' & Hpath & Hin & Hpn & Hold' & Hnew')]; [by left|].
        right. exists name', d'. split; [done|].
        split; [apply elem_of_cons; by right|]. done.
    + rewrite (reEncryptProfile_public old new n s Hp).
      destruct (IH s) as (s' & Hrun & Hdef & Hfiles).
      { intros name Hin Hpn. apply Hall; [apply elem_of_cons; by right|done]. }
      exists s'. split; [exact Hrun|]. split; [done|].
      intros path. destruct (Hfiles path)
        as [->|(name' & d' & Hpath & Hin & Hpn & Hold' & Hnew')]; [by left|].
      right. exists name', d'. split; [done|].
      split; [apply elem_of_cons; by right|]. done.
Qed.

End Loop.

(** X24.  A rotation keeps what the documents say.  For two distinct
    passwords, on a corpus in which every private profile that
    [listProfiles] reports holds a full version-2.0 document under the
    old or already under the new password, and so does the user
    document: [reEncryptAllData] succeeds; afterwards every file is
    either exactly as it was, or it held a document under the old
    password and holds the same document under the new one.  So the
    files of public profiles, the legacy files and the avatars are not
    touched, and the module's defaults stay. *)
Theorem reEncryptAllData_keeps_documents old new s :
  old ≠ "" → new ≠ "" → old ≠ new →
  (∀ name, name ∈ profile_names s → shouldEncryptProfile name = true →
     ∃ d, full_format d = true ∧
          (files s !! (name +:+ ".json") = Some (encrypt (JSON_stringify d) old) ∨
           files s !! (name +:+ ".json") = Some (encrypt (JSON_stringify d) new))) →
  rotating old new "user-profile.json" s →
  ∃ s1,
    reEncryptAllData old new s = (Ok (), s1) ∧
    defaultUserData s1 = defaultUserData s ∧
    (∀ path,
       files s1 !! path = files s !! path ∨
       ∃ d, files s !! path = Some (encrypt (JSON_stringify d) old) ∧
            files s1 !! path = Some (encrypt (JSON_stringify d) new)) ∧
    (∀ name, shouldEncryptProfile name = false →
       files s1 !! (name +:+ ".json") = files s !! (name +:+ ".json")) ∧
    sealed_under "user-profile.json" new s1.
Proof.
  intros Hold Hnew Hne Hprofiles Huser.
  destruct (for_of_reEncryptProfile_keeps old new Hold Hnew Hne (profile_names s) s
              Hprofiles) as (s' & Hloop & Hdef & Hfiles).
  assert (Hname : ∀ name, shouldEncryptProfile name = false →
            files s' !! (name +:+ ".json") = files s !! (name +:+ ".json")).
  { intros name Hpub.
    destruct (Hfiles (name +:+ ".json"))
      as [->|(name' & d' & Hpath & _ & Hpriv & _)]; [done|].
    apply string_app_inv_tail in Hpath. congruence. }
  assert (Huser' : rotating old new "user-profile.json" s').
  { destruct (Hfiles "user-profile.json") as [Hsame|(name' & d' & _ & _ & _ & _ & Hn)].
    - unfold rotating, sealed_under. by rewrite Hsame.
    - right. by exists d'. }
  rewrite reEncryptAllData_unfold, Hloop.
  destruct Huser' as [[u Hu]|Hn].
  - eexists. split; [by apply reEncryptUserProfile_still_old|].
    split; [done|]. split; [|split].
    + intros path. destruct (decide (path = "user-profile.json")) as [->|Hp].
      * cbn. rewrite lookup_insert_eq.
        destruct (Hfiles "user-profile.json")
          as [Hsame|(name' & d' & _ & _ & _ & _ & Hn)].
        -- right. exists u. by rewrite <- Hsame.
        -- rewrite Hu in Hn. injection Hn as Hn.
           by apply (not_both old new Hne) in Hn.
      * cbn. rewrite lookup_insert_ne by done.
        destruct (Hfiles path)
          as [Hsame|(name' & d' & _ & _ & _ & Ho & Hn)]; [by left|].
        right. by exists d'.
    + intros name Hpub. cbn.
      rewrite lookup_insert_ne; [by apply Hname|].
      intros Heq. assert (Hpriv : shouldEncryptProfile name = true).
      { change "user-profile.json" with ("user-profile" +:+ ".json") in Heq.
        apply string_app_inv_tail in Heq. by subst. }
      congruence.
    + exists u. cbn. by rewrite lookup_insert_eq.
  - exists s'. split; [by apply reEncryptUserProfile_already_new|].
    split; [done|]. split; [|split; [done|done]].
    intros path. destruct (Hfiles path)
      as [Hsame|(name' & d' & _ & _ & _ & Ho & Hn')]; [by left|].
    right. by exists d'.
Qed.

End StoreRotation.

(** C7 on the corpus: an unknown id, then the id of the first favorite
    of ["Nova"]. *)
Lemma removeFavorite_spec_witness :
  ProfileStorage.removeFavorite "Nova" "fav-9" (Some "old-password") Examples.corpus
    = (Throw (Error "Favorite fav-9 not found"), Examples.corpus) ∧
  ∃ s' data',
    ProfileStorage.removeFavorite "Nova" "fav-1" (Some "old-password") Examples.corpus
    = (Ok true, s') ∧
    ProfileStorage.files s' !! "Nova.json"
    = Some (Ideal.Sealed "old-password" (Ideal.Doc data')) ∧
    ProfileStorage.getProfile "Nova" (Some "old-password") s' = (Ok data', s') ∧
    ProfileStorage.getFavorites "Nova" (Some "old-password") s'
    = (Ok (JArr [Examples.favorite "fav-2" "good night"]), s').
Proof.
  assert (Hdoc : ProfileStorage.character_document Examples.nova_doc
                   [Examples.favorite "fav-1" "hello";
                    Examples.favorite "fav-2" "good night"]).
  { split; [reflexivity|]. split.
    - eexists. split; [reflexivity|]. left. reflexivity.
    - repeat constructor; discriminate. }
  split.
  - apply (proj1 (removeFavorite_spec (L := ideal_laws) "Nova" "fav-9"
                    (Some "old-password") Examples.corpus
                    (Ideal.Doc Examples.nova_doc)
                    Examples.nova_doc _ eq_refl eq_refl Hdoc)).
    repeat constructor.
  - destruct (proj2 (removeFavorite_spec (L := ideal_laws) "Nova" "fav-1"
                       (Some "old-password") Examples.corpus
                       (Ideal.Doc Examples.nova_doc)
                       Examples.nova_doc _ eq_refl eq_refl Hdoc))
      as (s' & data' & kept & Hrun & Hfile & _ & Hget & Hfavs & _ & -> & _).
    + apply Exists_cons_hd. reflexivity.
    + exists s', data'. split; [exact Hrun|]. split; [exact Hfile|].
      split; [exact Hget|exact Hfavs].
Defined.

(** C7: an id stored twice.  [addFavorite] takes the id the caller
    gives, also one that is in the list already; [removeFavorite] with
    that id then removes both entries, not one. *)
Lemma removeFavorite_removes_every_entry :
  ∃ s1 s2,
    ProfileStorage.addFavorite "fav-3" "2025-02-02T00:00:00.000Z" "Nova"
      (JObj [("id", JStr "fav-1"); ("text", JStr "hello again")])
      (Some "old-password") Examples.corpus
    = (Ok (JObj [("id", JStr "fav-1"); ("text", JStr "hello again");
                 ("senderName", JStr "Unknown");
                 ("timestamp", JStr "2025-02-02T00:00:00.000Z");
                 ("emotion", JNull); ("sentiment", JNull)]), s1) ∧
    ProfileStorage.getFavorites "Nova" (Some "old-password") s1
    = (Ok (JArr [Examples.favorite "fav-1" "hello";
                 Examples.favorite "fav-2" "good night";
                 JObj [("id", JStr "fav-1"); ("text", JStr "hello again");
                       ("senderName", JStr "Unknown");
                       ("timestamp", JStr "2025-02-02T00:00:00.000Z");
                       ("emotion", JNull); ("sentiment", JNull)]]), s1) ∧
    ProfileStorage.removeFavorite "Nova" "fav-1" (Some "old-password") s1
    = (Ok true, s2) ∧
    ProfileStorage.getFavorites "Nova" (Some "old-password") s2
    = (Ok (JArr [Examples.favorite "fav-2" "good night"]), s2).
Proof.
  set (s1 := (ProfileStorage.addFavorite "fav-3" "2025-02-02T00:00:00.000Z" "Nova"
                (JObj [("id", JStr "fav-1"); ("text", JStr "hello again")])
                (Some "old-password") Examples.corpus).2).
  exists s1.
  exists (ProfileStorage.removeFavorite "Nova" "fav-1" (Some "old-password") s1).2.
  repeat split; vm_compute; reflexivity.
Qed.

(** The theorems above on the corpus. *)


(** X18: a document written under ["pw"] into an empty directory. *)
Lemma writeFileContent_then_readFileContent_witness :
  ∃ s1,
    ProfileStorage.writeFileContent (R := Ideal.runtime) "Nova.json"
      (Ideal.Doc Examples.nova_doc) (Some "pw") true (Examples.store [])
    = (Ok (), s1) ∧
    ProfileStorage.files s1 !! "Nova.json"
      = Some (Ideal.Sealed "pw" (Ideal.Doc Examples.nova_doc)) ∧
    ProfileStorage.readFileContent "Nova.json" (Some "pw") s1
      = (Ok (Ideal.Doc Examples.nova_doc), s1) ∧
    ProfileStorage.readFileContent "Nova.json" (Some "other") s1
      = (Throw (Error "Failed to decrypt file - incorrect password or corrupted data"),
         s1) ∧
    ProfileStorage.readFileContent "Nova.json" None s1
      = (Ok (Ideal.Sealed "pw" (Ideal.Doc Examples.nova_doc)), s1).
Proof.
  set (s1 := ProfileStorage.put_file (R := Ideal.runtime) "Nova.json"
               (Ideal.Sealed "pw" (Ideal.Doc Examples.nova_doc))
               (Examples.store [])).
  destruct (writeFileContent_then_readFileContent (L := ideal_laws) "Nova.json"
              (Ideal.Doc Examples.nova_doc) (Some "pw") true (Examples.store []) s1)
    as (_ & _ & Hread).
  - reflexivity.
  - assert (Hkey : ProfileStorage.has_key (Some "pw") && true = true)
      by (vm_compute; reflexivity).
    rewrite Hkey in Hread. destruct Hread as (Hfile & Hsame & Hother & Hnone).
    exists s1. split; [reflexivity|]. split; [exact Hfile|].
    split; [exact Hsame|]. split; [|exact Hnone].
    apply Hother; discriminate.
Defined.

(** X19: the document of ["Nova"] saved as it is. *)
Lemma saveProfile_full_document_witness :
  ∃ s1,
    ProfileStorage.saveProfile "Nova" Examples.nova_doc (Some "old-password")
      Examples.corpus = (Ok (), s1) ∧
    ProfileStorage.getProfile "Nova" (Some "old-password") s1
      = (Ok Examples.nova_doc, s1) ∧
    ProfileStorage.files s1 !! "Nova.json"
      = Some (Ideal.Sealed "old-password" (Ideal.Doc Examples.nova_doc)).
Proof.
  destruct (saveProfile_full_document (L := ideal_laws) "Nova" Examples.nova_doc
              (Some "old-password") Examples.corpus)
    as (s1 & Hsave & Hget & Hfile & _).
  - reflexivity.
  - exists s1. split; [exact Hsave|]. split; [exact Hget|exact Hfile].
Defined.

(** X20: a consent record saved over the one of the corpus. *)
Lemma saveConsent_then_getConsent_witness :
  ∃ s1,
    ProfileStorage.saveConsent
      (JObj [("accepted", JBool true); ("version", JStr "1.1")])
      (Some "old-password") Examples.corpus = (Ok (), s1) ∧
    ProfileStorage.getConsent (Some "old-password") s1
      = (Ok (JObj [("accepted", JBool true); ("version", JStr "1.1")]), s1).
Proof.
  destruct (saveConsent_then_getConsent (L := ideal_laws)
              (JObj [("accepted", JBool true); ("version", JStr "1.1")])
              (Some "old-password") Examples.corpus)
    as (s1 & Hsave & Hget & _).
  - reflexivity.
  - eexists. reflexivity.
  - intros d Hd. vm_compute in Hd. injection Hd as <-. eexists. reflexivity.
  - exists s1. split; [exact Hsave|exact Hget].
Defined.

(** X21: ["Nova"] made the active profile of the corpus. *)
Lemma setActiveProfile_then_getActiveProfile_witness :
  ∃ s1 doc,
    ProfileStorage.setActiveProfile "Nova" (Some "old-password") Examples.corpus
      = (Ok (), s1) ∧
    ProfileStorage.getActiveProfile (Some "old-password") s1 = (Ok (JStr "Nova"), s1) ∧
    ProfileStorage.existing_document "user-profile.json" (Some "old-password") s1
      = Some doc ∧
    prop doc "consent" = Some (JObj [("accepted", JBool true)]) ∧
    opt_member (prop doc "settings") "enableMemory" = Some (JBool true).
Proof.
  destruct (setActiveProfile_then_getActiveProfile (L := ideal_laws) "Nova"
              (Some "old-password") Examples.corpus
              [("version", JStr "2.0"); ("type", JStr "user");
               ("user", JObj [("name", JStr "Sam")]);
               ("settings", JObj [("enableMemory", JBool true)]);
               ("sharedMemory", JObj [("roleplayEvents", JArr [])]);
               ("consent", JObj [("accepted", JBool true)])])
    as (s1 & doc & Hset & Hget & Hdoc & Htop & Hsettings & _).
  - discriminate.
  - vm_compute. reflexivity.
  - reflexivity.
  - intros _. eexists. reflexivity.
  - exists s1, doc. split; [exact Hset|]. split; [exact Hget|].
    split; [exact Hdoc|]. split.
    + apply (Htop "consent"). discriminate.
    + apply (Hsettings "enableMemory"). discriminate.
Defined.

(** X22: a third favorite, without an id of its own, added to ["Nova"]
    and removed again. *)
Lemma addFavorite_then_getFavorites_witness :
  ∃ s1 s2,
    ProfileStorage.addFavorite "fav-3" "2025-02-02T00:00:00.000Z" "Nova"
      (JObj [("text", JStr "see you")]) (Some "old-password") Examples.corpus
    = (Ok (JObj [("id", JStr "fav-3"); ("text", JStr "see you");
                 ("senderName", JStr "Unknown");
                 ("timestamp", JStr "2025-02-02T00:00:00.000Z");
                 ("emotion", JNull); ("sentiment", JNull)]), s1) ∧
    ProfileStorage.getFavorites "Nova" (Some "old-password") s1
    = (Ok (JArr [Examples.favorite "fav-1" "hello";
                 Examples.favorite "fav-2" "good night";
                 JObj [("id", JStr "fav-3"); ("text", JStr "see you");
                       ("senderName", JStr "Unknown");
                       ("timestamp", JStr "2025-02-02T00:00:00.000Z");
                       ("emotion", JNull); ("sentiment", JNull)]]), s1) ∧
    ProfileStorage.removeFavorite "Nova" "fav-3" (Some "old-password") s1
    = (Ok true, s2) ∧
    ProfileStorage.getFavorites "Nova" (Some "old-password") s2
    = (Ok (JArr [Examples.favorite "fav-1" "hello";
                 Examples.favorite "fav-2" "good night"]), s2).
Proof.
  destruct (addFavorite_then_getFavorites (L := ideal_laws)
              "fav-3" "2025-02-02T00:00:00.000Z" "Nova"
              (JObj [("text", JStr "see you")]) (Some "old-password")
              Examples.corpus (Ideal.Doc Examples.nova_doc) Examples.nova_doc
              [Examples.favorite "fav-1" "hello";
               Examples.favorite "fav-2" "good night"])
    as (s1 & Hadd & Hget & _ & Hremove).
  - reflexivity.
  - reflexivity.
  - split; [reflexivity|]. split.
    + eexists. split; [reflexivity|]. left. reflexivity.
    + repeat constructor; discriminate.
  - discriminate.
  - destruct (Hremove "fav-3") as (s2 & Hrun & Hget2).
    + reflexivity.
    + repeat constructor.
    + exists s1, s2. split; [exact Hadd|]. split; [exact Hget|].
      split; [exact Hrun|exact Hget2].
Defined.

(** X23: the user of the corpus renamed. *)
Lemma saveUserSettings_then_getUserSettings_witness :
  ∃ s1 doc,
    ProfileStorage.saveUserSettings (JObj [("userName", JStr "Kim")])
      (Some "old-password") Examples.corpus = (Ok (), s1) ∧
    ProfileStorage.getUserSettings (Some "old-password") s1 = (Ok doc, s1) ∧
    prop doc "consent" = Some (JObj [("accepted", JBool true)]) ∧
    prop doc "user"
    = Some (JObj [("name", JStr "Kim"); ("gender", JStr "non-binary");
                  ("species", JStr "human"); ("timezone", JStr "UTC");
                  ("backstory", JStr "");
                  ("preferences",
                     JObj [("music", JArr []); ("books", JArr []);
                           ("movies", JArr []); ("hobbies", JArr []);
                           ("other", JStr "")]);
                  ("majorLifeEvents", JArr []);
                  ("communicationBoundaries", JStr "")]) ∧
    opt_member (prop doc "settings") "enableMemory" = Some (JBool false).
Proof.
  destruct (saveUserSettings_then_getUserSettings (L := ideal_laws)
              (JObj [("userName", JStr "Kim")])
              (Some "old-password") Examples.corpus
              [("version", JStr "2.0"); ("type", JStr "user");
               ("user", JObj [("name", JStr "Sam")]);
               ("settings", JObj [("enableMemory", JBool true)]);
               ("sharedMemory", JObj [("roleplayEvents", JArr [])]);
               ("consent", JObj [("accepted", JBool true)])])
    as (s1 & doc & Hsave & _ & Htop & Huser & _ & Hmem & _ & _ & _ & _ & _ & _ & Hget).
  - discriminate.
  - vm_compute. reflexivity.
  - intros _. eexists. reflexivity.
  - exists s1, doc. split; [exact Hsave|]. split; [exact (Hget eq_refl)|].
    split; [apply (Htop "consent"); discriminate|].
    split; [exact Huser|exact Hmem].
Defined.

(** X24: the corpus from ["old-password"] to ["new-password"]. *)
Lemma reEncryptAllData_keeps_documents_witness :
  ∃ s1,
    ProfileStorage.reEncryptAllData "old-password" "new-password" Examples.corpus
      = (Ok (), s1) ∧
    ProfileStorage.files s1 !! "Echo.json"
      = ProfileStorage.files Examples.corpus !! "Echo.json" ∧
    ProfileStorage.sealed_under "user-profile.json" "new-password" s1.
Proof.
  destruct (reEncryptAllData_keeps_documents (L := ideal_laws)
              "old-password" "new-password" Examples.corpus)
    as (s1 & Hrun & _ & _ & Hpublic & Huser).
  - discriminate.
  - discriminate.
  - discriminate.
  - intros name Hin Hp. apply list_elem_of_In in Hin. vm_compute in Hin.
    destruct Hin as [<-|[<-|[]]].
    + vm_compute in Hp. discriminate.
    + exists Examples.nova_doc. split; [reflexivity|]. left. reflexivity.
  - left. exists Examples.user_doc. reflexivity.
  - exists s1. split; [exact Hrun|]. split; [|exact Huser].
    apply (Hpublic "Echo"). reflexivity.
Defined.

(** ** The profile store: the legacy settings file *)

Section LegacySettings.
Import ProfileStorage.
Context {R : Runtime}.

Implicit Types (s : Store R) (key : option string).

(** The keys a settings object read from the legacy file can have. *)
Lemma legacy_settings_keys (content : string) :
  ∃ l,
    legacy_settings content = JObj l ∧
    (∀ k, k ∈ legacy_settings_defaults.*1 → is_Some (assoc k l)) ∧
    (∀ k, is_Some (assoc k l) →
       k ∈ legacy_settings_defaults.*1 ∨
       (k ∈ Object_prototype_names ∧ k ≠ "__proto__")).
Proof.
  unfold legacy_settings. eexists. split; [reflexivity|].
  generalize (split_lines content). intros lines.
  assert (Hstart :
    (∀ k, k ∈ legacy_settings_defaults.*1 →
          is_Some (assoc k legacy_settings_defaults)) ∧
    (∀ k, is_Some (assoc k legacy_settings_defaults) →
       k ∈ legacy_settings_defaults.*1 ∨
       (k ∈ Object_prototype_names ∧ k ≠ "__proto__"))).
  { split.
    - intros k Hk. apply list_elem_of_In in Hk. cbn in Hk.
      repeat (destruct Hk as [<-|Hk]; [by eexists|]). done.
    - intros k [v Hv]. left. cbn in Hv.
      repeat (case_bool_decide;
              [subst k; apply list_elem_of_In; cbn; tauto|]).
      done. }
  match goal with |- context [foldl ?f _ _] => set (step := f) end.
  enough (Hgen : ∀ l,
    (∀ k, k ∈ legacy_settings_defaults.*1 → is_Some (assoc k l)) ∧
    (∀ k, is_Some (assoc k l) →
       k ∈ legacy_settings_defaults.*1 ∨
       (k ∈ Object_prototype_names ∧ k ≠ "__proto__")) →
    (∀ k, k ∈ legacy_settings_defaults.*1 →
          is_Some (assoc k (foldl step l lines))) ∧
    (∀ k, is_Some (assoc k (foldl step l lines)) →
       k ∈ legacy_settings_defaults.*1 ∨
       (k ∈ Object_prototype_names ∧ k ≠ "__proto__"))).
  { by apply Hgen. }
  clear Hstart.
  induction lines as [|line lines IH]; intros l [Hhas Honly]; cbn [foldl];
    [done|].
  apply IH. subst step. cbn beta.
  destruct (cut_at_equals line) as [[before after]|]; [|done].
  unfold key_in.
  destruct (assoc (trim before) l) as [v|] eqn:Hassoc.
  - case_bool_decide as Hproto; [done|]. split.
    + intros k Hk. rewrite assoc_assign.
      case_bool_decide; [by eexists|by apply Hhas].
    + intros k. rewrite assoc_assign. case_bool_decide as Hk.
      * intros _. subst k. apply Honly. by eexists.
      * apply Honly.
  - case_bool_decide as Hin; [|done].
    case_bool_decide as Hproto; [done|]. split.
    + intros k Hk. rewrite assoc_assign.
      case_bool_decide; [by eexists|by apply Hhas].
    + intros k. rewrite assoc_assign. case_bool_decide as Hk.
      * intros _. subst k. by right.
      * apply Honly.
Qed.

(** X25.  [getUserSettings] without a stored version-2.0 user document
    (none can be read, or it is of another kind).  The answer is an
    object that has the eight settings of the legacy format; it is
    exactly the built-in defaults when there is no [user-settings.txt].
    A line of that file can set one of these eight, and beyond them
    only a name that every object inherits ([toString],
    [constructor], ...), never [__proto__] and never any other key. *)
Theorem getUserSettings_legacy key s :
  (∀ d, existing_document "user-profile.json" key s = Some d →
        is_string (prop d "version") "2.0" && is_string (prop d "type") "user"
        = false) →
  ∃ l,
    getUserSettings key s = (Ok (JObj l), s) ∧
    (files s !! "user-settings.txt" = None → l = legacy_settings_defaults) ∧
    (∀ k, k ∈ legacy_settings_defaults.*1 → is_Some (assoc k l)) ∧
    (∀ k, is_Some (assoc k l) →
       k ∈ legacy_settings_defaults.*1 ∨
       (k ∈ Object_prototype_names ∧ k ≠ "__proto__")).
Proof.
  intros Hnone.
  assert (Hrun : getUserSettings key s =
    match files s !! "user-settings.txt" with
    | Some content => (Ok (legacy_settings (utf8 content)), s)
    | None => (Ok (JObj legacy_settings_defaults), s)
    end).
  { unfold getUserSettings, existing_document in *. eff.
    destruct (readFileContent "user-profile.json" key s)
      as [[content|e] s0] eqn:Hread;
      apply readFileContent_state in Hread as Hs0; subst s0; cbn in Hnone; eff.
    - unfold parse. destruct (JSON_parse content) as [d|] eqn:Hp; eff.
      + specialize (Hnone d eq_refl).
        destruct d; eff; try rewrite Hnone; eff;
          unfold fs_readFile; destruct (files s !! "user-settings.txt");
          reflexivity.
      + unfold fs_readFile. by destruct (files s !! "user-settings.txt").
    - unfold fs_readFile. by destruct (files s !! "user-settings.txt"). }
  rewrite Hrun. destruct (files s !! "user-settings.txt") as [content|].
  - destruct (legacy_settings_keys (utf8 content)) as (l & -> & Hhas & Honly).
    exists l. split; [done|]. split; [done|]. by split.
  - destruct (legacy_settings_keys "") as (l & Hl & Hhas & Honly).
    exists legacy_settings_defaults. split; [reflexivity|].
    split; [intros _; reflexivity|].
    assert (Heq : l = legacy_settings_defaults).
    { vm_compute in Hl. by injection Hl as <-. }
    subst l. by split.
Qed.

End LegacySettings.

(** X25: a legacy file with a known key, an unknown key and an
    inherited name. *)
Lemma getUserSettings_legacy_witness :
  ∃ l,
    ProfileStorage.getUserSettings None
      (Examples.store
         [("user-settings.txt",
           Ideal.Raw ("userName=Kim" +:+ String "010"
                      ("theme=dark" +:+ String "010" "toString=x")))])
    = (Ok (JObj l),
       Examples.store
         [("user-settings.txt",
           Ideal.Raw ("userName=Kim" +:+ String "010"
                      ("theme=dark" +:+ String "010" "toString=x")))]) ∧
    assoc "userName" l = Some (JStr "Kim") ∧
    assoc "theme" l = None ∧
    assoc "toString" l = Some (JStr "x").
Proof.
  destruct (getUserSettings_legacy None
              (Examples.store
                 [("user-settings.txt",
                   Ideal.Raw ("userName=Kim" +:+ String "010"
                              ("theme=dark" +:+ String "010" "toString=x")))]))
    as (l & Hrun & _).
  - intros d Hd. vm_compute in Hd. discriminate.
  - exists l. split; [exact Hrun|].
    vm_compute in Hrun. injection Hrun as <-.
    repeat split; reflexivity.
Defined.
